(** * uniFinance: the dataset loader and the model trainer

    A shallow embedding of [projeto/src/data/data_load.py] and
    [projeto/src/train/train.py].

    Python dictionaries are [gmap]s, exceptions are values of an
    error monad, and every call that leaves the process (logger,
    configuration, file system, tracking server, scikit-learn) is
    recorded in a trace of events, so that statements about what is
    done, and in which order, are statements about that trace.

    Validation metrics are binary64 floats in the program.  They are
    only compared here ([<], [==], maximum), never computed with, so
    they are embedded as rationals [Q]: the order of finite floats is
    the order of the rationals they denote.  NaN metrics are outside
    the model. *)

From Stdlib Require Import Ascii QArith Qminmax Permutation Sorted.
From stdpp Require Import gmap strings list.

(** ** Python exceptions and outcomes *)

Module Py.

(** The exception classes the two modules can meet, with the
    hierarchy of CPython, pandas and MLflow. *)
Inductive exc_class :=
  | BaseException
  | KeyboardInterrupt
  | SystemExit
  | Exception
  | ValueError
  | TypeError
  | LookupError
  | KeyError
  | IndexError
  | OSError
  | FileNotFoundError
  | PermissionError
  | UnicodeDecodeError
  | ParserError
  | EmptyDataError
  | NameError
  | SyntaxError
  | MlflowException.

#[global] Instance exc_class_eq_dec : EqDecision exc_class.
Proof. solve_decision. Defined.

(** The direct base class ([cls.__bases__]); [BaseException] is the
    root. *)
Definition base (c : exc_class) : option exc_class :=
  match c with
  | BaseException => None
  | KeyboardInterrupt | SystemExit | Exception => Some BaseException
  | ValueError | TypeError | LookupError | OSError
  | NameError | SyntaxError | MlflowException => Some Exception
  | KeyError | IndexError => Some LookupError
  | FileNotFoundError | PermissionError => Some OSError
  | UnicodeDecodeError | ParserError | EmptyDataError => Some ValueError
  end.

(** [issubclass c d], walking up the bases; the hierarchy above has
    depth four. *)
Fixpoint issubclass_fuel (fuel : nat) (c d : exc_class) : bool :=
  if bool_decide (c = d) then true
  else match fuel with
       | O => false
       | S fuel' =>
           match base c with
           | Some c' => issubclass_fuel fuel' c' d
           | None => false
           end
       end.

Definition issubclass : exc_class -> exc_class -> bool := issubclass_fuel 4.

(** A raised exception: its class and [str(e)]. *)
Record exn := Exn { exc_cls : exc_class; exc_str : string }.

Definition isinstance (e : exn) (c : exc_class) : bool :=
  issubclass (exc_cls e) c.

(** What evaluating a Python expression gives: a value, or an
    exception in flight. *)
Inductive result (A : Type) :=
  | Ok (a : A)
  | Raise (e : exn).
Arguments Ok {A} a.
Arguments Raise {A} e.

Definition is_ok {A} (r : result A) : bool :=
  match r with Ok _ => true | Raise _ => false end.

End Py.
Export Py.

(** ** Effects: a computation reads a world and appends to a trace *)

Module Eff.

Section Monad.
(** [Ev] is the type of events, [W] the mutable world. *)
Context {Ev W : Type}.

Definition M (A : Type) : Type := W -> list Ev -> result A * W * list Ev.

Definition ret {A} (a : A) : M A := fun w tr => (Ok a, w, tr).

Definition raise {A} (e : exn) : M A := fun w tr => (Raise e, w, tr).

Definition bind {A B} (m : M A) (k : A -> M B) : M B :=
  fun w tr =>
    match m w tr with
    | (Ok a, w', tr') => k a w' tr'
    | (Raise e, w', tr') => (Raise e, w', tr')
    end.

(** [try: m except e: h e].  Effects of [m] up to the raise stay. *)
Definition try_except {A} (m : M A) (h : exn -> M A) : M A :=
  fun w tr =>
    match m w tr with
    | (Ok a, w', tr') => (Ok a, w', tr')
    | (Raise e, w', tr') => h e w' tr'
    end.

Definition emit (ev : Ev) : M unit := fun w tr => (Ok tt, w, tr ++ [ev]).

Definition get : M W := fun w tr => (Ok w, w, tr).

Definition put (w : W) : M unit := fun _ tr => (Ok tt, w, tr).

Definition lift {A} (r : result A) : M A := fun w tr => (r, w, tr).
End Monad.

Arguments M : clear implicits.

End Eff.

Declare Scope eff_scope.
Delimit Scope eff_scope with eff.
Notation "x <- m ;; k" := (Eff.bind m (fun x => k))
  (at level 100, m at next level, right associativity) : eff_scope.
Notation "m ;;; k" := (Eff.bind m (fun _ => k))
  (at level 100, right associativity) : eff_scope.

(** ** pandas: the tables read from CSV files *)

Module Pandas.

(** A cell of a CSV table; [None] is a missing value. *)
Definition cell := option string.

(** A [DataFrame] read from a file: the header and the rows in file
    order (the index is the default [RangeIndex]). *)
Record DataFrame := mkDataFrame {
  df_columns : list string;
  df_rows : list (list cell)
}.

(** Position of the first column called [c]. *)
Fixpoint column_index (cols : list string) (c : string) : option nat :=
  match cols with
  | [] => None
  | c' :: cols' =>
      if String.eqb c' c then Some 0
      else S <$> column_index cols' c
  end.

Definition has_column (df : DataFrame) (c : string) : bool :=
  bool_decide (is_Some (column_index (df_columns df) c)).

(** The cell of [row] under column [c] of [df]. *)
Definition row_get (df : DataFrame) (row : list cell) (c : string) : cell :=
  match column_index (df_columns df) c with
  | Some i => default None (row !! i)
  | None => None
  end.

(** [df[cols]] for a list of labels: a [KeyError] when a label is not
    a column, else the columns [cols] in that order, same rows. *)
Definition getitem_list (df : DataFrame) (cols : list string) : result DataFrame :=
  match List.find (fun c => negb (has_column df c)) cols with
  | Some missing =>
      Raise (Exn KeyError ("['" +:+ missing +:+ "'] not in index"))
  | None =>
      Ok {| df_columns := cols;
            df_rows := (fun row => (fun c => row_get df row c) <$> cols) <$> df_rows df |}
  end.

(** [df[c]] for one label: the column as a [Series]. *)
Definition getitem_label (df : DataFrame) (c : string) : result (list cell) :=
  if has_column df c
  then Ok ((fun row => row_get df row c) <$> df_rows df)
  else Raise (Exn KeyError c).

End Pandas.

(** ** data_load.py *)

Module DataLoad.
Import Pandas.
Local Open Scope eff_scope.

(** A value of the configuration mapping. *)
Inductive cfg_value :=
  | CfgNull
  | CfgStr (s : string)
  | CfgList (l : list string).

(** What [load_data] sees of the outside: the configuration returned
    by [load_config_file()], the directory three levels above
    [data_load.py], and what [pd.read_csv] does on each path. *)
Record World := mkWorld {
  config_file : result (gmap string cfg_value);
  project_root : string;
  read_csv : string -> result DataFrame
}.

Inductive event :=
  | LogInfo (msg : string)
  | LogError (msg : string)
  | ConfigLoaded
  | CsvRead (path : string).

(** What [load_data] hands back. *)
Inductive retval :=
  | RNone
  | RFrame (df : DataFrame)
  | RSeries (name : string) (values : list cell).

Abbreviation M := (Eff.M event World).

Definition load_config_file : M (gmap string cfg_value) :=
  w <- Eff.get ;;
  Eff.emit ConfigLoaded ;;;
  Eff.lift (config_file w).

(** [posixpath.join] on two components. *)
Definition path_join (path b : string) : string :=
  if String.prefix "/" b then b
  else if bool_decide (path = "") || String.eqb (String.substring (String.length path - 1) 1 path) "/"
       then path +:+ b
       else path +:+ "/" +:+ b.

(** [os.path.join(path, "data", "raw", dataset)]; a dataset entry that
    is not a string is a [TypeError]. *)
Definition os_path_join (path : string) (dataset : cfg_value) : M string :=
  match dataset with
  | CfgStr file => Eff.ret (path_join (path_join (path_join path "data") "raw") file)
  | _ => Eff.raise (Exn TypeError "expected str, bytes or os.PathLike object")
  end.

Definition pd_read_csv (path : string) : M DataFrame :=
  w <- Eff.get ;;
  Eff.emit (CsvRead path) ;;;
  Eff.lift (read_csv w path).

(** [loaded_data[key]] with [key] the configured [columns_to_use]. *)
Definition getitem (df : DataFrame) (key : option cfg_value) : M retval :=
  match key with
  | Some (CfgList cols) => Eff.lift (match getitem_list df cols with
                                     | Ok df' => Ok (RFrame df')
                                     | Raise e => Raise e
                                     end)
  | Some (CfgStr c) => Eff.lift (match getitem_label df c with
                                 | Ok vs => Ok (RSeries c vs)
                                 | Raise e => Raise e
                                 end)
  | Some CfgNull | None => Eff.raise (Exn KeyError "None")
  end.

(** The body of the [try] block of [load_data]. *)
Definition load_data_body (dataset_name : string) : M retval :=
  cfg <- load_config_file ;;
  match cfg !! dataset_name with
  | None | Some CfgNull =>
      Eff.raise (Exn ValueError "Erro: O nome do dataset fornecido é incorreto: None")
  | Some dataset =>
      w <- Eff.get ;;
      dataset_path <- os_path_join (project_root w) dataset ;;
      loaded_data <- pd_read_csv dataset_path ;;
      cfg' <- load_config_file ;;
      getitem loaded_data (cfg' !! "columns_to_use")
  end.

(** The two [except] clauses, in order; an exception that is neither
    a [ValueError] nor an [Exception] is not caught.  After a handler
    the function falls off its end and returns [None]. *)
Definition load_data_handler (e : exn) : M retval :=
  if isinstance e ValueError then
    Eff.emit (LogError (exc_str e)) ;;; Eff.ret RNone
  else if isinstance e Exception then
    Eff.emit (LogError ("Erro inesperado: " +:+ exc_str e)) ;;; Eff.ret RNone
  else Eff.raise e.

Definition load_data (dataset_name : string) : M retval :=
  Eff.emit (LogInfo ("Começando a carga dos dados com o nome " +:+ dataset_name)) ;;;
  Eff.try_except (load_data_body dataset_name) load_data_handler.

(** Running [load_data] from an empty trace. *)
Definition run_load_data (w : World) (dataset_name : string)
  : result retval * list event :=
  let '(r, _, tr) := load_data dataset_name w [] in (r, tr).

Definition reads_csv (tr : list event) : bool :=
  existsb (fun ev => match ev with CsvRead _ => true | _ => false end) tr.

Definition logs_error (tr : list event) : bool :=
  existsb (fun ev => match ev with LogError _ => true | _ => false end) tr.

End DataLoad.

(** ** The MLflow tracking server and model registry *)

Module Mlflow.

Inductive run_status := RUNNING | FINISHED | FAILED.

(** A run of the experiment [prob_loan]: its name, its logged
    metrics (latest value per key), its parameters and the tags set
    by the clients of the API (the tags that MLflow keeps for itself
    are left out). *)
Record Run := mkRun {
  run_id : string;
  run_name : option string;
  status : run_status;
  metrics : gmap string Q;
  params : gmap string string;
  tags : gmap string string
}.

(** Registry stages; a new version starts in [StageNone]. *)
Inductive stage := StageNone | Staging | Production | Archived.

#[global] Instance stage_eq_dec : EqDecision stage.
Proof. solve_decision. Defined.

Record ModelVersion := mkModelVersion {
  mv_name : string;
  version : nat;
  current_stage : stage;
  mv_run_id : string
}.

(** The state kept by the server at [http://127.0.0.1:5000]: the runs
    in the order [search_runs] returns them (most recent first), the
    registered model names, all model versions and the aliases. *)
Record Server := mkServer {
  runs : list Run;
  registered_models : gset string;
  model_versions : list ModelVersion;
  aliases : gmap (string * string) nat
}.

(** The filter strings of [search_runs] that the trainer uses:
    [metrics.<key> < <bound>]. *)
Inductive run_filter := MetricLt (key : string) (bound : Q).

Definition Qlt_b (x y : Q) : bool := negb (Qle_bool y x).

(** A run without the metric does not match. *)
Definition matches (f : run_filter) (r : Run) : bool :=
  match f with
  | MetricLt key bound =>
      match metrics r !! key with
      | Some m => Qlt_b m bound
      | None => false
      end
  end.

Definition versions_of (name : string) (s : Server) : list ModelVersion :=
  List.filter (fun mv => String.eqb (mv_name mv) name) (model_versions s).

(** The number of the next version of a model: one more than the
    largest so far. *)
Definition next_version (mvs : list ModelVersion) : nat :=
  S (foldr Nat.max 0 (version <$> mvs)).

(** What the server chooses by itself.  [new_run_id] is the identifier
    given to a run being created, never one in use; [new_run_name] is
    the name made up for a run created without one.
    [latest_versions] is the [latest_versions] attribute of a
    registered model: for every stage that has a version, the version
    of that stage with the largest number, once; the order of that
    list depends on the backend store and is not fixed here. *)
Class Backend := {
  new_run_id : list Run -> string;
  new_run_id_fresh : forall rs, new_run_id rs ∉ (run_id <$> rs);
  new_run_name : list Run -> string;
  latest_versions : list ModelVersion -> list ModelVersion;
  latest_versions_sound : forall mvs mv,
    mv ∈ latest_versions mvs ->
    mv ∈ mvs /\
    forall mv', mv' ∈ mvs -> current_stage mv' = current_stage mv ->
                version mv' <= version mv;
  latest_versions_complete : forall mvs mv,
    mv ∈ mvs ->
    exists mv', mv' ∈ latest_versions mvs /\ current_stage mv' = current_stage mv;
  latest_versions_once : forall mvs,
    NoDup (current_stage <$> latest_versions mvs)
}.

End Mlflow.

(** ** pandas: the table of runs returned by [mlflow.search_runs] *)

Module RunsTable.
Import Mlflow.

(** One row: its index label and the run it describes.  The cell
    under [metrics.k] is [row_metrics !! k], the cell under
    [params.k] is [row_params !! k]; a missing entry is NaN/None. *)
Record Row := mkRow {
  label : nat;
  row_run_id : string;
  row_metrics : gmap string Q;
  row_params : gmap string string
}.

(** The frame: which [metrics.*] and [params.*] columns exist, and
    the rows in order. *)
Record RunsFrame := mkRunsFrame {
  metric_columns : gset string;
  param_columns : gset string;
  rows : list Row
}.

Definition row_of_run (i : nat) (r : Run) : Row :=
  {| label := i; row_run_id := run_id r;
     row_metrics := metrics r; row_params := params r |}.

(** [search_runs] builds one column for every metric key and every
    parameter key met in the runs it returns, and numbers the rows
    0, 1, 2, ... *)
Definition frame_of_runs (rs : list Run) : RunsFrame :=
  {| metric_columns := ⋃ ((fun r => dom (metrics r)) <$> rs);
     param_columns := ⋃ ((fun r => dom (params r)) <$> rs);
     rows := imap row_of_run rs |}.

(** Order of the cells of a float column under a descending sort:
    larger first, NaN last. *)
Definition cell_ge (a b : option Q) : Prop :=
  match a, b with
  | Some x, Some y => (y <= x)%Q
  | _, None => True
  | None, Some _ => False
  end.

(** [sort_values(..., ascending=False)] with the default
    [kind="quicksort"]: the rows rearranged so that the keys descend.
    The sort is not stable, so the order among rows with equal keys
    is left to the instance. *)
Class Sorting := {
  sort_desc : (Row -> option Q) -> list Row -> list Row;
  sort_desc_perm : forall key l, sort_desc key l ≡ₚ l;
  sort_desc_sorted : forall key l,
    StronglySorted (fun a b => cell_ge (key a) (key b)) (sort_desc key l)
}.

Definition metric_cell (col : string) (r : Row) : option Q := row_metrics r !! col.

(** [df.sort_values("metrics.<col>", ascending=False)] *)
Definition sort_values `{Sorting} (df : RunsFrame) (col : string) : result RunsFrame :=
  if bool_decide (col ∈ metric_columns df)
  then Ok {| metric_columns := metric_columns df;
             param_columns := param_columns df;
             rows := sort_desc (metric_cell col) (rows df) |}
  else Raise (Exn KeyError ("metrics." +:+ col)).

(** Scan of [argmax]: the candidate is replaced only by a strictly
    larger value, so the first occurrence of the maximum wins. *)
Fixpoint argmax_from (best : nat * Q) (l : list (nat * Q)) : nat * Q :=
  match l with
  | [] => best
  | x :: l' => argmax_from (if Qlt_b (snd best) (snd x) then x else best) l'
  end.

(** The non-NaN cells of a metric column with their labels. *)
Definition labelled_values (df : RunsFrame) (col : string) : list (nat * Q) :=
  omap (fun r => (fun m => (label r, m)) <$> metric_cell col r) (rows df).

(** [df["metrics.<col>"].idxmax()]: the label of the first row holding
    the maximum; [ValueError] on an empty column. *)
Definition idxmax (df : RunsFrame) (col : string) : result nat :=
  if bool_decide (col ∈ metric_columns df) then
    match labelled_values df col with
    | [] => Raise (Exn ValueError "attempt to get argmax of an empty sequence")
    | x :: l => Ok (fst (argmax_from x l))
    end
  else Raise (Exn KeyError ("metrics." +:+ col)).

(** [df.loc[lbl]]: the row labelled [lbl]. *)
Definition loc (df : RunsFrame) (lbl : nat) : result Row :=
  match List.find (fun r => Nat.eqb (label r) lbl) (rows df) with
  | Some r => Ok r
  | None => Raise (Exn KeyError "label")
  end.

(** [row["metrics.<col>"]] *)
Definition row_metric (df : RunsFrame) (r : Row) (col : string) : result (option Q) :=
  if bool_decide (col ∈ metric_columns df) then Ok (metric_cell col r)
  else Raise (Exn KeyError ("metrics." +:+ col)).

(** [df.loc[df["run_id"] == rid]] *)
Definition loc_run_id (df : RunsFrame) (rid : string) : RunsFrame :=
  {| metric_columns := metric_columns df;
     param_columns := param_columns df;
     rows := List.filter (fun r => String.eqb (row_run_id r) rid) (rows df) |}.

(** A frame of parameter columns only: the column names (without the
    [params.] prefix) and, for every row, its label and its cells in
    the order of the columns. *)
Record ParamsFrame := mkParamsFrame {
  pf_columns : list string;
  pf_rows : list (nat * list (option string))
}.

(** [df[["params.k1", ..., "params.kn"]]] *)
Definition select_params (df : RunsFrame) (cols : list string) : result ParamsFrame :=
  match List.find (fun c => negb (bool_decide (c ∈ param_columns df))) cols with
  | Some missing => Raise (Exn KeyError ("params." +:+ missing))
  | None =>
      Ok {| pf_columns := cols;
            pf_rows := (fun r => (label r, (fun c => row_params r !! c) <$> cols)) <$> rows df |}
  end.

(** [df["params.<col>"].values[0]] *)
Definition values0 (df : ParamsFrame) (col : string) : result (option string) :=
  match Pandas.column_index (pf_columns df) col with
  | None => Raise (Exn KeyError ("params." +:+ col))
  | Some i =>
      match pf_rows df with
      | [] => Raise (Exn IndexError "index 0 is out of bounds for axis 0 with size 0")
      | (_, cells) :: _ => Ok (default None (cells !! i))
      end
  end.

End RunsTable.

(** ** train.py *)

Module Train.
Import Mlflow RunsTable.
Import Pandas.
Local Open Scope eff_scope.

(** The Python objects that [eval] can return. *)
Class PyObjects := { pyobj : Type }.

(** [sklearn.linear_model.LogisticRegression(...)]: the arguments
    that [run] passes and, of those it leaves out, the intercept and
    penalty settings with the defaults of the library. *)
Record LogisticRegression `{PyObjects} := mkLogisticRegression {
  warm_start : pyobj;
  multi_class : option string;
  class_weight : option string;
  max_iter : Z;
  C : Q;
  solver : option string;
  tol : Q;
  fit_intercept : bool;
  penalty : string
}.

(** The constructor call of [run], keyword by keyword; the keywords
    not given take their defaults. *)
Definition new_LogisticRegression `{PyObjects}
    (warm_start : pyobj) (multi_class class_weight : option string)
    (max_iter : Z) (C : Q) (solver : option string) (tol : Q)
  : LogisticRegression :=
  {| warm_start := warm_start; multi_class := multi_class;
     class_weight := class_weight; max_iter := max_iter; C := C;
     solver := solver; tol := tol;
     fit_intercept := true; penalty := "l2" |}.

(** [Pipeline([("imputer", _), ("discretizer", _), ("scaler", _), ("model", _)])] *)
Record Pipeline `{PyObjects} := mkPipeline {
  imputer : pyobj;
  discretizer : pyobj;
  scaler : pyobj;
  model : LogisticRegression
}.

(** scikit-learn and the evaluation helper
    [ModelEvaluation(model, X, y).evaluate_predictions(y_true, y_score)]. *)
Class Sklearn `{PyObjects} := {
  fitted : Type;
  fit : Pipeline -> DataFrame -> DataFrame -> result fitted;
  predict_proba : fitted -> DataFrame -> result (list (list Q));
  predict_log_proba : fitted -> DataFrame -> result (list (list Q));
  evaluate_predictions :
    LogisticRegression -> DataFrame -> DataFrame -> DataFrame -> list Q -> result Q
}.

(** The instance of [TrainModels]. *)
Record TrainModels := mkTrainModels {
  dados_X : DataFrame;
  dados_y : DataFrame;
  model_name : string
}.

(** The local names of [run] at a call of [eval]: [self], the names
    [_] and [df_best_params] bound to the pair that [get_best_model]
    returned, and [model] once the classifier is assigned.  [eval]
    is called with the source text only, so the expression is
    evaluated with these locals (and the globals of [train.py], which
    do not change). *)
Record Scope `{PyObjects} := mkScope {
  scope_self : TrainModels;
  scope_underscore : option Q;
  scope_df_best_params : ParamsFrame;
  scope_model : option LogisticRegression
}.

(** The Python built-ins applied to the recorded parameter strings:
    [eval(s)] in the scope of the call, [int(s)] and [float(s)].
    The strings evaluated are taken to be expressions that read their
    scope and build an object, without effect of their own on the
    tracking server, the trace or the names of [run]. *)
Class Builtins `{PyObjects} := {
  py_eval : Scope -> string -> result pyobj;
  py_int : string -> result Z;
  py_float : string -> result Q
}.

(** The tracking server together with the stack of active runs that
    the fluent API of MLflow keeps in the process. *)
Record World := mkWorld {
  server : Server;
  active_runs : list string
}.

Inductive event :=
  | LogInfo (msg : string)
  | SearchRuns (f : run_filter)
  | StartRun (rid : string) (name : option string)
  | EndRun (rid : string) (st : run_status)
  | SetTag (rid key value : string)
  | LogMetric (rid key : string) (value : Q)
  | Fit
  | PredictLogProba
  | Evaluate (y_true : DataFrame) (y_score : list Q)
  | LogModel (rid artifact_path pyfunc_predict_fn : string)
             (input_example : DataFrame) (registered_model_name : string)
  | CreateModelVersion (name : string) (v : nat) (rid : string)
  | GetRegisteredModel (name : string)
  | SetAlias (name alias : string) (v : nat).

Abbreviation M := (Eff.M event World).

Definition modify_server (f : Server -> Server) : M unit :=
  w <- Eff.get ;;
  Eff.put {| server := f (server w); active_runs := active_runs w |}.

Definition set_active (stack : list string) : M unit :=
  w <- Eff.get ;;
  Eff.put {| server := server w; active_runs := stack |}.

(** *** The MLflow calls *)

(** [mlflow.search_runs(filter_string=f)] as a pandas frame. *)
Definition search_runs (f : run_filter) : M RunsFrame :=
  w <- Eff.get ;;
  Eff.emit (SearchRuns f) ;;;
  Eff.ret (frame_of_runs (List.filter (matches f) (runs (server w)))).

Definition add_run (r : Run) (s : Server) : Server :=
  {| runs := r :: runs s; registered_models := registered_models s;
     model_versions := model_versions s; aliases := aliases s |}.

Definition update_run (rid : string) (f : Run -> Run) (s : Server) : Server :=
  {| runs := (fun r => if String.eqb (run_id r) rid then f r else r) <$> runs s;
     registered_models := registered_models s;
     model_versions := model_versions s; aliases := aliases s |}.

(** A run just created, and the three ways a run is changed. *)
Definition new_run (rid : string) (name : option string) : Run :=
  {| run_id := rid; run_name := name; status := RUNNING;
     metrics := ∅; params := ∅; tags := ∅ |}.

Definition with_status (st : run_status) (r : Run) : Run :=
  {| run_id := run_id r; run_name := run_name r; status := st;
     metrics := metrics r; params := params r; tags := tags r |}.

Definition with_tag (key value : string) (r : Run) : Run :=
  {| run_id := run_id r; run_name := run_name r; status := status r;
     metrics := metrics r; params := params r;
     tags := <[key := value]> (tags r) |}.

Definition with_metric (key : string) (value : Q) (r : Run) : Run :=
  {| run_id := run_id r; run_name := run_name r; status := status r;
     metrics := <[key := value]> (metrics r); params := params r;
     tags := tags r |}.

(** The name a run is stored under: the one given to [start_run],
    or else one that MLflow makes up. *)
Definition stored_name `{Backend} (name : option string) (rs : list Run) : option string :=
  match name with
  | Some n => Some n
  | None => Some (new_run_name rs)
  end.

(** [mlflow.start_run(run_name=name)]: refused while a run is active
    (no [nested=True]); else a new run is created and made active. *)
Definition start_run `{Backend} (name : option string) : M string :=
  w <- Eff.get ;;
  match active_runs w with
  | rid :: _ =>
      Eff.raise (Exn Exception ("Run with UUID " +:+ rid +:+ " is already active"))
  | [] =>
      let rid := new_run_id (runs (server w)) in
      modify_server (add_run (new_run rid (stored_name name (runs (server w))))) ;;;
      set_active [rid] ;;;
      Eff.emit (StartRun rid name) ;;;
      Eff.ret rid
  end.

(** [mlflow.end_run(status)]: pops the active run. *)
Definition end_run (st : run_status) : M unit :=
  w <- Eff.get ;;
  match active_runs w with
  | [] => Eff.ret tt
  | rid :: stack =>
      modify_server (update_run rid (with_status st)) ;;;
      set_active stack ;;;
      Eff.emit (EndRun rid st)
  end.

(** [with mlflow.start_run(run_name=name): body] *)
Definition with_start_run `{Backend} {A} (name : option string) (body : M A) : M A :=
  start_run name ;;;
  a <- Eff.try_except body (fun e => end_run FAILED ;;; Eff.raise e) ;;
  end_run FINISHED ;;;
  Eff.ret a.

(** The run that a logging call of the fluent API writes to: the
    active one, or a run started on the spot when none is active,
    by [start_run()] without a name. *)
Definition get_or_start_run `{Backend} : M string :=
  w <- Eff.get ;;
  match active_runs w with
  | rid :: _ => Eff.ret rid
  | [] => start_run None
  end.

Definition set_tag `{Backend} (key value : string) : M unit :=
  rid <- get_or_start_run ;;
  modify_server (update_run rid (with_tag key value)) ;;;
  Eff.emit (SetTag rid key value).

Definition log_metric `{Backend} (key : string) (value : Q) : M unit :=
  rid <- get_or_start_run ;;
  modify_server (update_run rid (with_metric key value)) ;;;
  Eff.emit (LogMetric rid key value).

Definition add_version (mv : ModelVersion) (s : Server) : Server :=
  {| runs := runs s;
     registered_models := {[mv_name mv]} ∪ registered_models s;
     model_versions := model_versions s ++ [mv]; aliases := aliases s |}.

(** A version just created: no stage yet. *)
Definition new_version (name : string) (v : nat) (rid : string) : ModelVersion :=
  {| mv_name := name; version := v; current_stage := StageNone; mv_run_id := rid |}.

(** [mlflow.sklearn.log_model(pipe, artifact_path, pyfunc_predict_fn=...,
    input_example=..., registered_model_name=name)]: the artifact goes
    to the active run and a new version of [name] is created. *)
Definition log_model `{Backend} (artifact_path pyfunc_predict_fn : string)
    (input_example : DataFrame) (name : string) : M nat :=
  rid <- get_or_start_run ;;
  Eff.emit (LogModel rid artifact_path pyfunc_predict_fn input_example name) ;;;
  w <- Eff.get ;;
  let v := next_version (versions_of name (server w)) in
  modify_server (add_version (new_version name v rid)) ;;;
  Eff.emit (CreateModelVersion name v rid) ;;;
  Eff.ret v.

(** [client.get_registered_model(name).latest_versions] *)
Definition get_registered_model `{Backend} (name : string) : M (list ModelVersion) :=
  w <- Eff.get ;;
  Eff.emit (GetRegisteredModel name) ;;;
  if bool_decide (name ∈ registered_models (server w))
  then Eff.ret (latest_versions (versions_of name (server w)))
  else Eff.raise (Exn MlflowException ("Registered Model with name=" +:+ name +:+ " not found")).

Definition set_alias (name alias : string) (v : nat) (s : Server) : Server :=
  {| runs := runs s; registered_models := registered_models s;
     model_versions := model_versions s;
     aliases := <[(name, alias) := v]> (aliases s) |}.

Definition set_registered_model_alias (name alias : string) (v : nat) : M unit :=
  modify_server (set_alias name alias v) ;;;
  Eff.emit (SetAlias name alias v).

(** *** [TrainModels.get_best_model] *)

Definition valid_roc_auc : string := "valid_roc_auc".

(** The eleven columns kept of the best run. *)
Definition best_params_columns : list string :=
  [ "class_weight"; "discretizer"; "warm_start"; "imputer"; "solver";
    "scaler"; "max_iter"; "fit_intercept"; "tol"; "multi_class"; "C" ].

Definition get_best_model `{Sorting} : M (option Q * ParamsFrame) :=
  Eff.emit (LogInfo "Obtendo o melhor modelo do MLFlow") ;;;
  found <- search_runs (MetricLt valid_roc_auc 1) ;;
  df_mlflow <- Eff.lift (sort_values found valid_roc_auc) ;;
  lbl <- Eff.lift (idxmax df_mlflow valid_roc_auc) ;;
  best_row <- Eff.lift (loc df_mlflow lbl) ;;
  let run_id := row_run_id best_row in
  df_best_params <- Eff.lift (select_params (loc_run_id df_mlflow run_id) best_params_columns) ;;
  lbl' <- Eff.lift (idxmax df_mlflow valid_roc_auc) ;;
  best_row' <- Eff.lift (loc df_mlflow lbl') ;;
  best_roc_auc <- Eff.lift (row_metric df_mlflow best_row' valid_roc_auc) ;;
  Eff.ret (best_roc_auc, df_best_params).

(** *** [TrainModels.run] *)

(** [f(cell)] for a built-in [f] that takes a string: a cell that is
    [None] is a [TypeError]. *)
Definition call_on_cell {A} (f : string -> result A) (what : string)
    (c : option string) : M A :=
  match c with
  | Some s => Eff.lift (f s)
  | None => Eff.raise (Exn TypeError (what +:+ "() argument must be a string, not 'NoneType'"))
  end.

Definition param {A} (df : ParamsFrame) (col : string)
    (f : option string -> M A) : M A :=
  c <- Eff.lift (values0 df col) ;;
  f c.

(** [a[:, 1]] on the matrix of class scores. *)
Fixpoint column1 (a : list (list Q)) : result (list Q) :=
  match a with
  | [] => Ok []
  | row :: a' =>
      match row !! 1, column1 a' with
      | Some x, Ok xs => Ok (x :: xs)
      | None, _ => Raise (Exn IndexError "index 1 is out of bounds for axis 1")
      | _, Raise e => Raise e
      end
  end.

(** [X.iloc[[0]]] *)
Definition iloc0 (X : DataFrame) : result DataFrame :=
  match df_rows X with
  | [] => Raise (Exn IndexError "positional indexers are out-of-bounds")
  | row :: _ => Ok {| df_columns := df_columns X; df_rows := [row] |}
  end.

(** [model.latest_versions[-1].version] *)
Definition last_version (l : list ModelVersion) : result nat :=
  match last l with
  | Some mv => Ok (version mv)
  | None => Raise (Exn IndexError "list index out of range")
  end.

(** The alias that [run] moves. *)
Definition alias_name : string := "modelo".

Section Run.
Context `{Sorting} `{Backend} `{Builtins} `{!Sklearn}.

(** The body of the [with mlflow.start_run(...)] block: the tag and
    the construction of the classifier, nothing more.  [underscore]
    is the first component of the pair of [get_best_model], bound to
    the name [_]. *)
Definition run_with_body (self : TrainModels) (underscore : option Q)
    (df_best_params : ParamsFrame) : M LogisticRegression :=
  let scope := {| scope_self := self; scope_underscore := underscore;
                  scope_df_best_params := df_best_params; scope_model := None |} in
  set_tag "model_name" (model_name self) ;;;
  warm_start <- param df_best_params "warm_start" (call_on_cell (py_eval scope) "eval") ;;
  multi_class <- param df_best_params "multi_class" Eff.ret ;;
  class_weight <- param df_best_params "class_weight" Eff.ret ;;
  max_iter <- param df_best_params "max_iter" (call_on_cell py_int "int") ;;
  C <- param df_best_params "C" (call_on_cell py_float "float") ;;
  solver <- param df_best_params "solver" Eff.ret ;;
  tol <- param df_best_params "tol" (call_on_cell py_float "float") ;;
  Eff.ret (new_LogisticRegression warm_start multi_class class_weight
                                  max_iter C solver tol).

(** The statements of [run] after the [with] block. *)
Definition run_after_with (self : TrainModels) (underscore : option Q)
    (df_best_params : ParamsFrame) (model : LogisticRegression) : M unit :=
  let scope := {| scope_self := self; scope_underscore := underscore;
                  scope_df_best_params := df_best_params; scope_model := Some model |} in
  imputer <- param df_best_params "imputer" (call_on_cell (py_eval scope) "eval") ;;
  discretizer <- param df_best_params "discretizer" (call_on_cell (py_eval scope) "eval") ;;
  scaler <- param df_best_params "scaler" (call_on_cell (py_eval scope) "eval") ;;
  let pipe := {| imputer := imputer; discretizer := discretizer;
                 scaler := scaler; model := model |} in
  Eff.emit Fit ;;;
  fitted_pipe <- Eff.lift (fit pipe (dados_X self) (dados_y self)) ;;
  Eff.emit PredictLogProba ;;;
  scores <- Eff.lift (predict_log_proba fitted_pipe (dados_X self)) ;;
  y_val_preds <- Eff.lift (column1 scores) ;;
  Eff.emit (Evaluate (dados_y self) y_val_preds) ;;;
  val_roc_auc <- Eff.lift (evaluate_predictions model (dados_X self) (dados_y self)
                                                (dados_y self) y_val_preds) ;;
  log_metric valid_roc_auc val_roc_auc ;;;
  input_example <- Eff.lift (iloc0 (dados_X self)) ;;
  log_model (model_name self) "predict_proba" input_example (model_name self) ;;;
  latest <- get_registered_model (model_name self) ;;
  v <- Eff.lift (last_version latest) ;;
  set_registered_model_alias (model_name self) alias_name v.

Definition run (self : TrainModels) : M unit :=
  best <- get_best_model ;;
  let underscore := fst best in
  let df_best_params := snd best in
  Eff.emit (LogInfo ("Iniciando o treinamento do modelo: " +:+ model_name self)) ;;;
  model <- with_start_run (Some "final_model")
             (run_with_body self underscore df_best_params) ;;
  run_after_with self underscore df_best_params model.
End Run.

End Train.

(** ** Vocabulary of the statements

    Notions used to state the properties below; none of them is part
    of the program. *)

Module DataLoadTerms.
Import Pandas DataLoad.

(** The path that [load_data] reads for the configured file name. *)
Definition dataset_path (w : World) (file : string) : string :=
  path_join (path_join (path_join (project_root w) "data") "raw") file.

(** [out] is the table [df] restricted to the columns [cols]: its
    header is [cols]; it has one row for every row of [df], in the
    same order; and in row [i] the cell at position [j] is the cell
    that row [i] of [df] has under the first column of [df] called
    [cols !! j] (a missing value when that row of [df] is too short
    to have one). *)
Definition restricts_to (df : DataFrame) (cols : list string) (out : DataFrame) : Prop :=
  df_columns out = cols /\
  length (df_rows out) = length (df_rows df) /\
  forall i row, df_rows df !! i = Some row ->
    exists row', df_rows out !! i = Some row' /\
      length row' = length cols /\
      forall j c k, cols !! j = Some c ->
        df_columns df !! k = Some c ->
        (forall k', k' < k -> df_columns df !! k' <> Some c) ->
        row' !! j = Some (default None (row !! k)).

(** The failures of the outside world are ordinary exceptions
    (subclasses of [Exception]), not interpreter exits. *)
Definition ordinary_failures (w : World) : Prop :=
  (forall e, config_file w = Raise e -> isinstance e Exception = true) /\
  (forall p e, read_csv w p = Raise e -> isinstance e Exception = true).

(** The caller of [load_data] gets an exception. *)
Definition signals (r : result retval) : Prop := exists e, r = Raise e.

(** The failures named by the specification. *)
Inductive load_failure (w : World) (name : string) : Prop :=
  | UnknownName cfg :
      config_file w = Ok cfg -> cfg !! name = None -> load_failure w name
  | FileFailure cfg file e :
      config_file w = Ok cfg -> cfg !! name = Some (CfgStr file) ->
      read_csv w (dataset_path w file) = Raise e -> load_failure w name
  | ColumnsAbsent cfg file df cols c :
      config_file w = Ok cfg -> cfg !! name = Some (CfgStr file) ->
      read_csv w (dataset_path w file) = Ok df ->
      cfg !! "columns_to_use" = Some (CfgList cols) ->
      c ∈ cols -> c ∉ df_columns df -> load_failure w name.

End DataLoadTerms.

Module TrainTerms.
Import Mlflow RunsTable Pandas Train.

(** The runs that pass the filter [metrics.valid_roc_auc < 1]. *)
Definition eligible (w : World) : list Run :=
  List.filter (matches (MetricLt valid_roc_auc 1)) (runs (server w)).

Definition info_best : event := LogInfo "Obtendo o melhor modelo do MLFlow".
Definition search_best : event := SearchRuns (MetricLt valid_roc_auc 1).

(** The frame of the best run: one row, the eleven cells of [r]. *)
Definition params_frame_of (lbl : nat) (r : Run) : ParamsFrame :=
  {| pf_columns := best_params_columns;
     pf_rows := [ (lbl, (fun c => params r !! c) <$> best_params_columns) ] |}.

(** The server after the [with] block of [run]. *)
Definition after_with_block `{Backend} (self : TrainModels) (s : Server) : Server :=
  let r1 := new_run_id (runs s) in
  update_run r1 (with_status FINISHED)
    (update_run r1 (with_tag "model_name" (model_name self))
       (add_run (new_run r1 (Some "final_model")) s)).

(** The server after the metric and the model are logged by the
    statements that follow the [with] block, started from [s] with
    no active run: a run [r2] of its own for the metric, under a name
    that MLflow makes up, and a new version attached to [r2]. *)
Definition after_registration `{Backend} (self : TrainModels) (s : Server) (val : Q)
  : Server :=
  let r2 := new_run_id (runs s) in
  add_version
    (new_version (model_name self) (next_version (versions_of (model_name self) s)) r2)
    (update_run r2 (with_metric valid_roc_auc val)
       (add_run (new_run r2 (Some (new_run_name (runs s)))) s)).

(** [ys] is column [j] of the matrix [a]: one entry for every row,
    the entry at position [j] of that row. *)
Definition is_column (j : nat) (a : list (list Q)) (ys : list Q) : Prop :=
  length ys = length a /\
  forall i row, a !! i = Some row -> exists x, row !! j = Some x /\ ys !! i = Some x.

(** The scores handed to the evaluation helper are the positive-class
    probabilities of the fitted pipeline: column 1 of what
    [predict_proba] returns on the data the pipeline was fitted on. *)
Definition evaluates_probabilities `{PyObjects} `{!Sklearn}
    (self : TrainModels) (tr : list event) : Prop :=
  forall y_true y_score, Evaluate y_true y_score ∈ tr ->
    exists pipe fp probs,
      fit pipe (dados_X self) (dados_y self) = Ok fp /\
      predict_proba fp (dados_X self) = Ok probs /\
      is_column 1 probs y_score.

(** The scope of the calls of [eval] in [run]: before the classifier
    is assigned ([model] is [None]) and after. *)
Definition scope_of `{PyObjects} (self : TrainModels) (m : option Q) (df : ParamsFrame)
    (model : option LogisticRegression) : Scope :=
  {| scope_self := self; scope_underscore := m;
     scope_df_best_params := df; scope_model := model |}.

(** [clf] is the classifier that the frame [df] describes: every
    argument that [run] passes to the constructor is the first cell
    of its column, through [eval], [int] or [float] where [run]
    applies them; the arguments that [run] leaves out have their
    defaults. *)
Definition classifier_of `{Builtins} (self : TrainModels) (m : option Q)
    (df : ParamsFrame) (clf : LogisticRegression) : Prop :=
  (exists s, values0 df "warm_start" = Ok (Some s) /\
             py_eval (scope_of self m df None) s = Ok (warm_start clf)) /\
  values0 df "multi_class" = Ok (multi_class clf) /\
  values0 df "class_weight" = Ok (class_weight clf) /\
  (exists s, values0 df "max_iter" = Ok (Some s) /\ py_int s = Ok (max_iter clf)) /\
  (exists s, values0 df "C" = Ok (Some s) /\ py_float s = Ok (C clf)) /\
  values0 df "solver" = Ok (solver clf) /\
  (exists s, values0 df "tol" = Ok (Some s) /\ py_float s = Ok (tol clf)) /\
  fit_intercept clf = true /\
  penalty clf = "l2".

(** [pipe] is the pipeline that the frame [df] describes: the three
    transformers are the first cells of their columns, evaluated, and
    the last step is the classifier of [df]. *)
Definition pipeline_of `{Builtins} (self : TrainModels) (m : option Q)
    (df : ParamsFrame) (pipe : Pipeline) : Prop :=
  let scope := scope_of self m df (Some (model pipe)) in
  (exists s, values0 df "imputer" = Ok (Some s) /\ py_eval scope s = Ok (imputer pipe)) /\
  (exists s, values0 df "discretizer" = Ok (Some s) /\
             py_eval scope s = Ok (discretizer pipe)) /\
  (exists s, values0 df "scaler" = Ok (Some s) /\ py_eval scope s = Ok (scaler pipe)) /\
  classifier_of self m df (model pipe).

(** [y_score] are the scores that the pipeline [pipe] described by
    [df], fitted on the data of [self], gives to class 1 on the same
    data: column 1 of its [predict_log_proba]. *)
Definition log_scores_of `{Builtins} `{!Sklearn} (self : TrainModels) (m : option Q)
    (df : ParamsFrame) (pipe : Pipeline) (y_score : list Q) : Prop :=
  pipeline_of self m df pipe /\
  exists fp scores,
    fit pipe (dados_X self) (dados_y self) = Ok fp /\
    predict_log_proba fp (dados_X self) = Ok scores /\
    is_column 1 scores y_score.

(** What the events of a training say, the best parameters being
    [(m, df)]: the evaluation helper is called on the labels and the
    log scores, and a metric logged is [valid_roc_auc] with the value
    that the helper returns on them. *)
Definition training_event `{Builtins} `{!Sklearn} (self : TrainModels) (m : option Q)
    (df : ParamsFrame) (ev : event) : Prop :=
  match ev with
  | Evaluate y_true y_score =>
      y_true = dados_y self /\ exists pipe, log_scores_of self m df pipe y_score
  | LogMetric rid key val =>
      key = valid_roc_auc /\
      exists pipe y_score,
        log_scores_of self m df pipe y_score /\
        evaluate_predictions (model pipe) (dados_X self) (dados_y self)
                             (dados_y self) y_score = Ok val
  | _ => True
  end.

(** What a computation adds to the trace are events that satisfy
    [P]. *)
Definition emits_only {A} (P : event -> Prop) (c : M A) : Prop :=
  forall w tr, exists evs, snd (c w tr) = tr ++ evs /\ Forall P evs.

(** Two frames of best parameters that [run] cannot tell apart but
    for the column [col]. *)
Definition agree_except (col : string) (df1 df2 : ParamsFrame) : Prop :=
  forall c, c <> col -> values0 df1 c = values0 df2 c.

End TrainTerms.

(** ** More vocabulary *)

Module TrainMoreTerms.
Import Mlflow RunsTable Pandas Train.

(** The server [s'] holds all that [s] held: the model versions of
    [s] in front of its own, the registered names of [s], the runs of
    [s] (by identifier) behind its own, and the aliases of [s] but
    perhaps the alias [modelo] of the model [name]. *)
Definition extends (name : string) (s s' : Server) : Prop :=
  model_versions s `prefix_of` model_versions s' /\
  registered_models s ⊆ registered_models s' /\
  (run_id <$> runs s) `suffix_of` (run_id <$> runs s') /\
  forall k, k <> (name, alias_name) -> aliases s' !! k = aliases s !! k.

(** A computation that only ever extends the server. *)
Definition extending (name : string) {A} (m : M A) : Prop :=
  forall w tr, extends name (server w) (server (snd (fst (m w tr)))).

(** The frame of best parameters of a run that logged none: one row,
    every cell missing. *)
Definition unlogged_params (lbl : nat) : ParamsFrame :=
  {| pf_columns := best_params_columns;
     pf_rows := [ (lbl, (fun _ => None) <$> best_params_columns) ] |}.

End TrainMoreTerms.

(** ** A reference instance of every interface

    One concrete choice for the sort, the backend, the built-ins and
    scikit-learn, so that the trainer can be evaluated. *)

Module Reference.
Import Mlflow RunsTable Pandas Train.

(** *** Sorting: insertion sort, larger keys first *)

Definition cell_geb (a b : option Q) : bool :=
  match a, b with
  | Some x, Some y => Qle_bool y x
  | _, None => true
  | None, Some _ => false
  end.

Fixpoint insert_desc (key : Row -> option Q) (r : Row) (l : list Row) : list Row :=
  match l with
  | [] => [r]
  | r' :: l' =>
      if cell_geb (key r) (key r') then r :: l
      else r' :: insert_desc key r l'
  end.

Definition insertion_sort_desc (key : Row -> option Q) (l : list Row) : list Row :=
  foldr (insert_desc key) [] l.

(** *** Backend *)

(** An identifier longer than every identifier in use. *)
Definition longer_id (rs : list Run) : string :=
  foldr (fun r acc => run_id r +:+ acc) "0" rs.

(** The name made up for a run that was given none. *)
Definition made_up_name (rs : list Run) : string := "run-" +:+ longer_id rs.

(** The version with the largest number; the earlier one on a tie. *)
Fixpoint max_version (l : list ModelVersion) : option ModelVersion :=
  match l with
  | [] => None
  | mv :: l' =>
      match max_version l' with
      | Some mv' => if version mv <? version mv' then Some mv' else Some mv
      | None => Some mv
      end
  end.

Definition all_stages : list stage := [StageNone; Staging; Production; Archived].

Definition in_stage (st : stage) (mvs : list ModelVersion) : list ModelVersion :=
  List.filter (fun mv => bool_decide (current_stage mv = st)) mvs.

(** The latest version of every stage that has one, stage by stage. *)
Definition latest_per_stage (mvs : list ModelVersion) : list ModelVersion :=
  omap (fun st => max_version (in_stage st mvs)) all_stages.

(** *** Built-ins *)

Definition digit (a : ascii) : option Z :=
  let n := nat_of_ascii a in
  if (48 <=? n) && (n <=? 57) then Some (Z.of_nat (n - 48)) else None.

Fixpoint parse_digits (acc : Z) (s : string) : option Z :=
  match s with
  | EmptyString => Some acc
  | String a s' =>
      match digit a with
      | Some d => parse_digits (10 * acc + d) s'
      | None => None
      end
  end.

(** [int] on an unsigned decimal literal. *)
Definition parse_int (s : string) : result Z :=
  match s with
  | EmptyString => Raise (Exn ValueError "invalid literal for int() with base 10: ''")
  | _ =>
      match parse_digits 0 s with
      | Some z => Ok z
      | None => Raise (Exn ValueError ("invalid literal for int() with base 10: " +:+ s))
      end
  end.

Fixpoint parse_fraction (num : Z) (den : positive) (s : string) : option Q :=
  match s with
  | EmptyString => Some (num # den)
  | String a s' =>
      match digit a with
      | Some d => parse_fraction (10 * num + d) (10 * den) s'
      | None => None
      end
  end.

Fixpoint parse_decimal (num : Z) (s : string) : option Q :=
  match s with
  | EmptyString => Some (num # 1)
  | String a s' =>
      if Ascii.eqb a "."%char then parse_fraction num 1 s'
      else match digit a with
           | Some d => parse_decimal (10 * num + d) s'
           | None => None
           end
  end.

(** [float] on an unsigned literal of the form [digits] or
    [digits.digits]. *)
Definition parse_float (s : string) : result Q :=
  match s with
  | EmptyString => Raise (Exn ValueError "could not convert string to float: ''")
  | _ =>
      match parse_decimal 0 s with
      | Some q => Ok q
      | None => Raise (Exn ValueError ("could not convert string to float: " +:+ s))
      end
  end.

(** An evaluated expression is kept as its source text. *)
#[export] Instance pyobjects : PyObjects := {| pyobj := string |}.

#[export] Instance builtins : Builtins :=
  {| py_eval := fun _ s => Ok s;
     py_int := parse_int; py_float := parse_float |}.

(** *** scikit-learn: a classifier that has learnt nothing *)

Definition ln_half : Q := - (6931 # 10000).

(** Both classes get probability one half on every row; the scores
    of [predict_log_proba] are their logarithms; the area under the
    curve of a constant score is one half. *)
#[export] Instance sklearn : Sklearn :=
  {| fitted := Pipeline;
     fit := fun pipe X y =>
       match df_rows X with
       | [] => Raise (Exn ValueError "Found array with 0 sample(s)")
       | _ => Ok pipe
       end;
     predict_proba := fun _ X => Ok ((fun _ => [1 # 2; 1 # 2]) <$> df_rows X);
     predict_log_proba := fun _ X => Ok ((fun _ => [ln_half; ln_half]) <$> df_rows X);
     evaluate_predictions := fun _ _ _ _ _ => Ok (1 # 2) |}.

End Reference.

(** ** Example data *)

Module Examples.
Import Mlflow RunsTable Pandas Train.

Definition ex_config : gmap string DataLoad.cfg_value :=
  <["train" := DataLoad.CfgStr "train.csv"]>
    (<["columns_to_use" := DataLoad.CfgList ["age"; "target"]]>
       (<["model_name" := DataLoad.CfgStr "prob_loan"]> ∅)).

Definition ex_csv : DataFrame :=
  {| df_columns := ["id"; "age"; "target"];
     df_rows := [ [Some "1"; Some "34"; Some "0"];
                  [Some "2"; None; Some "1"];
                  [Some "3"; Some "51"; Some "0"] ] |}.

Definition ex_files : DataLoad.World :=
  {| DataLoad.config_file := Ok ex_config;
     DataLoad.project_root := "/app/projeto";
     DataLoad.read_csv := fun p =>
       if String.eqb p "/app/projeto/data/raw/train.csv" then Ok ex_csv
       else Raise (Exn FileNotFoundError "[Errno 2] No such file or directory") |}.

(** The parameters logged by one run of the search. *)
Definition ex_params (C solver fit_intercept : string) : gmap string string :=
  list_to_map
    [ ("class_weight", "balanced");
      ("discretizer", "EqualFrequencyDiscretiser()");
      ("warm_start", "False");
      ("imputer", "MeanMedianImputer()");
      ("solver", solver);
      ("scaler", "SklearnTransformerWrapper(StandardScaler())");
      ("max_iter", "100");
      ("fit_intercept", fit_intercept);
      ("tol", "0.0001");
      ("multi_class", "auto");
      ("C", C) ].

Definition ex_run (rid : string) (m : Q) (C solver fit_intercept : string) : Run :=
  {| run_id := rid; run_name := Some ("trial-" +:+ rid); status := FINISHED;
     metrics := {[ valid_roc_auc := m ]};
     params := ex_params C solver fit_intercept; tags := ∅ |}.

(** Four runs with metrics 0.81, 0.95, 1.0 and 0.62. *)
Definition ex_runs : list Run :=
  [ ex_run "a1" (81 # 100) "1.0" "lbfgs" "True";
    ex_run "b2" (95 # 100) "0.5" "saga" "False";
    ex_run "c3" 1 "10.0" "lbfgs" "True";
    ex_run "d4" (62 # 100) "0.1" "liblinear" "True" ].

Definition ex_server : Server :=
  {| runs := ex_runs; registered_models := ∅; model_versions := []; aliases := ∅ |}.

Definition ex_world : World := {| server := ex_server; active_runs := [] |}.

(** A server where only the placeholder run exists. *)
Definition ex_world_no_eligible : World :=
  {| server := {| runs := [ex_run "c3" 1 "10.0" "lbfgs" "True"];
                  registered_models := ∅; model_versions := []; aliases := ∅ |};
     active_runs := [] |}.

(** A registry that already holds two versions of the model, the
    alias on the second. *)
Definition ex_world_registered : World :=
  {| server :=
       {| runs := ex_runs;
          registered_models := {["prob_loan"]};
          model_versions :=
            [ {| mv_name := "prob_loan"; version := 1;
                 current_stage := StageNone; mv_run_id := "a1" |};
              {| mv_name := "prob_loan"; version := 2;
                 current_stage := StageNone; mv_run_id := "b2" |} ];
          aliases := {[ ("prob_loan", alias_name) := 2 ]} |};
     active_runs := [] |}.

Definition ex_X : DataFrame :=
  {| df_columns := ["age"]; df_rows := [[Some "34"]; [None]; [Some "51"]] |}.

Definition ex_y : DataFrame :=
  {| df_columns := ["target"]; df_rows := [[Some "0"]; [Some "1"]; [Some "0"]] |}.

Definition ex_self : TrainModels :=
  {| dados_X := ex_X; dados_y := ex_y; model_name := "prob_loan" |}.

(** The best parameters of [ex_runs], and the same with another
    intercept setting. *)
Definition ex_best_params (fit_intercept : string) : ParamsFrame :=
  {| pf_columns := best_params_columns;
     pf_rows :=
       [ (1, [ Some "balanced"; Some "EqualFrequencyDiscretiser()"; Some "False";
               Some "MeanMedianImputer()"; Some "saga";
               Some "SklearnTransformerWrapper(StandardScaler())"; Some "100";
               Some fit_intercept; Some "0.0001"; Some "auto"; Some "0.5" ]) ] |}.

(** Two runs share the largest metric below one and differ in their
    parameters. *)
Definition ex_world_tie : World :=
  {| server :=
       {| runs := [ ex_run "a1" (95 # 100) "1.0" "lbfgs" "True";
                    ex_run "b2" (95 # 100) "0.5" "saga" "False";
                    ex_run "d4" (62 # 100) "0.1" "liblinear" "True" ];
          registered_models := ∅; model_versions := []; aliases := ∅ |};
     active_runs := [] |}.


End Examples.

(** ** More example data *)

Module MoreExamples.
Import Mlflow RunsTable Pandas Train Reference Examples.

(** A configuration with entries of every shape, over a file system
    where [broken.csv] cannot be parsed, [/srv/shared.csv] lies
    outside the project and reading [slow.csv] is interrupted from
    the keyboard. *)
Definition ex_config_shapes (columns : option DataLoad.cfg_value)
  : gmap string DataLoad.cfg_value :=
  let entries : gmap string DataLoad.cfg_value :=
    <["train" := DataLoad.CfgStr "train.csv"]>
      (<["broken" := DataLoad.CfgStr "broken.csv"]>
         (<["shared" := DataLoad.CfgStr "/srv/shared.csv"]>
            (<["slow" := DataLoad.CfgStr "slow.csv"]>
               (<["pending" := DataLoad.CfgNull]>
                  (<["both" := DataLoad.CfgList ["train.csv"; "test.csv"]]> ∅))))) in
  match columns with
  | Some cols => <["columns_to_use" := cols]> entries
  | None => entries
  end.

Definition ex_read_csv (p : string) : result DataFrame :=
  if String.eqb p "/app/projeto/data/raw/train.csv" then Ok ex_csv
  else if String.eqb p "/srv/shared.csv" then Ok ex_csv
  else if String.eqb p "/app/projeto/data/raw/broken.csv"
       then Raise (Exn ParserError "Error tokenizing data. C error: Expected 3 fields")
  else if String.eqb p "/app/projeto/data/raw/slow.csv"
       then Raise (Exn KeyboardInterrupt "")
  else Raise (Exn FileNotFoundError "[Errno 2] No such file or directory").

Definition ex_files_shapes (columns : option DataLoad.cfg_value) : DataLoad.World :=
  {| DataLoad.config_file := Ok (ex_config_shapes columns);
     DataLoad.project_root := "/app/projeto";
     DataLoad.read_csv := ex_read_csv |}.

Definition ex_columns : option DataLoad.cfg_value :=
  Some (DataLoad.CfgList ["age"; "target"]).

(** Another sort: the rows are taken in reverse before they are
    inserted, so equal keys come out in the other order. *)
Definition reversed_sort_desc (key : Row -> option Q) (l : list Row) : list Row :=
  Reference.insertion_sort_desc key (reverse l).

(** The runs of [ex_world_tie] as another retrieval would list them. *)
Definition ex_world_tie_reversed : World :=
  {| server :=
       {| runs := reverse (runs (server ex_world_tie));
          registered_models := ∅; model_versions := []; aliases := ∅ |};
     active_runs := [] |}.


(** A run that holds a metric and no parameter, as [run] leaves
    behind, alone on the server. *)
Definition ex_bare_run : Run :=
  {| run_id := "z9"; run_name := Some "run-z8"; status := RUNNING;
     metrics := {[ valid_roc_auc := 1 # 2 ]}; params := ∅; tags := ∅ |}.

Definition ex_world_bare : World :=
  {| server := {| runs := [ex_bare_run]; registered_models := ∅;
                  model_versions := []; aliases := ∅ |};
     active_runs := [] |}.


(** The frame [get_best_model] returns for a best run that logged
    no parameter: every cell is missing. *)
Definition ex_none_params : ParamsFrame :=
  {| pf_columns := best_params_columns;
     pf_rows := [ (0, (fun _ => None) <$> best_params_columns) ] |}.

(** [ex_world] in a process where the run [a1] is still active. *)
Definition ex_world_busy : World :=
  {| server := ex_server; active_runs := ["a1"] |}.

(** A trainer built on a feature frame without rows. *)
Definition ex_self_empty : TrainModels :=
  {| dados_X := {| df_columns := ["age"]; df_rows := [] |};
     dados_y := {| df_columns := ["target"]; df_rows := [] |};
     model_name := "prob_loan" |}.

(** The server of [ex_world] after a training whose metric on its
    own training data, 0.97, is above every metric of the search:
    the run [final_model] and the run that holds the metric.  A new
    process has no active run. *)
Definition ex_world_after : World :=
  {| server :=
       {| runs :=
            {| run_id := "t2"; run_name := Some "run-t1"; status := RUNNING;
               metrics := {[ valid_roc_auc := 97 # 100 ]}; params := ∅; tags := ∅ |}
            :: {| run_id := "t1"; run_name := Some "final_model"; status := FINISHED;
                  metrics := ∅; params := ∅;
                  tags := {[ "model_name" := "prob_loan" ]} |}
            :: ex_runs;
          registered_models := {["prob_loan"]};
          model_versions :=
            [ {| mv_name := "prob_loan"; version := 1;
                 current_stage := StageNone; mv_run_id := "t2" |} ];
          aliases := {[ ("prob_loan", alias_name) := 1 ]} |};
     active_runs := [] |}.

(** A classifier whose two columns differ: a row with a known age
    gets one quarter for class 0 and three quarters for class 1, a
    row without gets one half for each; [predict_log_proba] gives the
    logarithms (to four decimals). *)
Definition ln_quarter : Q := - (13863 # 10000).
Definition ln_three_quarters : Q := - (2877 # 10000).

Definition skewed_proba (row : list cell) : list Q :=
  match row with
  | Some _ :: _ => [1 # 4; 3 # 4]
  | _ => [1 # 2; 1 # 2]
  end.

Definition skewed_log_proba (row : list cell) : list Q :=
  match row with
  | Some _ :: _ => [ln_quarter; ln_three_quarters]
  | _ => [ln_half; ln_half]
  end.

Definition sklearn_skewed : Sklearn :=
  {| fitted := Pipeline;
     fit := fun pipe X y =>
       match df_rows X with
       | [] => Raise (Exn ValueError "Found array with 0 sample(s)")
       | _ => Ok pipe
       end;
     predict_proba := fun _ X => Ok (skewed_proba <$> df_rows X);
     predict_log_proba := fun _ X => Ok (skewed_log_proba <$> df_rows X);
     evaluate_predictions := fun _ _ _ _ _ => Ok (3 # 4) |}.

(** An [eval] that knows one expression that reads its scope: the
    comparison of the [fit_intercept] cell of [df_best_params] with
    the text [True].  Every other text is kept as it is. *)
Definition reads_fit_intercept : string :=
  "df_best_params['params.fit_intercept'].values[0] == 'True'".

Definition eval_in_scope (sc : Scope) (s : string) : result string :=
  if String.eqb s reads_fit_intercept then
    match values0 (scope_df_best_params sc) "fit_intercept" with
    | Ok (Some "True") => Ok "True"
    | Ok _ => Ok "False"
    | Raise e => Raise e
    end
  else Ok s.

Definition builtins_in_scope : Builtins :=
  {| py_eval := eval_in_scope; py_int := parse_int; py_float := parse_float |}.

(** The best parameters of a run that logged that expression as its
    [warm_start]. *)
Definition ex_scope_params (fit_intercept : string) : ParamsFrame :=
  {| pf_columns := best_params_columns;
     pf_rows :=
       [ (1, [ Some "balanced"; Some "EqualFrequencyDiscretiser()";
               Some reads_fit_intercept;
               Some "MeanMedianImputer()"; Some "saga";
               Some "SklearnTransformerWrapper(StandardScaler())"; Some "100";
               Some fit_intercept; Some "0.0001"; Some "auto"; Some "0.5" ]) ] |}.

(** A search whose runs all scored below one half. *)
Definition ex_world_low : World :=
  {| server :=
       {| runs := [ ex_run "a1" (40 # 100) "1.0" "lbfgs" "True";
                    ex_run "b2" (30 # 100) "0.5" "saga" "False" ];
          registered_models := ∅; model_versions := []; aliases := ∅ |};
     active_runs := [] |}.

End MoreExamples.

(** ** The reference instances meet their interfaces *)

Module ReferenceFacts.
Import Mlflow RunsTable Pandas Train Reference.

Lemma Qlt_b_true (x y : Q) : Qlt_b x y = true <-> (x < y)%Q.
Proof.
  unfold Qlt_b. rewrite negb_true_iff. split.
  - intros Hle. apply Qnot_le_lt. intros Hyx.
    apply Qle_bool_iff in Hyx. congruence.
  - intros Hlt. destruct (Qle_bool y x) eqn:E; [|reflexivity].
    apply Qle_bool_iff in E. exfalso. exact (Qlt_not_le _ _ Hlt E).
Qed.

Lemma Qlt_b_false (x y : Q) : Qlt_b x y = false <-> (y <= x)%Q.
Proof.
  unfold Qlt_b. rewrite negb_false_iff. apply Qle_bool_iff.
Qed.

Lemma cell_geb_true (a b : option Q) : cell_geb a b = true <-> cell_ge a b.
Proof.
  destruct a as [x|], b as [y|]; simpl; try tauto.
  - apply Qle_bool_iff.
  - split; [discriminate|tauto].
Qed.

Lemma cell_geb_false (a b : option Q) : cell_geb a b = false -> cell_ge b a.
Proof.
  destruct a as [x|], b as [y|]; simpl; try discriminate; try tauto.
  intros Hf. apply Qlt_le_weak. apply Qnot_le_lt. intros Hle.
  apply Qle_bool_iff in Hle. congruence.
Qed.

Lemma cell_ge_trans (a b c : option Q) : cell_ge a b -> cell_ge b c -> cell_ge a c.
Proof.
  destruct a as [x|], b as [y|], c as [z|]; simpl; try tauto.
  intros Hyx Hzy. exact (Qle_trans _ _ _ Hzy Hyx).
Qed.

Section InsertionSort.
Variable key : Row -> option Q.

Let R (a b : Row) : Prop := cell_ge (key a) (key b).

Lemma insert_desc_perm (r : Row) (l : list Row) : insert_desc key r l ≡ₚ r :: l.
Proof.
  induction l as [|r' l IH]; simpl; [reflexivity|].
  destruct (cell_geb (key r) (key r')); [reflexivity|].
  rewrite IH. apply Permutation_swap.
Qed.

Lemma insertion_sort_desc_perm (l : list Row) : insertion_sort_desc key l ≡ₚ l.
Proof.
  induction l as [|r l IH]; simpl; [reflexivity|].
  rewrite insert_desc_perm. by rewrite IH.
Qed.

Lemma insert_desc_sorted (r : Row) (l : list Row) :
  StronglySorted R l -> StronglySorted R (insert_desc key r l).
Proof.
  induction 1 as [|r' l Hsorted IH Hall]; simpl.
  - repeat constructor.
  - destruct (cell_geb (key r) (key r')) eqn:E.
    + apply cell_geb_true in E. constructor; [by constructor|].
      constructor; [exact E|].
      eapply Forall_impl; [exact Hall|].
      intros x Hx. exact (cell_ge_trans _ _ _ E Hx).
    + apply cell_geb_false in E. constructor; [exact IH|].
      rewrite insert_desc_perm. by constructor.
Qed.

Lemma insertion_sort_desc_sorted (l : list Row) :
  StronglySorted R (insertion_sort_desc key l).
Proof.
  induction l as [|r l IH]; simpl; [constructor|].
  by apply insert_desc_sorted.
Qed.
End InsertionSort.

#[export] Instance insertion_sorting : Sorting :=
  {| sort_desc := insertion_sort_desc;
     sort_desc_perm := insertion_sort_desc_perm;
     sort_desc_sorted := insertion_sort_desc_sorted |}.

Lemma length_append (s1 s2 : string) :
  String.length (s1 +:+ s2) = String.length s1 + String.length s2.
Proof. induction s1 as [|a s1 IH]; simpl; [reflexivity|]. by rewrite IH. Qed.

Lemma longer_id_longer (rs : list Run) (r : Run) :
  r ∈ rs -> String.length (run_id r) < String.length (longer_id rs).
Proof.
  induction 1 as [r rs|r r' rs Hin IH]; simpl; rewrite length_append.
  - assert (0 < String.length (longer_id rs)); [|lia].
    clear. induction rs as [|r' rs IH]; simpl; [lia|].
    rewrite length_append. lia.
  - lia.
Qed.

Lemma longer_id_fresh (rs : list Run) : longer_id rs ∉ (run_id <$> rs).
Proof.
  intros (r & Heq & Hin)%list_elem_of_fmap.
  apply longer_id_longer in Hin. rewrite <- Heq in Hin. lia.
Qed.

Lemma max_version_spec (l : list ModelVersion) (mv : ModelVersion) :
  max_version l = Some mv ->
  mv ∈ l /\ forall mv', mv' ∈ l -> version mv' <= version mv.
Proof.
  revert mv. induction l as [|x l IH]; simpl; intros mv Hmax; [discriminate|].
  destruct (max_version l) as [y|] eqn:Ey.
  - destruct (IH y eq_refl) as [Hy Hle].
    destruct (Nat.ltb_spec (version x) (version y)); simplify_eq.
    + split; [by right|]. intros mv' [->|Hin]%elem_of_cons; [lia|by apply Hle].
    + split; [by left|]. intros mv' [->|Hin]%elem_of_cons; [lia|].
      specialize (Hle _ Hin). lia.
  - simplify_eq. split; [by left|].
    destruct l as [|z l]; [|simpl in Ey; destruct (max_version l); [destruct (_ <? _)|]; discriminate].
    intros mv' [->|Hin]%elem_of_cons; [lia|]. by apply elem_of_nil in Hin.
Qed.

Lemma max_version_is_Some (l : list ModelVersion) :
  l <> [] -> is_Some (max_version l).
Proof.
  destruct l as [|x l]; [done|]. intros _. simpl.
  destruct (max_version l); [destruct (_ <? _)|]; eauto.
Qed.

Lemma elem_of_in_stage (st : stage) (mvs : list ModelVersion) (mv : ModelVersion) :
  mv ∈ in_stage st mvs <-> mv ∈ mvs /\ current_stage mv = st.
Proof.
  unfold in_stage. rewrite list_elem_of_In, filter_In, <- list_elem_of_In.
  by rewrite bool_decide_eq_true.
Qed.

Lemma latest_per_stage_sound (mvs : list ModelVersion) (mv : ModelVersion) :
  mv ∈ latest_per_stage mvs ->
  mv ∈ mvs /\
  forall mv', mv' ∈ mvs -> current_stage mv' = current_stage mv ->
              version mv' <= version mv.
Proof.
  intros (st & _ & Hmax)%list_elem_of_omap.
  apply max_version_spec in Hmax as [Hin Hle].
  apply elem_of_in_stage in Hin as [Hin Hst]. split; [exact Hin|].
  intros mv' Hin' Hst'. apply Hle, elem_of_in_stage. split; congruence.
Qed.

Lemma latest_per_stage_complete (mvs : list ModelVersion) (mv : ModelVersion) :
  mv ∈ mvs ->
  exists mv', mv' ∈ latest_per_stage mvs /\ current_stage mv' = current_stage mv.
Proof.
  intros Hin.
  destruct (max_version_is_Some (in_stage (current_stage mv) mvs)) as [mv' Hmv'].
  { intros Hnil. assert (mv ∈ in_stage (current_stage mv) mvs) as Hmv
      by by apply elem_of_in_stage.
    rewrite Hnil in Hmv. by apply elem_of_nil in Hmv. }
  exists mv'. split.
  - apply list_elem_of_omap. exists (current_stage mv). split; [|exact Hmv'].
    unfold all_stages. destruct (current_stage mv); set_solver.
  - apply max_version_spec in Hmv' as [Hin' _].
    by apply elem_of_in_stage in Hin' as [_ ?].
Qed.

Lemma latest_per_stage_once (mvs : list ModelVersion) :
  NoDup (current_stage <$> latest_per_stage mvs).
Proof.
  apply (sublist_NoDup _ all_stages).
  - unfold all_stages. compute_done.
  - unfold latest_per_stage. induction all_stages as [|st l IH]; simpl; [constructor|].
    destruct (max_version (in_stage st mvs)) as [mv|] eqn:E; simpl.
    + apply max_version_spec in E as [Hin _].
      apply elem_of_in_stage in Hin as [_ ->]. by constructor.
    + by constructor.
Qed.

#[export] Instance reference_backend : Backend :=
  {| new_run_id := longer_id;
     new_run_id_fresh := longer_id_fresh;
     new_run_name := made_up_name;
     latest_versions := latest_per_stage;
     latest_versions_sound := latest_per_stage_sound;
     latest_versions_complete := latest_per_stage_complete;
     latest_versions_once := latest_per_stage_once |}.

End ReferenceFacts.


(** ** Facts about the runs table *)

Module RunsTableFacts.
Import Mlflow RunsTable ReferenceFacts.

Lemma argmax_from_in (best : nat * Q) (l : list (nat * Q)) :
  argmax_from best l ∈ best :: l.
Proof.
  revert best. induction l as [|x l IH]; intros best; simpl; [by left|].
  specialize (IH (if Qlt_b best.2 x.2 then x else best)).
  apply elem_of_cons in IH as [->|IH]; [|by do 2 right].
  destruct (Qlt_b best.2 x.2); [right|]; by left.
Qed.

Lemma argmax_from_ge_start (best : nat * Q) (l : list (nat * Q)) :
  (best.2 <= (argmax_from best l).2)%Q.
Proof.
  revert best. induction l as [|x l IH]; intros best; simpl; [apply Qle_refl|].
  destruct (Qlt_b best.2 x.2) eqn:E; [|apply IH].
  apply Qlt_b_true in E. eapply Qle_trans; [apply Qlt_le_weak, E|apply IH].
Qed.

Lemma argmax_from_max (best : nat * Q) (l : list (nat * Q)) (y : nat * Q) :
  y ∈ best :: l -> (y.2 <= (argmax_from best l).2)%Q.
Proof.
  revert best. induction l as [|x l IH]; intros best Hin; simpl.
  - apply list_elem_of_singleton in Hin as ->. apply Qle_refl.
  - apply elem_of_cons in Hin as [->|Hin].
    + eapply Qle_trans; [|apply argmax_from_ge_start].
      destruct (Qlt_b best.2 x.2) eqn:E; [|apply Qle_refl].
      apply Qlt_b_true in E. by apply Qlt_le_weak.
    + apply elem_of_cons in Hin as [->|Hin].
      * eapply Qle_trans; [|apply argmax_from_ge_start].
        destruct (Qlt_b best.2 x.2) eqn:E; [apply Qle_refl|].
        by apply Qlt_b_false in E.
      * apply IH. by right.
Qed.

(** The maximum is a property of the rows as a set: [idxmax] finds
    it whatever the order of the rows. *)
Lemma idxmax_is_max (df : RunsFrame) (col : string) :
  col ∈ metric_columns df ->
  rows df <> [] ->
  (forall r, r ∈ rows df -> is_Some (metric_cell col r)) ->
  exists r m,
    idxmax df col = Ok (label r) /\ r ∈ rows df /\ metric_cell col r = Some m /\
    forall r' m', r' ∈ rows df -> metric_cell col r' = Some m' -> (m' <= m)%Q.
Proof.
  intros Hcol Hne Hall. unfold idxmax. rewrite bool_decide_eq_true_2 by exact Hcol.
  destruct (labelled_values df col) as [|x l] eqn:Hlv.
  - destruct (rows df) as [|r rs] eqn:Hrows; [done|].
    destruct (Hall r) as [m Hm]; [by left|].
    unfold labelled_values in Hlv. rewrite Hrows in Hlv. simpl in Hlv.
    rewrite Hm in Hlv. simpl in Hlv. discriminate.
  - pose proof (argmax_from_in x l) as Hin. rewrite <- Hlv in Hin.
    apply list_elem_of_omap in Hin as (r & Hr & Hcell).
    destruct (metric_cell col r) as [m|] eqn:Hm; simpl in Hcell; [|discriminate].
    exists r, m. injection Hcell as Hcell. rewrite <- Hcell. simpl.
    split; [reflexivity|]. split; [exact Hr|]. split; [exact Hm|].
    intros r' m' Hr' Hm'.
    assert ((label r', m') ∈ x :: l) as Hin'.
    { rewrite <- Hlv. apply list_elem_of_omap. exists r'. by rewrite Hm'. }
    apply argmax_from_max in Hin'. rewrite <- Hcell in Hin'. exact Hin'.
Qed.

Lemma loc_unique (df : RunsFrame) (r : Row) :
  NoDup (label <$> rows df) -> r ∈ rows df -> loc df (label r) = Ok r.
Proof.
  unfold loc. induction (rows df) as [|x l IH]; intros Hnd Hin; simpl.
  - by apply elem_of_nil in Hin.
  - simpl in Hnd. apply NoDup_cons in Hnd as [Hx Hnd].
    apply elem_of_cons in Hin as [->|Hin]; [by rewrite Nat.eqb_refl|].
    destruct (Nat.eqb_spec (label x) (label r)) as [Heq|Hne]; [|by apply IH].
    exfalso. apply Hx. rewrite Heq. by apply list_elem_of_fmap_2.
Qed.

Lemma filter_unique {A} (f : A -> string) (l : list A) (x : A) :
  NoDup (f <$> l) -> x ∈ l ->
  List.filter (fun y => String.eqb (f y) (f x)) l = [x].
Proof.
  induction l as [|y l IH]; intros Hnd Hin; simpl.
  - by apply elem_of_nil in Hin.
  - simpl in Hnd. apply NoDup_cons in Hnd as [Hy Hnd].
    apply elem_of_cons in Hin as [->|Hin].
    + rewrite String.eqb_refl. f_equal.
      clear IH Hnd. induction l as [|z l IH]; simpl; [reflexivity|].
      destruct (String.eqb_spec (f z) (f y)) as [Heq|Hne].
      * exfalso. apply Hy. rewrite <- Heq. left.
      * apply IH. intros Hin. apply Hy. by right.
    + destruct (String.eqb_spec (f y) (f x)) as [Heq|Hne]; [|by apply IH].
      exfalso. apply Hy. rewrite Heq. by apply list_elem_of_fmap_2.
Qed.

Lemma List_filter_sublist {A} (f : A -> bool) (l : list A) :
  List.filter f l `sublist_of` l.
Proof.
  induction l as [|x l IH]; [constructor|].
  cbn [List.filter]. destruct (f x); by constructor.
Qed.

Lemma labels_of_frame (rs : list Run) :
  label <$> rows (frame_of_runs rs) = seq 0 (length rs).
Proof.
  simpl. rewrite fmap_imap. rewrite (imap_ext _ (fun i _ => id i)) by done.
  rewrite (imap_seq_0 rs id). apply list_fmap_id.
Qed.

Lemma run_ids_of_frame (rs : list Run) :
  row_run_id <$> rows (frame_of_runs rs) = run_id <$> rs.
Proof.
  simpl. rewrite fmap_imap. rewrite (imap_ext _ (fun _ r => run_id r)) by done.
  apply (imap_const run_id).
Qed.

Lemma elem_of_frame_rows (rs : list Run) (row : Row) :
  row ∈ rows (frame_of_runs rs) ->
  exists r, r ∈ rs /\ row_run_id row = run_id r /\
            row_metrics row = metrics r /\ row_params row = params r.
Proof.
  simpl. intros (i & r & -> & Hi)%elem_of_lookup_imap.
  exists r. split; [by eapply list_elem_of_lookup_2|done].
Qed.

Lemma frame_rows_of_elem (rs : list Run) (r : Run) :
  r ∈ rs -> exists row, row ∈ rows (frame_of_runs rs) /\ row_metrics row = metrics r.
Proof.
  intros (i & Hi)%list_elem_of_lookup_1. exists (row_of_run i r).
  split; [|reflexivity]. simpl. by apply elem_of_lookup_imap_2.
Qed.

Lemma elem_of_union_list_dom {V} (f : Run -> gmap string V) (rs : list Run) (k : string) :
  k ∈ ⋃ ((fun r => dom (f r)) <$> rs) <-> exists r, r ∈ rs /\ is_Some (f r !! k).
Proof.
  rewrite elem_of_union_list. split.
  - intros (X & (r & -> & Hr)%list_elem_of_fmap & Hk). exists r.
    split; [exact Hr|]. by apply elem_of_dom.
  - intros (r & Hr & Hk). exists (dom (f r)).
    split; [|by apply elem_of_dom].
    apply list_elem_of_fmap. exists r. done.
Qed.

End RunsTableFacts.


(** ** Properties of [load_data] *)

Module DataLoadSpec.
Import Pandas DataLoad DataLoadTerms Examples.

Ltac run_eff :=
  unfold run_load_data, load_data, load_data_body, load_config_file,
    pd_read_csv, os_path_join, getitem, load_data_handler,
    Eff.try_except, Eff.bind, Eff.get, Eff.emit, Eff.lift, Eff.ret, Eff.raise.



Lemma handler_swallows (e : exn) (w : World) (tr : list event) :
  isinstance e Exception = true ->
  exists msg, load_data_handler e w tr = (Ok RNone, w, tr ++ [LogError msg]).
Proof.
  intros He. unfold load_data_handler.
  destruct (isinstance e ValueError); [|rewrite He]; eexists; reflexivity.
Qed.

Lemma logs_error_snoc (tr : list event) (msg : string) :
  logs_error (tr ++ [LogError msg]) = true.
Proof. unfold logs_error. rewrite existsb_app. simpl. apply orb_true_r. Qed.

Lemma has_column_true (df : DataFrame) (c : string) :
  c ∈ df_columns df -> has_column df c = true.
Proof.
  unfold has_column. intros Hin. apply bool_decide_eq_true.
  induction Hin as [c l | c c' l Hin IH]; simpl.
  - rewrite String.eqb_refl. eauto.
  - destruct (String.eqb c' c); [eauto|]. destruct IH as [i ->]. simpl. eauto.
Qed.

Lemma getitem_list_ok (df : DataFrame) (cols : list string) :
  (forall c, c ∈ cols -> c ∈ df_columns df) ->
  getitem_list df cols =
    Ok {| df_columns := cols;
          df_rows := (fun row => (fun c => row_get df row c) <$> cols) <$> df_rows df |}.
Proof.
  intros Hall. unfold getitem_list.
  destruct (List.find _ cols) as [c|] eqn:Hfind; [|reflexivity].
  apply find_some in Hfind as [Hin Hneg].
  rewrite has_column_true in Hneg; [discriminate|].
  apply Hall, list_elem_of_In, Hin.
Qed.


(** [column_index] finds the first position of a name. *)
Lemma column_index_first (cols : list string) (c : string) (k : nat) :
  cols !! k = Some c ->
  (forall k', k' < k -> cols !! k' <> Some c) ->
  column_index cols c = Some k.
Proof.
  revert k. induction cols as [|c' cols IH]; intros k Hk Hfirst; [done|].
  simpl. destruct (String.eqb_spec c' c) as [->|Hne].
  - destruct k as [|k]; [done|]. exfalso. apply (Hfirst 0); [lia|done].
  - destruct k as [|k]; [simpl in Hk; congruence|].
    rewrite (IH k); [done|exact Hk|].
    intros k' Hlt. apply (Hfirst (S k')). lia.
Qed.

(** The frame that [getitem_list] builds is the restriction of the
    table to the labels. *)
Lemma getitem_list_restricts (df : DataFrame) (cols : list string) :
  restricts_to df cols
    {| df_columns := cols;
       df_rows := (fun row => (fun c => row_get df row c) <$> cols) <$> df_rows df |}.
Proof.
  split; [reflexivity|]. split; [simpl; apply length_fmap|].
  intros i row Hrow. simpl. rewrite list_lookup_fmap, Hrow. simpl.
  eexists. split; [reflexivity|]. split; [apply length_fmap|].
  intros j c k Hj Hk Hfirst. rewrite list_lookup_fmap, Hj. simpl.
  unfold row_get. by rewrite (column_index_first _ _ _ Hk Hfirst).
Qed.

(** What [load_data] does for a name that is not a key of the
    configuration. *)
Lemma unknown_name_outcome (w : World) (name : string)
    (cfg : gmap string cfg_value) :
  config_file w = Ok cfg ->
  cfg !! name = None ->
  run_load_data w name =
    (Ok RNone,
     [ LogInfo ("Começando a carga dos dados com o nome " +:+ name);
       ConfigLoaded;
       LogError "Erro: O nome do dataset fornecido é incorreto: None" ]).
Proof.
  intros Hcfg Hname. run_eff. simpl. rewrite Hcfg, Hname. reflexivity.
Qed.

(** C3, the claim as stated fails: for a name that the configuration
    does not hold, the caller gets [None] and no exception. *)
Lemma unknown_name_is_not_signalled :
  ex_config !! "test" = None /\
  fst (run_load_data ex_files "test") = Ok RNone /\
  ~ signals (fst (run_load_data ex_files "test")).
Proof.
  split; [vm_compute; reflexivity|].
  split; [vm_compute; reflexivity|].
  intros [e He]. vm_compute in He. discriminate.
Qed.

(** C3, amended.  For every name that is not a key of the
    configuration, [load_data] raises a [ValueError] inside its own
    [try] block, logs its message as an error and returns [None]: no
    exception reaches the caller.  The configuration is read once
    and no CSV file is read. *)
Theorem load_data_unknown_name_returns_none (w : World) (name : string)
    (cfg : gmap string cfg_value) :
  config_file w = Ok cfg ->
  cfg !! name = None ->
  run_load_data w name =
    (Ok RNone,
     [ LogInfo ("Começando a carga dos dados com o nome " +:+ name);
       ConfigLoaded;
       LogError "Erro: O nome do dataset fornecido é incorreto: None" ])
  /\ reads_csv (snd (run_load_data w name)) = false.
Proof.
  intros Hcfg Hname.
  rewrite (unknown_name_outcome w name cfg Hcfg Hname). split; reflexivity.
Qed.

Lemma load_data_unknown_name_returns_none_witness :
  run_load_data ex_files "test" =
    (Ok RNone,
     [ LogInfo "Começando a carga dos dados com o nome test";
       ConfigLoaded;
       LogError "Erro: O nome do dataset fornecido é incorreto: None" ])
  /\ reads_csv (snd (run_load_data ex_files "test")) = false.
Proof.
  apply (load_data_unknown_name_returns_none ex_files "test" ex_config);
    vm_compute; reflexivity.
Defined.

Lemma has_column_false (df : DataFrame) (c : string) :
  c ∉ df_columns df -> has_column df c = false.
Proof.
  unfold has_column. intros Hnin. apply bool_decide_eq_false. intros [i Hi].
  apply Hnin. clear Hnin. revert i Hi.
  induction (df_columns df) as [|c' l IH]; simpl; intros i Hi; [discriminate|].
  destruct (String.eqb_spec c' c) as [->|Hne]; [left|].
  destruct (column_index l c) as [j|] eqn:Hj; [|discriminate].
  right. eapply IH. reflexivity.
Qed.

Lemma getitem_list_missing (df : DataFrame) (cols : list string) (c : string) :
  c ∈ cols -> c ∉ df_columns df -> exists e, getitem_list df cols = Raise e /\ exc_cls e = KeyError.
Proof.
  intros Hin Hnin. unfold getitem_list.
  destruct (List.find _ cols) as [c'|] eqn:Hfind; [eexists; split; reflexivity|].
  apply list_elem_of_In in Hin. apply (find_none _ _ Hfind) in Hin.
  rewrite has_column_false in Hin by assumption. discriminate.
Qed.

(** C6.  Provided that what the configuration loader and [read_csv]
    raise are ordinary exceptions (instances of [Exception]),
    [load_data] never lets an exception out: it always returns.  For
    each failure the specification names (unknown name, file that
    cannot be read or parsed, configured column absent from the
    file) it logs an error and returns [None], the same value
    whatever the cause. *)
Theorem load_data_swallows_failures (w : World) (name : string) :
  ordinary_failures w ->
  (exists v, fst (run_load_data w name) = Ok v) /\
  (load_failure w name ->
   fst (run_load_data w name) = Ok RNone /\
   logs_error (snd (run_load_data w name)) = true).
Proof.
  intros [Hcfg Hcsv]. split.
  - run_eff. unfold getitem_label, getitem_list. simpl.
    repeat (case_match; simpl in *; simplify_eq); eauto.
    all: match goal with
         | He : isinstance ?e Exception = false |- _ =>
             first [ rewrite (Hcfg e eq_refl) in He
                   | erewrite (Hcsv _ e) in He by eassumption ]; discriminate
         end.
  - intros Hfail. destruct Hfail as
      [cfg Ecfg Ename | cfg file e Ecfg Ename Ecsv
      | cfg file df cols c Ecfg Ename Ecsv Ecols Hin Hnin].
    + rewrite (unknown_name_outcome w name cfg Ecfg Ename). split; reflexivity.
    + unfold dataset_path in Ecsv. run_eff. simpl. rewrite Ecfg, Ename. simpl.
      rewrite Ecsv.
      destruct (handler_swallows e w
          [LogInfo ("Começando a carga dos dados com o nome " +:+ name); ConfigLoaded;
           CsvRead (path_join (path_join (path_join (project_root w) "data") "raw") file)]
          (Hcsv _ e Ecsv)) as [msg Hh].
      unfold load_data_handler, Eff.bind, Eff.emit, Eff.ret, Eff.raise in Hh.
      simpl in Hh. rewrite Hh. split; reflexivity.
    + unfold dataset_path in Ecsv. run_eff. simpl. rewrite Ecfg, Ename. simpl.
      rewrite Ecsv. simpl. rewrite ?Ecfg. simpl. rewrite Ecols. simpl.
      destruct (getitem_list_missing df cols c Hin Hnin) as [e [-> Hcls]].
      destruct e as [cls msg]. simpl in Hcls. subst cls. split; reflexivity.
Qed.


(** The entry [model_name] is a string but not the name of a file
    under [data/raw]: reading it fails and [load_data] returns
    [None]. *)
Lemma load_data_swallows_failures_witness :
  ordinary_failures ex_files /\
  load_failure ex_files "model_name" /\
  (exists v, fst (run_load_data ex_files "model_name") = Ok v) /\
  fst (run_load_data ex_files "model_name") = Ok RNone /\
  logs_error (snd (run_load_data ex_files "model_name")) = true.
Proof.
  assert (ordinary_failures ex_files) as Hord.
  { split; [intros e He; discriminate|].
    intros p e. simpl. destruct (String.eqb p _); [discriminate|].
    intros [= <-]. reflexivity. }
  assert (load_failure ex_files "model_name") as Hfail.
  { apply (FileFailure ex_files "model_name" ex_config "prob_loan"
             (Exn FileNotFoundError "[Errno 2] No such file or directory"));
      vm_compute; reflexivity. }
  destruct (load_data_swallows_failures ex_files "model_name" Hord) as [Hok Hnone].
  destruct (Hnone Hfail) as [Hr Hlog].
  split; [exact Hord|]. split; [exact Hfail|]. split; [exact Hok|].
  split; assumption.
Defined.

(** C7.  For a name that the configuration maps to a file name, when
    [read_csv] succeeds on that file and the configured
    [columns_to_use] are all columns of the file, [load_data] returns
    a frame whose columns are the configured list, in the configured
    order, with as many rows as the file; the cell of row [i] in
    position [j] is the cell of row [i] of the file under the column
    named [cols !! j]. *)
Theorem load_data_projects_configured_columns (w : World) (name file : string)
    (cfg : gmap string cfg_value) (df : DataFrame) (cols : list string) :
  config_file w = Ok cfg ->
  cfg !! name = Some (CfgStr file) ->
  read_csv w (dataset_path w file) = Ok df ->
  cfg !! "columns_to_use" = Some (CfgList cols) ->
  (forall c, c ∈ cols -> c ∈ df_columns df) ->
  exists out,
    fst (run_load_data w name) = Ok (RFrame out) /\
    df_columns out = cols /\
    length (df_rows out) = length (df_rows df) /\
    forall i row, df_rows df !! i = Some row ->
      exists row', df_rows out !! i = Some row' /\
        length row' = length cols /\
        forall j c k, cols !! j = Some c ->
          df_columns df !! k = Some c ->
          (forall k', k' < k -> df_columns df !! k' <> Some c) ->
          row' !! j = Some (default None (row !! k)).
Proof.
  intros Ecfg Ename Ecsv Ecols Hcols. unfold dataset_path in Ecsv.
  eexists. split; [|exact (getitem_list_restricts df cols)].
  run_eff. simpl. rewrite Ecfg. simpl. rewrite Ename. simpl.
  rewrite Ecsv. simpl. rewrite ?Ecfg. simpl. rewrite Ecols. simpl.
  rewrite (getitem_list_ok df cols Hcols). reflexivity.
Qed.

(** The file holds the columns [id], [age] and [target]; the frame
    returned holds [age] and [target], cell by cell. *)
Lemma load_data_projects_configured_columns_witness :
  df_columns ex_csv = ["id"; "age"; "target"] /\
  df_rows ex_csv = [ [Some "1"; Some "34"; Some "0"];
                     [Some "2"; None; Some "1"];
                     [Some "3"; Some "51"; Some "0"] ] /\
  fst (run_load_data ex_files "train") =
    Ok (RFrame {| df_columns := ["age"; "target"];
                  df_rows := [ [Some "34"; Some "0"];
                               [None; Some "1"];
                               [Some "51"; Some "0"] ] |}) /\
  exists out,
    fst (run_load_data ex_files "train") = Ok (RFrame out) /\
    df_columns out = ["age"; "target"] /\
    length (df_rows out) = length (df_rows ex_csv) /\
    forall i row, df_rows ex_csv !! i = Some row ->
      exists row', df_rows out !! i = Some row' /\
        length row' = length ["age"; "target"] /\
        forall j c k, ["age"; "target"] !! j = Some c ->
          df_columns ex_csv !! k = Some c ->
          (forall k', k' < k -> df_columns ex_csv !! k' <> Some c) ->
          row' !! j = Some (default None (row !! k)).
Proof.
  split; [reflexivity|]. split; [reflexivity|].
  split; [vm_compute; reflexivity|].
  apply (load_data_projects_configured_columns ex_files "train" "train.csv"
           ex_config ex_csv ["age"; "target"]).
  - reflexivity.
  - vm_compute; reflexivity.
  - vm_compute; reflexivity.
  - vm_compute; reflexivity.
  - intros c Hc. apply list_elem_of_In in Hc. apply list_elem_of_In. simpl in *.
    intuition.
Defined.

Example load_data_train :
  fst (run_load_data ex_files "train") =
    Ok (RFrame {| df_columns := ["age"; "target"];
                  df_rows := [ [Some "34"; Some "0"];
                               [None; Some "1"];
                               [Some "51"; Some "0"] ] |}).
Proof. vm_compute. reflexivity. Qed.

End DataLoadSpec.


(** ** More properties of [load_data] *)

Module DataLoadMore.
Import Pandas DataLoad DataLoadTerms Examples MoreExamples DataLoadSpec.

Definition info_load (name : string) : event :=
  LogInfo ("Começando a carga dos dados com o nome " +:+ name).

Lemma has_column_elem (df : DataFrame) (c : string) :
  has_column df c = true -> c ∈ df_columns df.
Proof.
  intros Hc. destruct (decide (c ∈ df_columns df)) as [Hin|Hnin]; [exact Hin|].
  rewrite (has_column_false df c Hnin) in Hc. discriminate.
Qed.

Lemma getitem_list_inv (df : DataFrame) (cols : list string) (out : DataFrame) :
  getitem_list df cols = Ok out ->
  (forall c, c ∈ cols -> c ∈ df_columns df) /\
  out = {| df_columns := cols;
           df_rows := (fun row => (fun c => row_get df row c) <$> cols) <$> df_rows df |}.
Proof.
  unfold getitem_list. destruct (List.find _ cols) as [c|] eqn:Hfind; [discriminate|].
  intros [= <-]. split; [|reflexivity].
  intros c Hc. apply list_elem_of_In in Hc. apply (find_none _ _ Hfind) in Hc.
  apply has_column_elem. by destruct (has_column df c).
Qed.

(** A subclass of [ValueError] is a subclass of [Exception]. *)
Lemma value_error_is_exception (e : exn) :
  isinstance e ValueError = true -> isinstance e Exception = true.
Proof. destruct e as [[] msg]; vm_compute; congruence. Qed.

(** X1.  Whatever the configuration and the files, when [load_data]
    returns, it returns [None] exactly when it has logged an error:
    a table is never returned after an error, and [None] never
    without one. *)
Theorem load_data_none_iff_error_logged (w : World) (name : string) (v : retval) :
  fst (run_load_data w name) = Ok v ->
  (v = RNone <-> logs_error (snd (run_load_data w name)) = true).
Proof.
  run_eff. unfold getitem_label, getitem_list. simpl.
  repeat (case_match; simpl in *; simplify_eq); intros Hv; simplify_eq;
    split; intros Hx; try done; try discriminate.
Qed.

Lemma load_data_none_iff_error_logged_witness :
  fst (run_load_data ex_files "test") = Ok RNone /\
  (RNone = RNone <-> logs_error (snd (run_load_data ex_files "test")) = true).
Proof.
  split; [vm_compute; reflexivity|].
  apply (load_data_none_iff_error_logged ex_files "test" RNone).
  vm_compute. reflexivity.
Defined.


(** X2.  Whenever [load_data] returns a frame, the name is mapped to
    a file name, that file under [data/raw] was read once and read
    well, the configured columns all exist in it, and the frame is
    the file restricted to those columns: the configured header, one
    row for every row of the file in file order, and in each row the
    cells that the file has under the configured columns.  The
    configuration was loaded twice, before and after the file. *)
Theorem load_data_frame_inv (w : World) (name : string) (out : DataFrame) :
  fst (run_load_data w name) = Ok (RFrame out) ->
  exists cfg file df cols,
    config_file w = Ok cfg /\
    cfg !! name = Some (CfgStr file) /\
    read_csv w (dataset_path w file) = Ok df /\
    cfg !! "columns_to_use" = Some (CfgList cols) /\
    (forall c, c ∈ cols -> c ∈ df_columns df) /\
    df_columns out = cols /\
    length (df_rows out) = length (df_rows df) /\
    (forall i row, df_rows df !! i = Some row ->
       exists row', df_rows out !! i = Some row' /\
         length row' = length cols /\
         forall j c k, cols !! j = Some c ->
           df_columns df !! k = Some c ->
           (forall k', k' < k -> df_columns df !! k' <> Some c) ->
           row' !! j = Some (default None (row !! k))) /\
    snd (run_load_data w name) =
      [info_load name; ConfigLoaded; CsvRead (dataset_path w file); ConfigLoaded].
Proof.
  unfold dataset_path, info_load. run_eff. unfold getitem_label. simpl.
  repeat (case_match; simpl in *; simplify_eq); intros Hv; simplify_eq.
  match goal with
  | Hg : getitem_list _ _ = Ok _ |- _ => apply getitem_list_inv in Hg as [Hcols ->]
  end.
  eexists _, _, _, _.
  do 5 (split; [eauto|]).
  match goal with
  | |- df_columns {| df_columns := ?cols; df_rows := _ <$> df_rows ?df |} = _ /\ _ =>
      destruct (getitem_list_restricts df cols) as (Hc & Hl & Hr)
  end.
  split; [exact Hc|]. split; [exact Hl|]. split; [exact Hr|]. reflexivity.
Qed.

(** The frame returned for [train], cell by cell, against the file. *)
Lemma load_data_frame_inv_witness :
  df_columns ex_csv = ["id"; "age"; "target"] /\
  df_rows ex_csv = [ [Some "1"; Some "34"; Some "0"];
                     [Some "2"; None; Some "1"];
                     [Some "3"; Some "51"; Some "0"] ] /\
  fst (run_load_data ex_files "train") =
    Ok (RFrame {| df_columns := ["age"; "target"];
                  df_rows := [ [Some "34"; Some "0"];
                               [None; Some "1"];
                               [Some "51"; Some "0"] ] |}) /\
  exists out cfg file df cols,
    fst (run_load_data ex_files "train") = Ok (RFrame out) /\
    config_file ex_files = Ok cfg /\
    cfg !! "train" = Some (CfgStr file) /\
    read_csv ex_files (dataset_path ex_files file) = Ok df /\
    cfg !! "columns_to_use" = Some (CfgList cols) /\
    (forall c, c ∈ cols -> c ∈ df_columns df) /\
    df_columns out = cols /\
    length (df_rows out) = length (df_rows df) /\
    (forall i row, df_rows df !! i = Some row ->
       exists row', df_rows out !! i = Some row' /\
         length row' = length cols /\
         forall j c k, cols !! j = Some c ->
           df_columns df !! k = Some c ->
           (forall k', k' < k -> df_columns df !! k' <> Some c) ->
           row' !! j = Some (default None (row !! k))) /\
    snd (run_load_data ex_files "train") =
      [info_load "train"; ConfigLoaded; CsvRead (dataset_path ex_files file); ConfigLoaded].
Proof.
  split; [reflexivity|]. split; [reflexivity|].
  assert (fst (run_load_data ex_files "train") =
          Ok (RFrame {| df_columns := ["age"; "target"];
                        df_rows := [ [Some "34"; Some "0"];
                                     [None; Some "1"];
                                     [Some "51"; Some "0"] ] |})) as Hrun
    by (vm_compute; reflexivity).
  split; [exact Hrun|].
  destruct (load_data_frame_inv ex_files "train" _ Hrun)
    as (cfg & file & df & cols & H1 & H2 & H3 & H4 & H5 & H6 & H7 & H8 & H9).
  eexists _, cfg, file, df, cols. split; [exact Hrun|]. by repeat split.
Defined.

(** X3.  An entry that is null or a list, not a file name, is handled
    before any file is touched: [load_data] logs one error and
    returns [None].  A null entry is reported like an unknown name;
    a list fails in [os.path.join] and is reported as unexpected. *)
Theorem load_data_entry_not_a_file (w : World) (name : string)
    (cfg : gmap string cfg_value) :
  config_file w = Ok cfg ->
  (cfg !! name = Some CfgNull \/ exists l, cfg !! name = Some (CfgList l)) ->
  fst (run_load_data w name) = Ok RNone /\
  reads_csv (snd (run_load_data w name)) = false /\
  exists msg, snd (run_load_data w name) = [info_load name; ConfigLoaded; LogError msg] /\
    (cfg !! name = Some CfgNull ->
     msg = "Erro: O nome do dataset fornecido é incorreto: None") /\
    ((exists l, cfg !! name = Some (CfgList l)) ->
     String.prefix "Erro inesperado: " msg = true).
Proof.
  intros Hcfg [Hn|[l Hn]]; unfold info_load; run_eff; simpl; rewrite Hcfg, Hn; simpl.
  - split; [reflexivity|]. split; [reflexivity|]. eexists. split; [reflexivity|].
    split; [reflexivity|]. intros [l' Hl']. discriminate.
  - split; [reflexivity|]. split; [reflexivity|]. eexists. split; [reflexivity|].
    split; [discriminate|]. intros _. reflexivity.
Qed.

Lemma load_data_entry_not_a_file_witness :
  fst (run_load_data (ex_files_shapes ex_columns) "both") = Ok RNone /\
  reads_csv (snd (run_load_data (ex_files_shapes ex_columns) "both")) = false /\
  exists msg,
    snd (run_load_data (ex_files_shapes ex_columns) "both")
      = [info_load "both"; ConfigLoaded; LogError msg] /\
    (ex_config_shapes ex_columns !! "both" = Some CfgNull ->
     msg = "Erro: O nome do dataset fornecido é incorreto: None") /\
    ((exists l, ex_config_shapes ex_columns !! "both" = Some (CfgList l)) ->
     String.prefix "Erro inesperado: " msg = true).
Proof.
  apply (load_data_entry_not_a_file (ex_files_shapes ex_columns) "both"
           (ex_config_shapes ex_columns)); [reflexivity|].
  right. eexists. vm_compute. reflexivity.
Defined.

(** X4.  When reading the file fails with an ordinary exception,
    [load_data] returns [None] after one error line whose text
    depends on the class of the exception: the message alone for a
    [ValueError] or a subclass of it (a file that cannot be parsed,
    an empty file, a decoding error), and the message after
    [Erro inesperado: ] for any other (a missing file). *)
Theorem load_data_read_failure_logged (w : World) (name file : string)
    (cfg : gmap string cfg_value) (e : exn) :
  config_file w = Ok cfg ->
  cfg !! name = Some (CfgStr file) ->
  read_csv w (dataset_path w file) = Raise e ->
  isinstance e Exception = true ->
  run_load_data w name =
    (Ok RNone,
     [ info_load name; ConfigLoaded; CsvRead (dataset_path w file);
       LogError (if isinstance e ValueError then exc_str e
                 else "Erro inesperado: " +:+ exc_str e) ]).
Proof.
  intros Hcfg Hname Hread Hexc. unfold dataset_path in *. unfold info_load.
  run_eff. simpl. rewrite Hcfg, Hname. simpl. rewrite Hread.
  destruct (isinstance e ValueError); [reflexivity|]. rewrite Hexc. reflexivity.
Qed.

Lemma load_data_read_failure_logged_witness :
  run_load_data (ex_files_shapes ex_columns) "broken" =
    (Ok RNone,
     [ info_load "broken"; ConfigLoaded;
       CsvRead "/app/projeto/data/raw/broken.csv";
       LogError "Error tokenizing data. C error: Expected 3 fields" ]) /\
  run_load_data ex_files "model_name" =
    (Ok RNone,
     [ info_load "model_name"; ConfigLoaded;
       CsvRead "/app/projeto/data/raw/prob_loan";
       LogError "Erro inesperado: [Errno 2] No such file or directory" ]).
Proof.
  split.
  - apply (load_data_read_failure_logged (ex_files_shapes ex_columns) "broken" "broken.csv"
             (ex_config_shapes ex_columns)
             (Exn ParserError "Error tokenizing data. C error: Expected 3 fields"));
      vm_compute; reflexivity.
  - apply (load_data_read_failure_logged ex_files "model_name" "prob_loan" ex_config
             (Exn FileNotFoundError "[Errno 2] No such file or directory"));
      vm_compute; reflexivity.
Defined.

(** X5.  An exception that is not an instance of [Exception] (a
    keyboard interrupt, an interpreter exit) raised while the file is
    read is caught by neither [except] clause: it leaves [load_data]
    and nothing is logged as an error. *)
Theorem load_data_lets_interrupts_through (w : World) (name file : string)
    (cfg : gmap string cfg_value) (e : exn) :
  config_file w = Ok cfg ->
  cfg !! name = Some (CfgStr file) ->
  read_csv w (dataset_path w file) = Raise e ->
  isinstance e Exception = false ->
  run_load_data w name =
    (Raise e, [info_load name; ConfigLoaded; CsvRead (dataset_path w file)]).
Proof.
  intros Hcfg Hname Hread Hexc. unfold dataset_path in *. unfold info_load.
  run_eff. simpl. rewrite Hcfg, Hname. simpl. rewrite Hread.
  destruct (isinstance e ValueError) eqn:Hval.
  - apply value_error_is_exception in Hval. congruence.
  - rewrite Hexc. reflexivity.
Qed.

Lemma load_data_lets_interrupts_through_witness :
  run_load_data (ex_files_shapes ex_columns) "slow" =
    (Raise (Exn KeyboardInterrupt ""),
     [info_load "slow"; ConfigLoaded; CsvRead "/app/projeto/data/raw/slow.csv"]).
Proof.
  apply (load_data_lets_interrupts_through (ex_files_shapes ex_columns) "slow" "slow.csv"
           (ex_config_shapes ex_columns) (Exn KeyboardInterrupt ""));
    vm_compute; reflexivity.
Defined.


(** X6.  When [columns_to_use] is configured as one column name
    instead of a list, [load_data] returns that column alone, as a
    series and not as a frame: its values in file order. *)
Theorem load_data_single_column (w : World) (name file c : string)
    (cfg : gmap string cfg_value) (df : DataFrame) :
  config_file w = Ok cfg ->
  cfg !! name = Some (CfgStr file) ->
  read_csv w (dataset_path w file) = Ok df ->
  cfg !! "columns_to_use" = Some (CfgStr c) ->
  c ∈ df_columns df ->
  fst (run_load_data w name) =
    Ok (RSeries c ((fun row => row_get df row c) <$> df_rows df)).
Proof.
  intros Hcfg Hname Hread Hcols Hc. unfold dataset_path in *.
  run_eff. simpl. rewrite Hcfg. simpl. rewrite Hname. simpl. rewrite Hread. simpl.
  rewrite ?Hcfg. simpl. rewrite Hcols. simpl.
  unfold getitem_label. rewrite (has_column_true df c Hc). reflexivity.
Qed.

Lemma load_data_single_column_witness :
  fst (run_load_data (ex_files_shapes (Some (CfgStr "age"))) "train") =
    Ok (RSeries "age" [Some "34"; None; Some "51"]).
Proof.
  apply (load_data_single_column (ex_files_shapes (Some (CfgStr "age"))) "train"
           "train.csv" "age" (ex_config_shapes (Some (CfgStr "age"))) ex_csv);
    try (vm_compute; reflexivity).
  apply list_elem_of_In. simpl. tauto.
Defined.

(** X7.  A configured file name that starts with [/] is not looked
    up under [data/raw]: [os.path.join] drops the directories before
    it and the file read is that absolute path itself. *)
Theorem load_data_absolute_file_name (w : World) (name file : string)
    (cfg : gmap string cfg_value) :
  config_file w = Ok cfg ->
  cfg !! name = Some (CfgStr file) ->
  String.prefix "/" file = true ->
  dataset_path w file = file /\
  CsvRead file ∈ snd (run_load_data w name).
Proof.
  intros Hcfg Hname Habs.
  assert (dataset_path w file = file) as Hpath.
  { unfold dataset_path, path_join at 1. by rewrite Habs. }
  split; [exact Hpath|]. unfold dataset_path in Hpath.
  run_eff. simpl. rewrite Hcfg. simpl. rewrite Hname. simpl. rewrite Hpath.
  destruct (read_csv w file) as [df|e]; simpl.
  - rewrite ?Hcfg. simpl.
    repeat (case_match; simpl in *; simplify_eq);
      apply list_elem_of_In; simpl; tauto.
  - repeat (case_match; simpl in *; simplify_eq);
      apply list_elem_of_In; simpl; tauto.
Qed.

Lemma load_data_absolute_file_name_witness :
  dataset_path (ex_files_shapes ex_columns) "/srv/shared.csv" = "/srv/shared.csv" /\
  CsvRead "/srv/shared.csv" ∈ snd (run_load_data (ex_files_shapes ex_columns) "shared").
Proof.
  apply (load_data_absolute_file_name (ex_files_shapes ex_columns) "shared"
           "/srv/shared.csv" (ex_config_shapes ex_columns)); vm_compute; reflexivity.
Defined.

(** X8.  When the configuration has no [columns_to_use] (or a null
    one), the file is still read in full before the lookup fails:
    [load_data] then logs the [KeyError] as unexpected and returns
    [None]. *)
Theorem load_data_without_columns_to_use (w : World) (name file : string)
    (cfg : gmap string cfg_value) (df : DataFrame) :
  config_file w = Ok cfg ->
  cfg !! name = Some (CfgStr file) ->
  read_csv w (dataset_path w file) = Ok df ->
  (cfg !! "columns_to_use" = None \/ cfg !! "columns_to_use" = Some CfgNull) ->
  run_load_data w name =
    (Ok RNone,
     [ info_load name; ConfigLoaded; CsvRead (dataset_path w file); ConfigLoaded;
       LogError "Erro inesperado: None" ]).
Proof.
  intros Hcfg Hname Hread Hcols. unfold dataset_path in *. unfold info_load.
  run_eff. simpl. rewrite Hcfg. simpl. rewrite Hname. simpl. rewrite Hread. simpl.
  rewrite ?Hcfg. simpl. destruct Hcols as [-> | ->]; reflexivity.
Qed.

Lemma load_data_without_columns_to_use_witness :
  run_load_data (ex_files_shapes None) "train" =
    (Ok RNone,
     [ info_load "train"; ConfigLoaded; CsvRead "/app/projeto/data/raw/train.csv";
       ConfigLoaded; LogError "Erro inesperado: None" ]).
Proof.
  apply (load_data_without_columns_to_use (ex_files_shapes None) "train" "train.csv"
           (ex_config_shapes None) ex_csv); try (vm_compute; reflexivity).
  left. vm_compute. reflexivity.
Defined.

End DataLoadMore.


(** ** Properties of [get_best_model] *)

Module BestModelSpec.
Import Mlflow RunsTable Pandas Train TrainTerms ReferenceFacts RunsTableFacts Examples.


Lemma elem_of_eligible (w : World) (r : Run) :
  r ∈ eligible w <->
  r ∈ runs (server w) /\ exists m, metrics r !! valid_roc_auc = Some m /\ (m < 1)%Q.
Proof.
  unfold eligible. rewrite list_elem_of_In, filter_In, <- list_elem_of_In.
  unfold matches. split; intros [Hin Hm]; (split; [exact Hin|]).
  - destruct (metrics r !! valid_roc_auc) as [m|]; [|discriminate].
    exists m. split; [reflexivity|]. by apply Qlt_b_true.
  - destruct Hm as (m & -> & Hlt). by apply Qlt_b_true.
Qed.

(** [get_best_model] only reads: the world is returned as it was
    found, two events are logged, and the result does not depend on
    the trace so far. *)
Lemma get_best_model_reads `{Sorting} (w : World) (tr : list event) :
  get_best_model w tr =
    (fst (fst (get_best_model w [])), w, tr ++ [info_best; search_best]).
Proof.
  unfold get_best_model, search_runs, Eff.bind, Eff.emit, Eff.get, Eff.lift, Eff.ret.
  simpl. rewrite <- app_assoc. simpl.
  repeat case_match; simplify_eq; reflexivity.
Qed.

Section Selection.
Context `{Sorting}.
Variable w : World.

Let found : RunsFrame := frame_of_runs (eligible w).

Lemma found_row_has_metric (row : Row) :
  row ∈ rows found -> exists m, metric_cell valid_roc_auc row = Some m /\ (m < 1)%Q.
Proof.
  intros (r & Hr & _ & Hm & _)%elem_of_frame_rows.
  apply elem_of_eligible in Hr as [_ (m & Hrm & Hlt)].
  exists m. unfold metric_cell. by rewrite Hm.
Qed.

Lemma metric_column_found :
  eligible w <> [] -> valid_roc_auc ∈ metric_columns found.
Proof.
  intros Hne. destruct (eligible w) as [|r rs] eqn:E; [done|].
  assert (r ∈ eligible w) as Hr by (rewrite E; left).
  apply (elem_of_union_list_dom metrics). exists r. rewrite <- E.
  split; [exact Hr|].
  apply elem_of_eligible in Hr as [_ (m & -> & _)]. eauto.
Qed.

Lemma sort_values_found :
  eligible w <> [] ->
  sort_values found valid_roc_auc =
    Ok {| metric_columns := metric_columns found;
          param_columns := param_columns found;
          rows := sort_desc (metric_cell valid_roc_auc) (rows found) |}.
Proof.
  intros Hne. unfold sort_values.
  by rewrite bool_decide_eq_true_2 by by apply metric_column_found.
Qed.
End Selection.



(** C1.  When some run passes the filter [metrics.valid_roc_auc < 1]
    (run identifiers being unique, and each of the eleven parameters
    having been logged by some run that passes), [get_best_model]
    returns the metric [m] and the parameters of a run [r] such that
    [m < 1] and no run with a metric below one has a larger metric:
    runs at or above one are not considered.  For the metrics 0.81,
    0.95, 1.0 and 0.62 it returns the run with 0.95. *)
Theorem get_best_model_selects_max `{Sorting} (w : World) (tr : list event) :
  eligible w <> [] ->
  NoDup (run_id <$> runs (server w)) ->
  (forall c, c ∈ best_params_columns ->
             exists r, r ∈ eligible w /\ is_Some (params r !! c)) ->
  exists r m lbl,
    r ∈ runs (server w) /\
    metrics r !! valid_roc_auc = Some m /\ (m < 1)%Q /\
    (forall r' m', r' ∈ runs (server w) ->
                   metrics r' !! valid_roc_auc = Some m' -> (m' < 1)%Q ->
                   (m' <= m)%Q) /\
    fst (fst (get_best_model w tr)) = Ok (Some m, params_frame_of lbl r).
Proof.
  intros Hne Hids Hcols.
  set (found := frame_of_runs (eligible w)).
  set (df := {| metric_columns := metric_columns found;
                param_columns := param_columns found;
                rows := sort_desc (metric_cell valid_roc_auc) (rows found) |}).
  assert (rows df ≡ₚ rows found) as Hperm by apply sort_desc_perm.
  assert (valid_roc_auc ∈ metric_columns df) as Hcol by by apply metric_column_found.
  destruct (idxmax_is_max df valid_roc_auc Hcol) as (row & m & Hidx & Hrow & Hm & Hmax).
  { intros Hnil. rewrite Hnil in Hperm. symmetry in Hperm.
    apply Permutation_nil_r in Hperm. apply Hne.
    apply (f_equal length) in Hperm. simpl in Hperm. rewrite length_imap in Hperm.
    by destruct (eligible w). }
  { intros r Hr. rewrite Hperm in Hr.
    destruct (found_row_has_metric w r Hr) as (m & -> & _). eauto. }
  assert (loc df (label row) = Ok row) as Hloc.
  { apply loc_unique; [|exact Hrow]. rewrite Hperm.
    unfold found. rewrite labels_of_frame. apply NoDup_seq. }
  assert (NoDup (run_id <$> eligible w)) as Hids'.
  { eapply sublist_NoDup; [exact Hids|]. apply fmap_sublist.
    apply List_filter_sublist. }
  assert (rows (loc_run_id df (row_run_id row)) = [row]) as Hsel.
  { change (List.filter (fun r => String.eqb (row_run_id r) (row_run_id row)) (rows df)
            = [row]).
    apply (filter_unique row_run_id); [|exact Hrow].
    rewrite Hperm. unfold found. by rewrite run_ids_of_frame. }
  assert (select_params (loc_run_id df (row_run_id row)) best_params_columns =
          Ok {| pf_columns := best_params_columns;
                pf_rows := [ (label row, (fun c => row_params row !! c)
                                           <$> best_params_columns) ] |}) as Hpar.
  { unfold select_params. rewrite Hsel.
    destruct (List.find _ best_params_columns) as [c|] eqn:Hfind; [|reflexivity].
    apply find_some in Hfind as [Hin Hnot]. apply list_elem_of_In in Hin.
    destruct (Hcols c Hin) as (r & Hr & Hsome).
    rewrite bool_decide_eq_true_2 in Hnot; [discriminate|].
    simpl. apply (elem_of_union_list_dom params). eauto. }
  rewrite Hperm in Hrow.
  destruct (elem_of_frame_rows _ _ Hrow) as (r & Hr & _ & Hmet & Hparams).
  pose proof Hr as Hr'. apply elem_of_eligible in Hr' as [Hin (m0 & Hm0 & Hlt)].
  unfold metric_cell in Hm. rewrite Hmet, Hm0 in Hm. injection Hm as ->.
  exists r, m, (label row). split; [exact Hin|]. split; [exact Hm0|].
  split; [exact Hlt|]. split.
  - intros r' m' Hin' Hm' Hlt'.
    destruct (frame_rows_of_elem (eligible w) r') as (row' & Hrow' & Hmet').
    { apply elem_of_eligible. eauto. }
    apply (Hmax row' m'); [by rewrite Hperm|].
    unfold metric_cell. by rewrite Hmet'.
  - rewrite get_best_model_reads. simpl.
    unfold get_best_model, search_runs, Eff.bind, Eff.emit, Eff.get, Eff.lift, Eff.ret.
    simpl. fold (eligible w). fold found.
    rewrite (sort_values_found w Hne). fold found. fold df.
    rewrite Hidx. rewrite Hloc. rewrite Hpar. unfold row_metric.
    rewrite bool_decide_eq_true_2 by exact Hcol.
    unfold metric_cell, params_frame_of. rewrite Hmet, Hm0, Hparams. reflexivity.
Qed.


(** C2.  With no run below one, [search_runs] returns a frame without
    the column [metrics.valid_roc_auc] and [sort_values] raises a
    [KeyError], which nothing in [get_best_model] catches: the call
    ends with that [KeyError], there is no check for this case. *)
Theorem get_best_model_no_eligible_run `{Sorting} (w : World) (tr : list event) :
  eligible w = [] ->
  fst (fst (get_best_model w tr)) = Raise (Exn KeyError "metrics.valid_roc_auc").
Proof.
  intros Hnil. rewrite get_best_model_reads. simpl.
  unfold get_best_model, search_runs, Eff.bind, Eff.emit, Eff.get, Eff.lift, Eff.ret.
  simpl. fold (eligible w). rewrite Hnil. reflexivity.
Qed.


Lemma get_best_model_no_eligible_run_witness :
  eligible ex_world_no_eligible = [] /\
  fst (fst (get_best_model ex_world_no_eligible [])) =
    Raise (Exn KeyError "metrics.valid_roc_auc").
Proof.
  split; [reflexivity|].
  apply (get_best_model_no_eligible_run ex_world_no_eligible []). reflexivity.
Defined.

Lemma get_best_model_selects_max_witness :
  (exists r m lbl,
      r ∈ runs (server ex_world) /\
      metrics r !! valid_roc_auc = Some m /\ (m < 1)%Q /\
      (forall r' m', r' ∈ runs (server ex_world) ->
                     metrics r' !! valid_roc_auc = Some m' -> (m' < 1)%Q ->
                     (m' <= m)%Q) /\
      fst (fst (get_best_model ex_world [])) = Ok (Some m, params_frame_of lbl r)) /\
  fst (fst (get_best_model ex_world [])) = Ok (Some (95 # 100), ex_best_params "False").
Proof.
  split; [|vm_compute; reflexivity].
  apply (get_best_model_selects_max ex_world []).
  - vm_compute. discriminate.
  - vm_compute. compute_done.
  - intros c Hc. exists (ex_run "a1" (81 # 100) "1.0" "lbfgs" "True").
    split; [vm_compute; left|].
    apply list_elem_of_In in Hc. simpl in Hc.
    repeat (destruct Hc as [<-|Hc]; [vm_compute; eauto|]). destruct Hc.
Defined.

(** With a tie the run returned is the one the sort puts first: the
    reference sort keeps the retrieval order among equal metrics. *)
Example get_best_model_tie :
  fst (fst (get_best_model ex_world_tie [])) =
    Ok (Some (95 # 100),
        {| pf_columns := best_params_columns;
           pf_rows :=
             [ (0, [ Some "balanced"; Some "EqualFrequencyDiscretiser()"; Some "False";
                     Some "MeanMedianImputer()"; Some "lbfgs";
                     Some "SklearnTransformerWrapper(StandardScaler())"; Some "100";
                     Some "True"; Some "0.0001"; Some "auto"; Some "1.0" ]) ] |}).
Proof. vm_compute. reflexivity. Qed.

End BestModelSpec.


(** ** More properties of [get_best_model] *)

Module BestModelMore.
Import Mlflow RunsTable Pandas Train TrainTerms ReferenceFacts RunsTableFacts.
Import BestModelSpec Examples MoreExamples.

(** With a run below one, the sort, [idxmax] and [loc] go through
    and find a row of largest metric; what is left is the selection
    of the parameter columns. *)
Lemma best_row_found `{Sorting} (w : World) (tr : list event) :
  eligible w <> [] ->
  exists df row m,
    metric_columns df = metric_columns (frame_of_runs (eligible w)) /\
    param_columns df = param_columns (frame_of_runs (eligible w)) /\
    rows df ≡ₚ rows (frame_of_runs (eligible w)) /\
    row ∈ rows df /\
    metric_cell valid_roc_auc row = Some m /\
    (forall row' m', row' ∈ rows df -> metric_cell valid_roc_auc row' = Some m' ->
                     (m' <= m)%Q) /\
    fst (fst (get_best_model w tr)) =
      match select_params (loc_run_id df (row_run_id row)) best_params_columns with
      | Ok pf => Ok (Some m, pf)
      | Raise e => Raise e
      end.
Proof.
  intros Hne.
  set (found := frame_of_runs (eligible w)).
  set (df := {| metric_columns := metric_columns found;
                param_columns := param_columns found;
                rows := sort_desc (metric_cell valid_roc_auc) (rows found) |}).
  assert (rows df ≡ₚ rows found) as Hperm by apply sort_desc_perm.
  assert (valid_roc_auc ∈ metric_columns df) as Hcol by by apply metric_column_found.
  destruct (idxmax_is_max df valid_roc_auc Hcol) as (row & m & Hidx & Hrow & Hm & Hmax).
  { intros Hnil. rewrite Hnil in Hperm. symmetry in Hperm.
    apply Permutation_nil_r in Hperm. apply Hne.
    apply (f_equal length) in Hperm. simpl in Hperm. rewrite length_imap in Hperm.
    by destruct (eligible w). }
  { intros r Hr. rewrite Hperm in Hr.
    destruct (found_row_has_metric w r Hr) as (m & -> & _). eauto. }
  assert (loc df (label row) = Ok row) as Hloc.
  { apply loc_unique; [|exact Hrow]. rewrite Hperm.
    unfold found. rewrite labels_of_frame. apply NoDup_seq. }
  exists df, row, m. do 3 (split; [done|]). do 3 (split; [assumption|]).
  rewrite get_best_model_reads. simpl.
  unfold get_best_model, search_runs, Eff.bind, Eff.emit, Eff.get, Eff.lift, Eff.ret.
  simpl. fold (eligible w). fold found.
  rewrite (sort_values_found w Hne). fold found. fold df.
  rewrite Hidx, Hloc.
  destruct (select_params _ _) as [pf|e]; [|reflexivity].
  unfold row_metric.
  rewrite bool_decide_eq_true_2 by exact Hcol. by rewrite Hm.
Qed.

Lemma no_eligible_raises `{Sorting} (w : World) (tr : list event) :
  eligible w = [] -> is_ok (fst (fst (get_best_model w tr))) = false.
Proof.
  intros Hnil. rewrite get_best_model_reads. simpl.
  unfold get_best_model, search_runs, Eff.bind, Eff.emit, Eff.get, Eff.lift, Eff.ret.
  simpl. fold (eligible w). rewrite Hnil. reflexivity.
Qed.

(** What a returned metric is, with nothing assumed but the return. *)
Lemma best_metric_inv `{Sorting} (w : World) (tr : list event)
    (m : option Q) (pf : ParamsFrame) :
  fst (fst (get_best_model w tr)) = Ok (m, pf) ->
  exists r q,
    m = Some q /\ r ∈ eligible w /\ metrics r !! valid_roc_auc = Some q /\
    (forall r' q', r' ∈ eligible w -> metrics r' !! valid_roc_auc = Some q' ->
                   (q' <= q)%Q) /\
    pf_columns pf = best_params_columns.
Proof.
  intros Hok.
  destruct (decide (eligible w = [])) as [Hnil|Hne].
  { apply (no_eligible_raises w tr) in Hnil. rewrite Hok in Hnil. discriminate. }
  destruct (best_row_found w tr Hne)
    as (df & row & q & _ & _ & Hperm & Hrow & Hm & Hmax & Hres).
  rewrite Hok in Hres.
  destruct (select_params _ _) as [pf'|e] eqn:Hsel; [|discriminate].
  injection Hres as -> ->.
  rewrite Hperm in Hrow.
  destruct (elem_of_frame_rows _ _ Hrow) as (r & Hr & _ & Hmet & _).
  exists r, q. split; [reflexivity|]. split; [exact Hr|].
  split; [unfold metric_cell in Hm; by rewrite <- Hmet|]. split.
  - intros r' q' Hr' Hq'.
    destruct (frame_rows_of_elem (eligible w) r' Hr') as (row' & Hrow' & Hmet').
    apply (Hmax row' q'); [by rewrite Hperm|]. unfold metric_cell. by rewrite Hmet'.
  - unfold select_params in Hsel. destruct (List.find _ _); [discriminate|].
    by injection Hsel as <-.
Qed.


(** The selection in full, with the place of the chosen run among
    the runs below one. *)
Lemma best_run_forward `{Sorting} (w : World) (tr : list event) :
  eligible w <> [] ->
  NoDup (run_id <$> eligible w) ->
  (forall c, c ∈ best_params_columns ->
             exists r, r ∈ eligible w /\ is_Some (params r !! c)) ->
  exists r lbl m,
    eligible w !! lbl = Some r /\
    metrics r !! valid_roc_auc = Some m /\
    (forall r' m', r' ∈ eligible w -> metrics r' !! valid_roc_auc = Some m' ->
                   (m' <= m)%Q) /\
    fst (fst (get_best_model w tr)) = Ok (Some m, params_frame_of lbl r).
Proof.
  intros Hne Hids Hcols.
  destruct (best_row_found w tr Hne)
    as (df & row & m & _ & Hpc & Hperm & Hrow & Hm & Hmax & ->).
  pose proof Hrow as Hrow'. rewrite Hperm in Hrow'. simpl in Hrow'.
  apply elem_of_lookup_imap in Hrow' as (lbl & r & -> & Hlbl).
  assert (rows (loc_run_id df (row_run_id (row_of_run lbl r))) = [row_of_run lbl r]) as Hsel.
  { change (List.filter (fun x => String.eqb (row_run_id x) (row_run_id (row_of_run lbl r)))
                        (rows df) = [row_of_run lbl r]).
    apply (filter_unique row_run_id); [|exact Hrow].
    rewrite Hperm. by rewrite run_ids_of_frame. }
  exists r, lbl, m. split; [exact Hlbl|]. split; [exact Hm|]. split.
  - intros r' m' Hr' Hm'.
    destruct (frame_rows_of_elem (eligible w) r' Hr') as (row' & Hrow' & Hmet').
    apply (Hmax row' m'); [by rewrite Hperm|]. unfold metric_cell. by rewrite Hmet'.
  - unfold select_params. rewrite Hsel.
    change (param_columns (loc_run_id df (row_run_id (row_of_run lbl r))))
      with (param_columns df).
    destruct (List.find _ best_params_columns) as [c|] eqn:Hfind; [|reflexivity].
    apply find_some in Hfind as [Hin Hnot]. apply list_elem_of_In in Hin.
    destruct (Hcols c Hin) as (r0 & Hr0 & Hsome).
    rewrite bool_decide_eq_true_2 in Hnot; [discriminate|].
    rewrite Hpc. apply (elem_of_union_list_dom params). eauto.
Qed.

(** A selection that returned found every parameter column. *)
Lemma returned_columns_logged `{Sorting} (w : World) (tr : list event)
    (best : option Q * ParamsFrame) :
  fst (fst (get_best_model w tr)) = Ok best ->
  forall c, c ∈ best_params_columns ->
            exists r, r ∈ eligible w /\ is_Some (params r !! c).
Proof.
  intros Hok c Hc.
  destruct (decide (eligible w = [])) as [Hnil|Hne].
  { apply (no_eligible_raises w tr) in Hnil. rewrite Hok in Hnil. discriminate. }
  destruct (best_row_found w tr Hne) as (df & row & m & _ & Hpc & _ & _ & _ & _ & Hres).
  rewrite Hok in Hres. unfold select_params in Hres.
  change (param_columns (loc_run_id df (row_run_id row))) with (param_columns df) in Hres.
  destruct (List.find _ best_params_columns) eqn:Hfind; [discriminate|].
  apply list_elem_of_In in Hc. apply (find_none _ _ Hfind) in Hc.
  apply negb_false_iff, bool_decide_eq_true in Hc. rewrite Hpc in Hc.
  by apply (elem_of_union_list_dom params) in Hc.
Qed.

Definition reversed_sorting : Sorting :=
  {| sort_desc := reversed_sort_desc;
     sort_desc_perm := fun key l =>
       transitivity (insertion_sort_desc_perm key (reverse l)) (reverse_Permutation l);
     sort_desc_sorted := fun key l => insertion_sort_desc_sorted key (reverse l) |}.

(** X9.  Whenever [get_best_model] returns, the metric it returns is
    the metric of a run of the server, is below one, and no run with
    a metric below one has a larger one; the frame returned has the
    eleven parameter columns.  Nothing is assumed of the server. *)
Theorem get_best_model_returns_max_below_one `{Sorting} (w : World) (tr : list event)
    (m : option Q) (pf : ParamsFrame) :
  fst (fst (get_best_model w tr)) = Ok (m, pf) ->
  exists r q,
    m = Some q /\ r ∈ runs (server w) /\
    metrics r !! valid_roc_auc = Some q /\ (q < 1)%Q /\
    (forall r' q', r' ∈ runs (server w) -> metrics r' !! valid_roc_auc = Some q' ->
                   (q' < 1)%Q -> (q' <= q)%Q) /\
    pf_columns pf = best_params_columns.
Proof.
  intros (r & q & -> & Hr & Hq & Hmax & Hcols)%best_metric_inv.
  apply elem_of_eligible in Hr as [Hr (q0 & Hq0 & Hlt)].
  exists r, q. split; [reflexivity|]. split; [exact Hr|]. split; [exact Hq|].
  split; [congruence|]. split; [|exact Hcols].
  intros r' q' Hr' Hq' Hlt'. apply (Hmax r' q'); [|exact Hq'].
  apply elem_of_eligible. eauto.
Qed.

Lemma get_best_model_returns_max_below_one_witness :
  exists r q,
    Some (95 # 100) = Some q /\ r ∈ runs (server ex_world) /\
    metrics r !! valid_roc_auc = Some q /\ (q < 1)%Q /\
    (forall r' q', r' ∈ runs (server ex_world) -> metrics r' !! valid_roc_auc = Some q' ->
                   (q' < 1)%Q -> (q' <= q)%Q) /\
    pf_columns (ex_best_params "False") = best_params_columns.
Proof.
  apply (get_best_model_returns_max_below_one ex_world []).
  vm_compute. reflexivity.
Defined.

(** X10.  The metric returned does not depend on the order in which
    the server lists the runs nor on how the sort orders equal
    metrics: two calls that return, on servers holding the same runs
    in any order and with any two sorts, return equal metrics.  (The
    parameters returned may differ when runs tie.) *)
Theorem best_metric_order_independent (S1 S2 : Sorting) (w1 w2 : World)
    (tr1 tr2 : list event) (m1 m2 : option Q) (pf1 pf2 : ParamsFrame) :
  runs (server w1) ≡ₚ runs (server w2) ->
  fst (fst (@get_best_model S1 w1 tr1)) = Ok (m1, pf1) ->
  fst (fst (@get_best_model S2 w2 tr2)) = Ok (m2, pf2) ->
  exists q1 q2, m1 = Some q1 /\ m2 = Some q2 /\ (q1 == q2)%Q.
Proof.
  intros Hperm (r1 & q1 & -> & Hr1 & Hq1 & Hmax1 & _)%best_metric_inv
               (r2 & q2 & -> & Hr2 & Hq2 & Hmax2 & _)%best_metric_inv.
  assert (forall r, r ∈ eligible w1 <-> r ∈ eligible w2) as Hsame.
  { intros r. rewrite !elem_of_eligible. by rewrite Hperm. }
  exists q1, q2. split; [reflexivity|]. split; [reflexivity|].
  apply Qle_antisym.
  - apply (Hmax2 r1 q1); [by apply Hsame|exact Hq1].
  - apply (Hmax1 r2 q2); [by apply Hsame|exact Hq2].
Qed.

Lemma best_metric_order_independent_witness :
  fst (fst (@get_best_model insertion_sorting ex_world_tie []))
    <> fst (fst (@get_best_model reversed_sorting ex_world_tie_reversed [])) /\
  exists q1 q2, Some (95 # 100) = Some q1 /\ Some (95 # 100) = Some q2 /\ (q1 == q2)%Q.
Proof.
  split; [vm_compute; discriminate|].
  eapply (best_metric_order_independent insertion_sorting reversed_sorting
            ex_world_tie ex_world_tie_reversed [] []).
  - simpl. symmetry. apply reverse_Permutation.
  - vm_compute. reflexivity.
  - vm_compute. reflexivity.
Defined.

(** X11.  When some run is below one but one of the eleven parameters
    was logged by none of the runs below one, the frame of runs has
    no column for it and [get_best_model] ends with the [KeyError]
    of the column selection, naming such a parameter. *)
Theorem get_best_model_missing_parameter `{Sorting} (w : World) (tr : list event)
    (c : string) :
  eligible w <> [] ->
  c ∈ best_params_columns ->
  (forall r, r ∈ eligible w -> params r !! c = None) ->
  exists c',
    c' ∈ best_params_columns /\
    (forall r, r ∈ eligible w -> params r !! c' = None) /\
    fst (fst (get_best_model w tr)) = Raise (Exn KeyError ("params." +:+ c')).
Proof.
  intros Hne Hc Hnone.
  destruct (best_row_found w tr Hne)
    as (df & row & q & _ & Hpcols & _ & _ & _ & _ & ->).
  assert (forall k, k ∈ param_columns df <-> exists r, r ∈ eligible w /\ is_Some (params r !! k))
    as Hdom.
  { intros k. rewrite Hpcols. apply (elem_of_union_list_dom params). }
  unfold select_params.
  change (param_columns (loc_run_id df (row_run_id row))) with (param_columns df).
  destruct (List.find _ best_params_columns) as [c'|] eqn:Hfind.
  - apply find_some in Hfind as [Hin Hnot]. exists c'.
    split; [by apply list_elem_of_In|]. split; [|reflexivity].
    intros r Hr. destruct (params r !! c') eqn:E; [|reflexivity].
    rewrite bool_decide_eq_true_2 in Hnot; [discriminate|].
    apply Hdom. exists r. split; [exact Hr|]. rewrite E. eauto.
  - exfalso. apply list_elem_of_In in Hc. apply (find_none _ _ Hfind) in Hc.
    apply negb_false_iff, bool_decide_eq_true in Hc.
    apply Hdom in Hc as (r & Hr & [v Hv]). rewrite (Hnone r Hr) in Hv. discriminate.
Qed.

Lemma get_best_model_missing_parameter_witness :
  fst (fst (get_best_model ex_world_bare [])) = Raise (Exn KeyError "params.class_weight") /\
  exists c',
    c' ∈ best_params_columns /\
    (forall r, r ∈ eligible ex_world_bare -> params r !! c' = None) /\
    fst (fst (get_best_model ex_world_bare [])) = Raise (Exn KeyError ("params." +:+ c')).
Proof.
  split; [vm_compute; reflexivity|].
  apply (get_best_model_missing_parameter ex_world_bare [] "tol").
  - vm_compute. discriminate.
  - apply list_elem_of_In. simpl. tauto.
  - intros r Hr. apply list_elem_of_In in Hr. vm_compute in Hr.
    destruct Hr as [<-|[]]. vm_compute. reflexivity.
Defined.

End BestModelMore.


(** ** Two calls of [get_best_model] on the same runs *)

Module BestModelRepeat.
Import Mlflow RunsTable Pandas Train TrainTerms ReferenceFacts RunsTableFacts.
Import BestModelSpec BestModelMore Examples MoreExamples.

(** The cells of the frame of best parameters, without the index
    label (the position of the run in the listing). *)
Definition cells (pf : ParamsFrame) : list (list (option string)) := snd <$> pf_rows pf.






End BestModelRepeat.


(** ** Facts about [run] *)

Module RunFacts.
Import Mlflow RunsTable Pandas Train TrainTerms ReferenceFacts RunsTableFacts BestModelSpec.

Lemma bind_ok_inv {Ev W A B} (m : Eff.M Ev W A) (k : A -> Eff.M Ev W B)
    (w : W) (tr : list Ev) (b : B) (w' : W) (tr' : list Ev) :
  Eff.bind m k w tr = (Ok b, w', tr') ->
  exists a w1 tr1, m w tr = (Ok a, w1, tr1) /\ k a w1 tr1 = (Ok b, w', tr').
Proof.
  unfold Eff.bind. destruct (m w tr) as [[[a|e] w1] tr1]; [eauto|discriminate].
Qed.


Ltac unfold_eff :=
  unfold Eff.bind, Eff.try_except, Eff.emit, Eff.get, Eff.put, Eff.lift,
    Eff.ret, Eff.raise in *.

#[local] Arguments update_run : simpl never.
#[local] Arguments add_run : simpl never.
#[local] Arguments add_version : simpl never.
#[local] Arguments set_alias : simpl never.
#[local] Arguments new_run : simpl never.
#[local] Arguments new_version : simpl never.
#[local] Arguments with_status : simpl never.
#[local] Arguments with_tag : simpl never.
#[local] Arguments with_metric : simpl never.
#[local] Arguments versions_of : simpl never.
#[local] Arguments next_version : simpl never.
#[local] Arguments values0 : simpl never.
#[local] Arguments column1 : simpl never.
#[local] Arguments iloc0 : simpl never.
#[local] Arguments last_version : simpl never.

Lemma lift_ok {Ev W A} (r : result A) (w : W) (tr : list Ev) (a : A) (w' : W) (tr' : list Ev) :
  Eff.lift r w tr = (Ok a, w', tr') -> r = Ok a /\ w' = w /\ tr' = tr.
Proof. unfold Eff.lift. intros [= -> -> ->]. done. Qed.

Lemma emit_ok {Ev W} (ev : Ev) (w : W) (tr : list Ev) (u : unit) (w' : W) (tr' : list Ev) :
  Eff.emit ev w tr = (Ok u, w', tr') -> w' = w /\ tr' = tr ++ [ev].
Proof. unfold Eff.emit. intros [= _ -> ->]. done. Qed.

Lemma param_ok {A} (df : ParamsFrame) (col : string) (f : option string -> M A)
    (w : World) (tr : list event) (a : A) (w' : World) (tr' : list event) :
  param df col f w tr = (Ok a, w', tr') ->
  exists c, values0 df col = Ok c /\ f c w tr = (Ok a, w', tr').
Proof.
  unfold param. intros (c & w1 & tr1 & Hc & Hf)%bind_ok_inv.
  apply lift_ok in Hc as (Hc & -> & ->). eauto.
Qed.

Lemma param_ret_ok (df : ParamsFrame) (col : string)
    (w : World) (tr : list event) (a : option string) (w' : World) (tr' : list event) :
  param df col Eff.ret w tr = (Ok a, w', tr') ->
  values0 df col = Ok a /\ w' = w /\ tr' = tr.
Proof.
  intros (c & Hc & Hf)%param_ok. unfold Eff.ret in Hf. by simplify_eq.
Qed.

Lemma param_call_ok {A} (df : ParamsFrame) (col what : string) (f : string -> result A)
    (w : World) (tr : list event) (a : A) (w' : World) (tr' : list event) :
  param df col (call_on_cell f what) w tr = (Ok a, w', tr') ->
  (exists s, values0 df col = Ok (Some s) /\ f s = Ok a) /\ w' = w /\ tr' = tr.
Proof.
  intros (c & Hc & Hf)%param_ok. unfold call_on_cell in Hf.
  destruct c as [s|]; [|discriminate].
  apply lift_ok in Hf as (Hf & -> & ->). eauto.
Qed.

Section Calls.
Context `{Backend}.

Lemma start_run_eq (name : option string) (w : World) (tr : list event) :
  active_runs w = [] ->
  let rid := new_run_id (runs (server w)) in
  start_run name w tr =
    (Ok rid,
     {| server := add_run (new_run rid (stored_name name (runs (server w)))) (server w);
        active_runs := [rid] |},
     tr ++ [StartRun rid name]).
Proof.
  intros Hact. unfold start_run, modify_server, set_active. unfold_eff.
  simpl. rewrite Hact. reflexivity.
Qed.

Lemma start_run_active (name : option string) (w : World) (tr : list event)
    (rid : string) (stack : list string) :
  active_runs w = rid :: stack -> is_ok (fst (fst (start_run name w tr))) = false.
Proof.
  intros Hact. unfold start_run. unfold_eff. simpl. rewrite Hact. reflexivity.
Qed.

Lemma end_run_eq (st : run_status) (w : World) (tr : list event)
    (rid : string) (stack : list string) :
  active_runs w = rid :: stack ->
  end_run st w tr =
    (Ok tt,
     {| server := update_run rid (with_status st) (server w); active_runs := stack |},
     tr ++ [EndRun rid st]).
Proof.
  intros Hact. unfold end_run, modify_server, set_active. unfold_eff.
  simpl. rewrite Hact. reflexivity.
Qed.

Lemma set_tag_eq (key value : string) (w : World) (tr : list event)
    (rid : string) (stack : list string) :
  active_runs w = rid :: stack ->
  set_tag key value w tr =
    (Ok tt,
     {| server := update_run rid (with_tag key value) (server w);
        active_runs := rid :: stack |},
     tr ++ [SetTag rid key value]).
Proof.
  intros Hact. unfold set_tag, get_or_start_run, modify_server. unfold_eff.
  simpl. rewrite Hact. simpl. rewrite Hact. reflexivity.
Qed.

(** With no active run, [log_metric] opens a run of its own. *)
Lemma log_metric_eq (key : string) (value : Q) (w : World) (tr : list event) :
  active_runs w = [] ->
  let rid := new_run_id (runs (server w)) in
  log_metric key value w tr =
    (Ok tt,
     {| server := update_run rid (with_metric key value)
                    (add_run (new_run rid (Some (new_run_name (runs (server w)))))
                             (server w));
        active_runs := [rid] |},
     tr ++ [StartRun rid None; LogMetric rid key value]).
Proof.
  intros Hact. unfold log_metric, get_or_start_run. unfold_eff.
  simpl. rewrite Hact. rewrite (start_run_eq None w tr Hact). simpl.
  unfold modify_server. unfold_eff. simpl.
  by rewrite <- app_assoc.
Qed.

Lemma log_model_eq (artifact_path predict_fn : string) (ex : DataFrame)
    (name : string) (w : World) (tr : list event) (rid : string) (stack : list string) :
  active_runs w = rid :: stack ->
  let v := next_version (versions_of name (server w)) in
  log_model artifact_path predict_fn ex name w tr =
    (Ok v,
     {| server := add_version (new_version name v rid) (server w);
        active_runs := rid :: stack |},
     tr ++ [LogModel rid artifact_path predict_fn ex name;
            CreateModelVersion name v rid]).
Proof.
  intros Hact. unfold log_model, get_or_start_run, modify_server. unfold_eff.
  simpl. rewrite Hact. simpl. rewrite Hact. by rewrite <- app_assoc.
Qed.

Lemma get_registered_model_eq (name : string) (w : World) (tr : list event) :
  name ∈ registered_models (server w) ->
  get_registered_model name w tr =
    (Ok (latest_versions (versions_of name (server w))), w,
     tr ++ [GetRegisteredModel name]).
Proof.
  intros Hin. unfold get_registered_model. unfold_eff. simpl.
  by rewrite bool_decide_eq_true_2.
Qed.
End Calls.

(** What a computation adds to the trace, event by event. *)
Section Events.
Variable P : event -> Prop.

Lemma emits_only_ret {A} (a : A) : emits_only P (Eff.ret a : M A).
Proof. intros w tr. exists []. split; [symmetry; apply app_nil_r|constructor]. Qed.

Lemma emits_only_raise {A} (e : exn) : emits_only P (Eff.raise e : M A).
Proof. intros w tr. exists []. split; [symmetry; apply app_nil_r|constructor]. Qed.

Lemma emits_only_lift {A} (r : result A) : emits_only P (Eff.lift r : M A).
Proof. intros w tr. exists []. split; [symmetry; apply app_nil_r|constructor]. Qed.

Lemma emits_only_get : emits_only P (Eff.get : M World).
Proof. intros w tr. exists []. split; [symmetry; apply app_nil_r|constructor]. Qed.

Lemma emits_only_put (w' : World) : emits_only P (Eff.put w' : M unit).
Proof. intros w tr. exists []. split; [symmetry; apply app_nil_r|constructor]. Qed.

Lemma emits_only_emit (ev : event) : P ev -> emits_only P (Eff.emit ev : M unit).
Proof. intros Hev w tr. exists [ev]. split; [reflexivity|]. by repeat constructor. Qed.

(** The continuation may rely on what is known of a value that the
    first computation returned. *)
Lemma emits_only_bind_post {A B} (Q : A -> Prop) (m : M A) (k : A -> M B) :
  emits_only P m ->
  (forall w tr a w' tr', m w tr = (Ok a, w', tr') -> Q a) ->
  (forall a, Q a -> emits_only P (k a)) ->
  emits_only P (Eff.bind m k).
Proof.
  intros Hm HQ Hk w tr. unfold Eff.bind.
  destruct (Hm w tr) as (evs1 & E1 & F1).
  destruct (m w tr) as [[[a|e] w1] tr1] eqn:Em; simpl in E1; subst tr1.
  - destruct (Hk a (HQ _ _ _ _ _ Em) w1 (tr ++ evs1)) as (evs2 & E2 & F2).
    exists (evs1 ++ evs2). rewrite E2, app_assoc. split; [done|]. by apply Forall_app.
  - by exists evs1.
Qed.

Lemma emits_only_bind {A B} (m : M A) (k : A -> M B) :
  emits_only P m -> (forall a, emits_only P (k a)) -> emits_only P (Eff.bind m k).
Proof.
  intros Hm Hk. apply (emits_only_bind_post (fun _ => True)); [exact Hm|done|].
  intros a _. apply Hk.
Qed.

Lemma emits_only_bind_lift {A B} (r : result A) (k : A -> M B) :
  (forall a, r = Ok a -> emits_only P (k a)) -> emits_only P (Eff.bind (Eff.lift r) k).
Proof.
  intros Hk. apply (emits_only_bind_post (fun a => r = Ok a)).
  - apply emits_only_lift.
  - intros w tr a w' tr' Hl. by apply lift_ok in Hl as (-> & _).
  - exact Hk.
Qed.

Lemma emits_only_try_except {A} (m : M A) (h : exn -> M A) :
  emits_only P m -> (forall e, emits_only P (h e)) -> emits_only P (Eff.try_except m h).
Proof.
  intros Hm Hh w tr. unfold Eff.try_except.
  destruct (Hm w tr) as (evs1 & E1 & F1).
  destruct (m w tr) as [[[a|e] w1] tr1] eqn:Em; simpl in E1; subst tr1.
  - by exists evs1.
  - destruct (Hh e w1 (tr ++ evs1)) as (evs2 & E2 & F2).
    exists (evs1 ++ evs2). rewrite E2, app_assoc. split; [done|]. by apply Forall_app.
Qed.
End Events.

(** [column1] gives column 1, entry by entry. *)
Lemma column1_spec (a : list (list Q)) (ys : list Q) :
  column1 a = Ok ys -> is_column 1 a ys.
Proof.
  revert ys. induction a as [|row a IH]; intros ys Hc.
  - injection Hc as <-. split; [reflexivity|]. intros i r Hi. by destruct i.
  - unfold column1 in Hc; fold column1 in Hc.
    destruct (row !! 1) as [x|] eqn:Hx; [|discriminate].
    destruct (column1 a) as [xs|e]; [|discriminate]. injection Hc as <-.
    destruct (IH xs eq_refl) as [Hlen Hrows]. split; [simpl; by rewrite Hlen|].
    intros [|i] r Hi; simpl in Hi.
    + injection Hi as <-. by exists x.
    + apply Hrows, Hi.
Qed.

(** A parameter passed through a built-in leaves no event. *)
Lemma emits_only_param_call (P : event -> Prop) {A B} (df : ParamsFrame)
    (col what : string) (f : string -> result A) (k : A -> M B) :
  (forall a, (exists s, values0 df col = Ok (Some s) /\ f s = Ok a) -> emits_only P (k a)) ->
  emits_only P (Eff.bind (param df col (call_on_cell f what)) k).
Proof.
  intros Hk.
  apply (emits_only_bind_post P
           (fun a => exists s, values0 df col = Ok (Some s) /\ f s = Ok a)).
  - unfold param. apply emits_only_bind; [apply emits_only_lift|].
    intros [s|]; [apply emits_only_lift|apply emits_only_raise].
  - intros w tr a w' tr' Hp. by apply param_call_ok in Hp as (Hs & _).
  - exact Hk.
Qed.

Ltac inv_bind H Hstep :=
  let a := fresh "a" in
  let w := fresh "w" in
  let tr := fresh "tr" in
  apply bind_ok_inv in H as (a & w & tr & Hstep & H).

Section Run.
Context `{Sorting} `{Backend} `{Builtins} `{!Sklearn}.
Variable self : TrainModels.

(** The body of the [with] block on an active run [rid]: one tag
    and no other effect; the classifier is the one the frame
    describes. *)
Lemma run_with_body_ok (m : option Q) (df : ParamsFrame) (w : World) (tr : list event)
    (rid : string) (stack : list string)
    (model : LogisticRegression) (w' : World) (tr' : list event) :
  active_runs w = rid :: stack ->
  run_with_body self m df w tr = (Ok model, w', tr') ->
  w' = {| server := update_run rid (with_tag "model_name" (model_name self)) (server w);
          active_runs := rid :: stack |} /\
  tr' = tr ++ [SetTag rid "model_name" (model_name self)] /\
  classifier_of self m df model.
Proof.
  intros Hact Hrun. unfold run_with_body in Hrun. cbv zeta in Hrun.
  inv_bind Hrun Htag. rewrite (set_tag_eq _ _ _ _ _ _ Hact) in Htag. simplify_eq.
  inv_bind Hrun Hp1. apply param_call_ok in Hp1 as (Hws & -> & ->).
  inv_bind Hrun Hp2. apply param_ret_ok in Hp2 as (Hmc & -> & ->).
  inv_bind Hrun Hp3. apply param_ret_ok in Hp3 as (Hcw & -> & ->).
  inv_bind Hrun Hp4. apply param_call_ok in Hp4 as (Hmi & -> & ->).
  inv_bind Hrun Hp5. apply param_call_ok in Hp5 as (HC & -> & ->).
  inv_bind Hrun Hp6. apply param_ret_ok in Hp6 as (Hso & -> & ->).
  inv_bind Hrun Hp7. apply param_call_ok in Hp7 as (Htol & -> & ->).
  unfold Eff.ret in Hrun. simplify_eq.
  split; [reflexivity|]. split; [reflexivity|].
  unfold classifier_of, scope_of. simpl. by repeat split.
Qed.

Lemma with_block_ok (m : option Q) (df : ParamsFrame) (w : World) (tr : list event)
    (model : LogisticRegression) (w' : World) (tr' : list event) :
  with_start_run (Some "final_model") (run_with_body self m df) w tr = (Ok model, w', tr') ->
  let r1 := new_run_id (runs (server w)) in
  active_runs w = [] /\
  w' = {| server := after_with_block self (server w); active_runs := [] |} /\
  tr' = tr ++ [ StartRun r1 (Some "final_model");
                SetTag r1 "model_name" (model_name self);
                EndRun r1 FINISHED ] /\
  classifier_of self m df model.
Proof.
  intros Hrun r1. unfold with_start_run in Hrun.
  inv_bind Hrun Hstart.
  destruct (active_runs w) as [|rid stack] eqn:Hact.
  2:{ pose proof (start_run_active (Some "final_model") w tr rid stack Hact) as Hno.
      rewrite Hstart in Hno. discriminate. }
  rewrite (start_run_eq _ w tr Hact) in Hstart. simplify_eq.
  inv_bind Hrun Hbody. unfold Eff.try_except in Hbody.
  destruct (run_with_body self m df _ _) as [[[clf|e] w2] tr2] eqn:Hb.
  2:{ apply bind_ok_inv in Hbody as (? & ? & ? & _ & Hraise). discriminate. }
  simplify_eq.
  apply (run_with_body_ok m df _ _ r1 []) in Hb as (-> & -> & Hclf); [|reflexivity].
  inv_bind Hrun Hend.
  rewrite (end_run_eq FINISHED _ _ r1 []) in Hend by reflexivity.
  unfold Eff.ret in Hrun. simplify_eq.
  split; [reflexivity|]. split; [reflexivity|]. split; [|exact Hclf].
  by repeat rewrite <- app_assoc.
Qed.

Lemma after_with_ok (m : option Q) (df : ParamsFrame) (clf : LogisticRegression)
    (w : World) (tr : list event) (w' : World) (tr' : list event) :
  active_runs w = [] ->
  classifier_of self m df clf ->
  run_after_with self m df clf w tr = (Ok tt, w', tr') ->
  exists pipe fp scores preds val ex v',
    model pipe = clf /\
    pipeline_of self m df pipe /\
    fit pipe (dados_X self) (dados_y self) = Ok fp /\
    predict_log_proba fp (dados_X self) = Ok scores /\
    column1 scores = Ok preds /\
    evaluate_predictions clf (dados_X self) (dados_y self) (dados_y self) preds = Ok val /\
    iloc0 (dados_X self) = Ok ex /\
    let r2 := new_run_id (runs (server w)) in
    let v := next_version (versions_of (model_name self) (server w)) in
    let s1 := after_registration self (server w) val in
    last_version (latest_versions (versions_of (model_name self) s1)) = Ok v' /\
    w' = {| server := set_alias (model_name self) alias_name v' s1;
            active_runs := [r2] |} /\
    tr' = tr ++ [ Fit; PredictLogProba; Evaluate (dados_y self) preds;
                  StartRun r2 None; LogMetric r2 valid_roc_auc val;
                  LogModel r2 (model_name self) "predict_proba" ex (model_name self);
                  CreateModelVersion (model_name self) v r2;
                  GetRegisteredModel (model_name self);
                  SetAlias (model_name self) alias_name v' ].
Proof.
  intros Hact Hclf Hrun. unfold run_after_with in Hrun. cbv zeta in Hrun.
  inv_bind Hrun Hp1. apply param_call_ok in Hp1 as (Him & -> & ->).
  inv_bind Hrun Hp2. apply param_call_ok in Hp2 as (Hdi & -> & ->).
  inv_bind Hrun Hp3. apply param_call_ok in Hp3 as (Hsc & -> & ->).
  inv_bind Hrun Hev. apply emit_ok in Hev as (-> & ->).
  inv_bind Hrun Hfit. apply lift_ok in Hfit as (Hfit & -> & ->).
  inv_bind Hrun Hev. apply emit_ok in Hev as (-> & ->).
  inv_bind Hrun Hscores. apply lift_ok in Hscores as (Hscores & -> & ->).
  inv_bind Hrun Hpreds. apply lift_ok in Hpreds as (Hpreds & -> & ->).
  inv_bind Hrun Hev. apply emit_ok in Hev as (-> & ->).
  inv_bind Hrun Hval. apply lift_ok in Hval as (Hval & -> & ->).
  inv_bind Hrun Hlog. rewrite (log_metric_eq _ _ _ _ Hact) in Hlog. simplify_eq.
  inv_bind Hrun Hex. apply lift_ok in Hex as (Hex & -> & ->).
  inv_bind Hrun Hmodel.
  rewrite (log_model_eq _ _ _ _ _ _ (new_run_id (runs (server w))) []) in Hmodel
    by reflexivity.
  simplify_eq.
  inv_bind Hrun Hget. rewrite get_registered_model_eq in Hget.
  2:{ simpl. unfold add_version. simpl. apply elem_of_union. left.
      by apply elem_of_singleton. }
  simplify_eq.
  inv_bind Hrun Hlast. apply lift_ok in Hlast as (Hlast & -> & ->).
  unfold set_registered_model_alias, modify_server in Hrun. unfold_eff.
  simpl in Hrun. simplify_eq.
  eexists _, _, _, _, _, _, _.
  split; [|split; [|split; [exact Hfit|split; [exact Hscores|split; [exact Hpreds|
    split; [exact Hval|split; [exact Hex|split; [exact Hlast|split]]]]]]]].
  - reflexivity.
  - unfold pipeline_of, scope_of. cbn [model imputer discretizer scaler].
    split; [exact Him|]. split; [exact Hdi|]. split; [exact Hsc|]. exact Hclf.
  - reflexivity.
  - repeat rewrite <- app_assoc. reflexivity.
Qed.

Lemma run_ids_update_run (rid : string) (f : Run -> Run) (s : Server) :
  (forall r, run_id (f r) = run_id r) ->
  run_id <$> runs (update_run rid f s) = run_id <$> runs s.
Proof.
  intros Hf. unfold update_run. simpl. rewrite <- list_fmap_compose.
  apply list_fmap_ext. intros i r _. simpl.
  destruct (String.eqb (run_id r) rid); [apply Hf|reflexivity].
Qed.

Lemma run_ids_after_with_block (s : Server) :
  run_id <$> runs (after_with_block self s) = new_run_id (runs s) :: (run_id <$> runs s).
Proof.
  unfold after_with_block. by do 2 (rewrite run_ids_update_run by done).
Qed.

(** The implicit run of [log_metric] is not the run of the [with]
    block. *)
Lemma second_run_differs (s : Server) :
  new_run_id (runs s) <> new_run_id (runs (after_with_block self s)).
Proof.
  intros Heq. apply (new_run_id_fresh (runs (after_with_block self s))).
  rewrite run_ids_after_with_block, <- Heq. left.
Qed.

Lemma versions_after_with_block (name : string) (s : Server) :
  versions_of name (after_with_block self s) = versions_of name s.
Proof. reflexivity. Qed.

Lemma versions_after_registration (s : Server) (val : Q) :
  versions_of (model_name self) (after_registration self s val) =
    versions_of (model_name self) s ++
      [new_version (model_name self) (next_version (versions_of (model_name self) s))
                   (new_run_id (runs s))].
Proof.
  unfold versions_of, after_registration, add_version. simpl.
  rewrite List.filter_app. simpl. unfold new_version at 1. simpl.
  by rewrite String.eqb_refl.
Qed.

Lemma run_ok (w : World) (tr : list event) (w' : World) (tr' : list event) :
  run self w tr = (Ok tt, w', tr') ->
  exists m df pipe fp scores preds val ex v',
    fst (fst (get_best_model w [])) = Ok (m, df) /\
    active_runs w = [] /\
    pipeline_of self m df pipe /\
    fit pipe (dados_X self) (dados_y self) = Ok fp /\
    predict_log_proba fp (dados_X self) = Ok scores /\
    column1 scores = Ok preds /\
    evaluate_predictions (model pipe) (dados_X self) (dados_y self) (dados_y self) preds
      = Ok val /\
    iloc0 (dados_X self) = Ok ex /\
    let r1 := new_run_id (runs (server w)) in
    let s0 := after_with_block self (server w) in
    let r2 := new_run_id (runs s0) in
    let v := next_version (versions_of (model_name self) (server w)) in
    let s1 := after_registration self s0 val in
    last_version (latest_versions (versions_of (model_name self) s1)) = Ok v' /\
    w' = {| server := set_alias (model_name self) alias_name v' s1;
            active_runs := [r2] |} /\
    tr' = tr ++ [ info_best; search_best;
                  LogInfo ("Iniciando o treinamento do modelo: " +:+ model_name self);
                  StartRun r1 (Some "final_model");
                  SetTag r1 "model_name" (model_name self);
                  EndRun r1 FINISHED;
                  Fit; PredictLogProba; Evaluate (dados_y self) preds;
                  StartRun r2 None; LogMetric r2 valid_roc_auc val;
                  LogModel r2 (model_name self) "predict_proba" ex (model_name self);
                  CreateModelVersion (model_name self) v r2;
                  GetRegisteredModel (model_name self);
                  SetAlias (model_name self) alias_name v' ].
Proof.
  intros Hrun. unfold run in Hrun.
  inv_bind Hrun Hbest. rewrite get_best_model_reads in Hbest. simplify_eq.
  destruct a as [m df]. cbv zeta in Hrun. cbn [fst snd] in Hrun.
  inv_bind Hrun Hev. apply emit_ok in Hev as (-> & ->).
  apply bind_ok_inv in Hrun as (clf & w1 & tr1 & Hwith & Hrun).
  apply with_block_ok in Hwith as (Hact & -> & -> & Hclf).
  apply (after_with_ok m df) in Hrun; [|reflexivity|exact Hclf].
  destruct Hrun as (pipe & fp & scores & preds & val & ex & v' &
    Hm & Hpipe & Hfit & Hsc & Hpr & Hval & Hex & Hlast & -> & ->).
  simpl in *. subst clf.
  exists m, df, pipe, fp, scores, preds, val, ex, v'.
  split; [congruence|]. split; [exact Hact|]. split; [exact Hpipe|].
  split; [exact Hfit|]. split; [exact Hsc|]. split; [exact Hpr|].
  split; [exact Hval|]. split; [exact Hex|]. cbv zeta.
  split; [exact Hlast|]. split; [reflexivity|].
  repeat rewrite <- app_assoc. reflexivity.
Qed.
End Run.

Section Registry.
Context `{Backend}.


End Registry.

End RunFacts.


(** ** Properties of [run] *)

Module RunSpec.
Import Mlflow RunsTable Pandas Train TrainTerms Reference ReferenceFacts RunsTableFacts.
Import BestModelSpec RunFacts Examples MoreExamples.

(** [run] with the classifier whose two columns differ, and the
    [with] block of [run] with the [eval] that reads its scope. *)
Definition run_skewed : TrainModels -> M unit :=
  @run insertion_sorting reference_backend pyobjects builtins sklearn_skewed.

Definition with_block_in_scope (self : TrainModels) (m : option Q) (df : ParamsFrame)
  : M LogisticRegression :=
  @with_start_run reference_backend _ (Some "final_model")
    (@run_with_body reference_backend pyobjects builtins_in_scope self m df).




(** The assumption on stages is kept by [run] itself: the version it
    registers has no stage. *)
Lemma run_keeps_versions_unstaged
    `{Sorting} `{Backend} `{Builtins} `{!Sklearn}
    (self : TrainModels) (w : World) (tr : list event) (w' : World) (tr' : list event) :
  run self w tr = (Ok tt, w', tr') ->
  (forall mv, mv ∈ versions_of (model_name self) (server w) ->
              current_stage mv = StageNone) ->
  forall mv, mv ∈ versions_of (model_name self) (server w') ->
             current_stage mv = StageNone.
Proof.
  intros Hrun Hstage mv.
  apply run_ok in Hrun as (m & df & pipe & fp & scores & preds & val & ex & v' &
    _ & _ & _ & _ & _ & _ & _ & _ & _ & -> & _).
  change (versions_of (model_name self)
            (server {| server := set_alias (model_name self) alias_name v'
                                   (after_registration self (after_with_block self (server w)) val);
                       active_runs := [new_run_id (runs (after_with_block self (server w)))] |}))
    with (versions_of (model_name self)
            (after_registration self (after_with_block self (server w)) val)).
  rewrite versions_after_registration, versions_after_with_block.
  intros [Hmv|Hmv]%elem_of_app; [by apply Hstage|].
  by apply list_elem_of_singleton in Hmv as ->.
Qed.

(** C8.  The trace of every successful [run].  The [with] block
    holds the tag and nothing else: its run [r1] is ended before the
    pipeline is fitted.  The metric is logged later, when no run is
    active, so MLflow starts another run [r2] for it; the model is
    logged to [r2] after the metric, and [r2] is still active when
    [run] returns. *)
Theorem run_logs_metric_outside_with_block
    `{Sorting} `{Backend} `{Builtins} `{!Sklearn}
    (self : TrainModels) (w : World) (tr : list event) (w' : World) (tr' : list event) :
  run self w tr = (Ok tt, w', tr') ->
  exists r1 r2 preds val ex v v',
    r1 <> r2 /\
    active_runs w' = [r2] /\
    tr' = tr ++ [ info_best; search_best;
                  LogInfo ("Iniciando o treinamento do modelo: " +:+ model_name self);
                  StartRun r1 (Some "final_model");
                  SetTag r1 "model_name" (model_name self);
                  EndRun r1 FINISHED;
                  Fit; PredictLogProba; Evaluate (dados_y self) preds;
                  StartRun r2 None; LogMetric r2 valid_roc_auc val;
                  LogModel r2 (model_name self) "predict_proba" ex (model_name self);
                  CreateModelVersion (model_name self) v r2;
                  GetRegisteredModel (model_name self);
                  SetAlias (model_name self) alias_name v' ].
Proof.
  intros Hrun.
  apply run_ok in Hrun as (m & df & pipe & fp & scores & preds & val & ex & v' &
    _ & _ & _ & _ & _ & _ & _ & _ & _ & -> & ->).
  eexists _, _, preds, val, ex, _, v'.
  split; [apply (second_run_differs self (server w))|].
  split; reflexivity.
Qed.

Lemma run_logs_metric_outside_with_block_witness :
  exists w' tr',
    run ex_self ex_world [] = (Ok tt, w', tr') /\
    tr' = [ info_best; search_best;
            LogInfo "Iniciando o treinamento do modelo: prob_loan";
            StartRun "a1b2c3d40" (Some "final_model");
            SetTag "a1b2c3d40" "model_name" "prob_loan";
            EndRun "a1b2c3d40" FINISHED;
            Fit; PredictLogProba;
            Evaluate ex_y [ln_half; ln_half; ln_half];
            StartRun "a1b2c3d40a1b2c3d40" None;
            LogMetric "a1b2c3d40a1b2c3d40" valid_roc_auc (1 # 2);
            LogModel "a1b2c3d40a1b2c3d40" "prob_loan" "predict_proba"
              {| df_columns := ["age"]; df_rows := [[Some "34"]] |} "prob_loan";
            CreateModelVersion "prob_loan" 1 "a1b2c3d40a1b2c3d40";
            GetRegisteredModel "prob_loan";
            SetAlias "prob_loan" alias_name 1 ] /\
    exists r1 r2 preds val ex v v',
      r1 <> r2 /\
      active_runs w' = [r2] /\
      tr' = [] ++ [ info_best; search_best;
                    LogInfo ("Iniciando o treinamento do modelo: " +:+ model_name ex_self);
                    StartRun r1 (Some "final_model");
                    SetTag r1 "model_name" (model_name ex_self);
                    EndRun r1 FINISHED;
                    Fit; PredictLogProba; Evaluate (dados_y ex_self) preds;
                    StartRun r2 None; LogMetric r2 valid_roc_auc val;
                    LogModel r2 (model_name ex_self) "predict_proba" ex (model_name ex_self);
                    CreateModelVersion (model_name ex_self) v r2;
                    GetRegisteredModel (model_name ex_self);
                    SetAlias (model_name ex_self) alias_name v' ].
Proof.
  set (out := run ex_self ex_world []).
  assert (out = (Ok tt, snd (fst out), snd out)) as Hrun by (vm_compute; reflexivity).
  exists (snd (fst out)), (snd out). split; [exact Hrun|].
  split; [vm_compute; reflexivity|].
  exact (run_logs_metric_outside_with_block ex_self ex_world [] _ _ Hrun).
Defined.

(** C5, the claim as stated fails.  The classifier gives a row with
    a known age the probabilities 0.25 and 0.75: the helper receives,
    for the three rows of the data, the logarithms -0.2877, -0.6931
    and -0.2877 of the class 1 probabilities, not the probabilities
    0.75, 0.5 and 0.75. *)
Lemma run_does_not_evaluate_probabilities :
  let out := run_skewed ex_self ex_world [] in
  (forall pipe, predict_proba (Sklearn := sklearn_skewed) pipe ex_X =
                  Ok [ [1 # 4; 3 # 4]; [1 # 2; 1 # 2]; [1 # 4; 3 # 4] ]) /\
  fst (fst out) = Ok tt /\
  Evaluate ex_y [- (2877 # 10000); - (6931 # 10000); - (2877 # 10000)] ∈ snd out /\
  (Evaluate ex_y [3 # 4; 1 # 2; 3 # 4] ∉ snd out) /\
  ~ @evaluates_probabilities pyobjects sklearn_skewed ex_self (snd out).
Proof.
  assert (Evaluate ex_y [- (2877 # 10000); - (6931 # 10000); - (2877 # 10000)]
            ∈ snd (run_skewed ex_self ex_world [])) as Hin
    by (vm_compute; do 8 right; left).
  split; [reflexivity|]. split; [vm_compute; reflexivity|]. split; [exact Hin|].
  split.
  - intros Hno. apply list_elem_of_In in Hno. vm_compute in Hno.
    repeat (destruct Hno as [Heq|Hno]; [discriminate Heq|]). destruct Hno.
  - intros Hclaim. destruct (Hclaim _ _ Hin) as (pipe & fp & probs & _ & Hprobs & Hcol).
    simpl in Hprobs. injection Hprobs as <-.
    destruct Hcol as [_ Hrows].
    destruct (Hrows 0 [1 # 4; 3 # 4] eq_refl) as (x & Hx & Hy).
    vm_compute in Hx, Hy. congruence.
Qed.

Section Scores.
Context `{Sorting} `{Backend} `{Builtins} `{!Sklearn}.
Variable self : TrainModels.

Ltac events_step :=
  first
    [ apply emits_only_ret
    | apply emits_only_raise
    | apply emits_only_lift
    | apply emits_only_get
    | apply emits_only_put
    | apply emits_only_emit; exact I
    | apply emits_only_try_except
    | apply emits_only_bind
    | match goal with
      | |- forall _, _ => intro
      | |- emits_only _ (match ?x with _ => _ end) => destruct x
      end
    | progress unfold with_start_run, start_run, end_run, get_or_start_run, set_tag,
        log_metric, log_model, get_registered_model, set_registered_model_alias,
        modify_server, set_active, param, call_on_cell, run_with_body ].

(** Once the best parameters are known, whatever happens, the events
    of [run] are events of that training. *)
Lemma training_events (m : option Q) (df : ParamsFrame) :
  emits_only (training_event self m df)
    (Eff.bind (Eff.emit (LogInfo ("Iniciando o treinamento do modelo: " +:+ model_name self)))
       (fun _ => Eff.bind (with_start_run (Some "final_model") (run_with_body self m df))
                   (fun model => run_after_with self m df model))).
Proof.
  apply emits_only_bind; [apply emits_only_emit; exact I|]. intros _.
  apply (emits_only_bind_post _ (classifier_of self m df)).
  { repeat events_step. }
  { intros w tr clf w' tr' Hw. by apply with_block_ok in Hw as (_ & _ & _ & Hclf). }
  intros clf Hclf. unfold run_after_with. cbv zeta.
  apply emits_only_param_call. intros imp Himp.
  apply emits_only_param_call. intros dis Hdis.
  apply emits_only_param_call. intros sca Hsca.
  set (pipe := {| imputer := imp; discretizer := dis; scaler := sca; model := clf |}).
  assert (pipeline_of self m df pipe) as Hpipe.
  { unfold pipeline_of, scope_of, pipe. cbn [model imputer discretizer scaler].
    split; [exact Himp|]. split; [exact Hdis|]. split; [exact Hsca|]. exact Hclf. }
  apply emits_only_bind; [apply emits_only_emit; exact I|]. intros _.
  apply emits_only_bind_lift. intros fp Hfit.
  apply emits_only_bind; [apply emits_only_emit; exact I|]. intros _.
  apply emits_only_bind_lift. intros scores Hscores.
  apply emits_only_bind_lift. intros preds Hpreds.
  assert (log_scores_of self m df pipe preds) as Hlog.
  { split; [exact Hpipe|]. exists fp, scores. by auto using column1_spec. }
  apply emits_only_bind.
  { apply emits_only_emit. split; [reflexivity|]. by exists pipe. }
  intros _.
  apply emits_only_bind_lift. intros val Hval.
  apply emits_only_bind.
  { unfold log_metric. apply emits_only_bind; [repeat events_step|]. intros rid.
    apply emits_only_bind; [repeat events_step|]. intros _.
    apply emits_only_emit. split; [reflexivity|]. by exists pipe, preds. }
  intros _. repeat events_step.
Qed.

(** The trace of [run], whatever its outcome: what was there, the two
    events of [get_best_model], and then events of the training on
    the parameters returned. *)
Lemma run_events (w : World) (tr : list event) :
  exists evs,
    snd (run self w tr) = tr ++ [info_best; search_best] ++ evs /\
    (evs = [] \/
     exists m df, fst (fst (get_best_model w [])) = Ok (m, df) /\
                  Forall (training_event self m df) evs).
Proof.
  unfold run, Eff.bind at 1. rewrite get_best_model_reads.
  destruct (fst (fst (get_best_model w []))) as [[m df]|e].
  - cbv zeta. cbn [fst snd].
    destruct (training_events m df w (tr ++ [info_best; search_best])) as (evs & E & F).
    exists evs. rewrite E, <- app_assoc. split; [reflexivity|]. right. by exists m, df.
  - exists []. split; [reflexivity|by left].
Qed.

(** C5, amended.  In every call of [run], whatever its outcome:
    whenever the evaluation helper is called, it is called with the
    labels [dados_y] and with one score for every row of [dados_X],
    the entry at position 1 (the column of class 1) of that row of
    the matrix that [predict_log_proba] returns, on [dados_X], for the
    pipeline of the best parameters fitted on [dados_X] and
    [dados_y]: logarithms of probabilities, not probabilities.
    Whenever a metric is logged, it is [valid_roc_auc] with the value
    that the helper returns on such scores.  A call of [run] that
    succeeds has called the helper and logged the value it
    returned. *)
Theorem run_evaluates_log_probabilities (w : World) (tr : list event) :
  let out := run self w tr in
  (forall y_true y_score, Evaluate y_true y_score ∈ snd out ->
     Evaluate y_true y_score ∈ tr \/
     (y_true = dados_y self /\
      exists m df pipe fp scores,
        fst (fst (get_best_model w [])) = Ok (m, df) /\
        pipeline_of self m df pipe /\
        fit pipe (dados_X self) (dados_y self) = Ok fp /\
        predict_log_proba fp (dados_X self) = Ok scores /\
        length y_score = length scores /\
        forall i row, scores !! i = Some row ->
          exists x, row !! 1 = Some x /\ y_score !! i = Some x)) /\
  (forall rid key val, LogMetric rid key val ∈ snd out ->
     LogMetric rid key val ∈ tr \/
     (key = valid_roc_auc /\
      exists m df pipe fp scores y_score,
        fst (fst (get_best_model w [])) = Ok (m, df) /\
        pipeline_of self m df pipe /\
        fit pipe (dados_X self) (dados_y self) = Ok fp /\
        predict_log_proba fp (dados_X self) = Ok scores /\
        length y_score = length scores /\
        (forall i row, scores !! i = Some row ->
           exists x, row !! 1 = Some x /\ y_score !! i = Some x) /\
        evaluate_predictions (model pipe) (dados_X self) (dados_y self)
                             (dados_y self) y_score = Ok val)) /\
  (fst (fst out) = Ok tt ->
   exists pipe y_score rid val,
     Evaluate (dados_y self) y_score ∈ snd out /\
     evaluate_predictions (model pipe) (dados_X self) (dados_y self)
                          (dados_y self) y_score = Ok val /\
     LogMetric rid valid_roc_auc val ∈ snd out).
Proof.
  intros out. subst out.
  destruct (run_events w tr) as (evs & E & Hevs).
  assert (forall ev, ev ∈ snd (run self w tr) ->
            ev ∈ tr \/ ev = info_best \/ ev = search_best \/
            exists m df, fst (fst (get_best_model w [])) = Ok (m, df) /\
                         training_event self m df ev) as Hall.
  { intros ev Hin. rewrite E in Hin.
    apply elem_of_app in Hin as [Hin|Hin]; [by left|].
    apply elem_of_cons in Hin as [->|Hin]; [by right; left|].
    apply elem_of_cons in Hin as [->|Hin]; [by right; right; left|].
    do 3 right. destruct Hevs as [->|(m & df & Hbest & Hev)].
    - by apply elem_of_nil in Hin.
    - exists m, df. split; [exact Hbest|]. by apply (proj1 (Forall_forall _ _) Hev). }
  split; [|split].
  - intros y_true y_score Hin.
    destruct (Hall _ Hin) as [Htr|[Heq|[Heq|(m & df & Hbest & Hev)]]];
      [by left|discriminate|discriminate|]. right.
    destruct Hev as (-> & pipe & Hpipe & fp & scores & Hfit & Hsc & Hlen & Hrows).
    split; [reflexivity|]. by exists m, df, pipe, fp, scores.
  - intros rid key val Hin.
    destruct (Hall _ Hin) as [Htr|[Heq|[Heq|(m & df & Hbest & Hev)]]];
      [by left|discriminate|discriminate|]. right.
    destruct Hev as (-> & pipe & y_score & (Hpipe & fp & scores & Hfit & Hsc & Hlen & Hrows)
                     & Hval).
    split; [reflexivity|]. by exists m, df, pipe, fp, scores, y_score.
  - clear E Hevs Hall. intros Hok.
    destruct (run self w tr) as [[r w'] tr'] eqn:Hrun. simpl in Hok. subst r.
    apply run_ok in Hrun as (m & df & pipe & fp & scores & preds & val & ex & v' &
      _ & _ & _ & _ & _ & _ & Hval & _ & _ & _ & ->).
    exists pipe, preds, (new_run_id (runs (after_with_block self (server w)))), val.
    cbn [snd].
    split; [apply elem_of_app; right; do 8 right; left|].
    split; [exact Hval|]. apply elem_of_app. right. do 10 right. left.
Qed.
End Scores.

(** The run of [ex_self] with the classifier of two different
    columns: the matrix of log scores, the scores handed to the
    helper (its column 1), and the metric logged. *)
Lemma run_evaluates_log_probabilities_witness :
  let out := run_skewed ex_self ex_world [] in
  (forall pipe, predict_log_proba (Sklearn := sklearn_skewed) pipe ex_X =
                  Ok [ [- (13863 # 10000); - (2877 # 10000)];
                       [- (6931 # 10000); - (6931 # 10000)];
                       [- (13863 # 10000); - (2877 # 10000)] ]) /\
  Evaluate ex_y [- (2877 # 10000); - (6931 # 10000); - (2877 # 10000)] ∈ snd out /\
  LogMetric "a1b2c3d40a1b2c3d40" valid_roc_auc (3 # 4) ∈ snd out /\
  (forall y_true y_score, Evaluate y_true y_score ∈ snd out ->
     Evaluate y_true y_score ∈ [] \/
     (y_true = dados_y ex_self /\
      exists m df pipe fp scores,
        fst (fst (get_best_model ex_world [])) = Ok (m, df) /\
        pipeline_of ex_self m df pipe /\
        fit (Sklearn := sklearn_skewed) pipe (dados_X ex_self) (dados_y ex_self) = Ok fp /\
        predict_log_proba (Sklearn := sklearn_skewed) fp (dados_X ex_self) = Ok scores /\
        length y_score = length scores /\
        forall i row, scores !! i = Some row ->
          exists x, row !! 1 = Some x /\ y_score !! i = Some x)) /\
  (forall rid key val, LogMetric rid key val ∈ snd out ->
     LogMetric rid key val ∈ [] \/
     (key = valid_roc_auc /\
      exists m df pipe fp scores y_score,
        fst (fst (get_best_model ex_world [])) = Ok (m, df) /\
        pipeline_of ex_self m df pipe /\
        fit (Sklearn := sklearn_skewed) pipe (dados_X ex_self) (dados_y ex_self) = Ok fp /\
        predict_log_proba (Sklearn := sklearn_skewed) fp (dados_X ex_self) = Ok scores /\
        length y_score = length scores /\
        (forall i row, scores !! i = Some row ->
           exists x, row !! 1 = Some x /\ y_score !! i = Some x) /\
        evaluate_predictions (Sklearn := sklearn_skewed) (model pipe)
          (dados_X ex_self) (dados_y ex_self) (dados_y ex_self) y_score = Ok val)) /\
  (fst (fst out) = Ok tt ->
   exists pipe y_score rid val,
     Evaluate (dados_y ex_self) y_score ∈ snd out /\
     evaluate_predictions (Sklearn := sklearn_skewed) (model pipe)
       (dados_X ex_self) (dados_y ex_self) (dados_y ex_self) y_score = Ok val /\
     LogMetric rid valid_roc_auc val ∈ snd out).
Proof.
  split; [reflexivity|].
  split; [vm_compute; do 8 right; left|].
  split; [vm_compute; do 10 right; left|].
  exact (@run_evaluates_log_probabilities insertion_sorting reference_backend
           pyobjects builtins sklearn_skewed ex_self ex_world []).
Defined.

(** C10, the claim as stated fails.  The best run logged, as its
    [warm_start], an expression that reads [df_best_params]: two
    frames of best parameters that differ in [fit_intercept] only
    give two classifiers that differ in [warm_start]. *)
Lemma run_reads_fit_intercept_in_eval :
  agree_except "fit_intercept" (ex_scope_params "True") (ex_scope_params "False") /\
  values0 (ex_scope_params "True") "warm_start" = Ok (Some reads_fit_intercept) /\
  values0 (ex_scope_params "False") "warm_start" = Ok (Some reads_fit_intercept) /\
  fst (fst (with_block_in_scope ex_self (Some (95 # 100)) (ex_scope_params "True")
              ex_world [])) =
    Ok {| warm_start := "True"; multi_class := Some "auto";
          class_weight := Some "balanced"; max_iter := 100; C := 5 # 10;
          solver := Some "saga"; tol := 1 # 10000;
          fit_intercept := true; penalty := "l2" |} /\
  fst (fst (with_block_in_scope ex_self (Some (95 # 100)) (ex_scope_params "False")
              ex_world [])) =
    Ok {| warm_start := "False"; multi_class := Some "auto";
          class_weight := Some "balanced"; max_iter := 100; C := 5 # 10;
          solver := Some "saga"; tol := 1 # 10000;
          fit_intercept := true; penalty := "l2" |} /\
  fst (fst (with_block_in_scope ex_self (Some (95 # 100)) (ex_scope_params "True")
              ex_world [])) <>
  fst (fst (with_block_in_scope ex_self (Some (95 # 100)) (ex_scope_params "False")
              ex_world [])).
Proof.
  split.
  { intros c Hc. unfold values0, ex_scope_params, best_params_columns.
    cbn -[String.eqb].
    repeat match goal with
           | |- context [String.eqb ?s c] =>
               destruct (String.eqb_spec s c) as [<-|_]; [reflexivity || done|]
           end.
    reflexivity. }
  split; [vm_compute; reflexivity|]. split; [vm_compute; reflexivity|].
  split; [vm_compute; reflexivity|]. split; [vm_compute; reflexivity|].
  vm_compute. discriminate.
Qed.

(** [param] on two frames that hold the same cell, through two
    built-ins that agree on it. *)
Lemma param_call_ext {A} (df1 df2 : ParamsFrame) (col what : string)
    (f1 f2 : string -> result A) :
  values0 df1 col = values0 df2 col ->
  (forall s, values0 df1 col = Ok (Some s) -> f1 s = f2 s) ->
  param df1 col (call_on_cell f1 what) = param df2 col (call_on_cell f2 what).
Proof.
  intros Hcell Hf. unfold param. rewrite <- Hcell.
  destruct (values0 df1 col) as [[s|]|e]; [|reflexivity|reflexivity].
  unfold Eff.bind, Eff.lift, call_on_cell. by rewrite (Hf s eq_refl).
Qed.

(** C10, amended.  [run] never passes [fit_intercept] to the
    constructor: the classifier it builds has the default
    [fit_intercept=True] whatever the best run logged.  For two
    frames of best parameters that differ in [fit_intercept] only,
    the [with] block of [run], where the classifier is built, does the
    same and returns the same classifier, and so do the statements
    after it, provided the four texts that [run] hands to [eval]
    evaluate to the same objects with either frame in scope (as
    literals and constructor calls do). *)
Theorem run_ignores_fit_intercept
    `{Sorting} `{Backend} `{Builtins} `{!Sklearn}
    (self : TrainModels) (m : option Q) (df1 df2 : ParamsFrame) :
  agree_except "fit_intercept" df1 df2 ->
  (forall c s model,
     c ∈ ["warm_start"; "imputer"; "discretizer"; "scaler"] ->
     values0 df1 c = Ok (Some s) ->
     py_eval {| scope_self := self; scope_underscore := m;
                scope_df_best_params := df1; scope_model := model |} s =
     py_eval {| scope_self := self; scope_underscore := m;
                scope_df_best_params := df2; scope_model := model |} s) ->
  with_start_run (Some "final_model") (run_with_body self m df1) =
    with_start_run (Some "final_model") (run_with_body self m df2) /\
  (forall clf, run_after_with self m df1 clf = run_after_with self m df2 clf) /\
  forall w tr clf w' tr',
    with_start_run (Some "final_model") (run_with_body self m df1) w tr = (Ok clf, w', tr') ->
    fit_intercept clf = true.
Proof.
  intros Hagree Heval.
  assert (forall c, c <> "fit_intercept" -> forall A (f : option string -> M A),
            param df1 c f = param df2 c f) as Hparam.
  { intros c Hc A f. unfold param. by rewrite (Hagree c Hc). }
  assert (forall c model, c ∈ ["warm_start"; "imputer"; "discretizer"; "scaler"] ->
            param df1 c (call_on_cell
                           (py_eval {| scope_self := self; scope_underscore := m;
                                       scope_df_best_params := df1;
                                       scope_model := model |}) "eval") =
            param df2 c (call_on_cell
                           (py_eval {| scope_self := self; scope_underscore := m;
                                       scope_df_best_params := df2;
                                       scope_model := model |}) "eval")) as Hcall.
  { intros c model Hc. apply param_call_ext.
    - apply (Hagree c). intros ->. apply list_elem_of_In in Hc. simpl in Hc.
      repeat (destruct Hc as [Hc|Hc]; [discriminate Hc|]). destruct Hc.
    - intros s Hs. by apply (Heval c). }
  split; [|split].
  - unfold run_with_body. cbv zeta.
    rewrite (Hcall "warm_start" None) by (apply list_elem_of_In; simpl; tauto).
    by rewrite !Hparam by done.
  - intros clf. unfold run_after_with. cbv zeta.
    rewrite (Hcall "imputer" (Some clf)) by (apply list_elem_of_In; simpl; tauto).
    rewrite (Hcall "discretizer" (Some clf)) by (apply list_elem_of_In; simpl; tauto).
    by rewrite (Hcall "scaler" (Some clf)) by (apply list_elem_of_In; simpl; tauto).
  - intros w tr clf w' tr' Hrun. apply with_block_ok in Hrun as (_ & _ & _ & Hclf).
    apply Hclf.
Qed.

(** The best parameters of [ex_runs] hold literals and constructor
    calls only: even with the [eval] that can read its scope, the
    classifier is the same for both values of [fit_intercept]. *)
Lemma run_ignores_fit_intercept_witness :
  agree_except "fit_intercept" (ex_best_params "True") (ex_best_params "False") /\
  ex_best_params "True" <> ex_best_params "False" /\
  fst (fst (with_block_in_scope ex_self (Some (95 # 100)) (ex_best_params "True")
              ex_world [])) =
    Ok {| warm_start := "False"; multi_class := Some "auto";
          class_weight := Some "balanced"; max_iter := 100; C := 5 # 10;
          solver := Some "saga"; tol := 1 # 10000;
          fit_intercept := true; penalty := "l2" |} /\
  fst (fst (with_block_in_scope ex_self (Some (95 # 100)) (ex_best_params "False")
              ex_world [])) =
    Ok {| warm_start := "False"; multi_class := Some "auto";
          class_weight := Some "balanced"; max_iter := 100; C := 5 # 10;
          solver := Some "saga"; tol := 1 # 10000;
          fit_intercept := true; penalty := "l2" |} /\
  with_block_in_scope ex_self (Some (95 # 100)) (ex_best_params "True") =
    with_block_in_scope ex_self (Some (95 # 100)) (ex_best_params "False") /\
  (forall clf,
     @run_after_with reference_backend pyobjects builtins_in_scope sklearn
       ex_self (Some (95 # 100)) (ex_best_params "True") clf =
     @run_after_with reference_backend pyobjects builtins_in_scope sklearn
       ex_self (Some (95 # 100)) (ex_best_params "False") clf) /\
  forall w tr clf w' tr',
    with_block_in_scope ex_self (Some (95 # 100)) (ex_best_params "True") w tr
      = (Ok clf, w', tr') ->
    fit_intercept clf = true.
Proof.
  assert (agree_except "fit_intercept" (ex_best_params "True") (ex_best_params "False"))
    as Hagree.
  { intros c Hc. unfold values0, ex_best_params, best_params_columns.
    cbn -[String.eqb].
    repeat match goal with
           | |- context [String.eqb ?s c] =>
               destruct (String.eqb_spec s c) as [<-|_]; [reflexivity || done|]
           end.
    reflexivity. }
  split; [exact Hagree|]. split; [discriminate|].
  split; [vm_compute; reflexivity|]. split; [vm_compute; reflexivity|].
  apply (@run_ignores_fit_intercept insertion_sorting reference_backend pyobjects
           builtins_in_scope sklearn ex_self (Some (95 # 100)) _ _ Hagree).
  intros c s model Hc Hs. apply list_elem_of_In in Hc. simpl in Hc.
  destruct Hc as [<-|[<-|[<-|[<-|[]]]]]; vm_compute in Hs; injection Hs as <-;
    reflexivity.
Defined.

End RunSpec.


(** ** More properties of [run] *)

Module RunMore.
Import Mlflow RunsTable Pandas Train TrainTerms Reference ReferenceFacts RunsTableFacts.
Import BestModelSpec RunFacts Examples MoreExamples.

#[local] Arguments update_run : simpl never.
#[local] Arguments add_run : simpl never.
#[local] Arguments new_run : simpl never.
#[local] Arguments with_status : simpl never.
#[local] Arguments with_tag : simpl never.
#[local] Arguments values0 : simpl never.

Section WithBlock.
Context `{Backend} `{Builtins}.
Variable self : TrainModels.

(** On an active run the body of the [with] block sets the tag and
    then only computes: its outcome is that of the computation, the
    tag is set either way. *)
Lemma run_with_body_forward (m : option Q) (df : ParamsFrame)
    (w : World) (tr : list event) (rid : string) (stack : list string) :
  active_runs w = rid :: stack ->
  exists res,
    run_with_body self m df w tr =
      (res,
       {| server := update_run rid (with_tag "model_name" (model_name self)) (server w);
          active_runs := rid :: stack |},
       tr ++ [SetTag rid "model_name" (model_name self)]).
Proof.
  intros Hact. unfold run_with_body. cbv zeta. unfold Eff.bind at 1.
  rewrite (set_tag_eq _ _ _ _ _ _ Hact).
  unfold param, call_on_cell, Eff.bind, Eff.lift, Eff.ret, Eff.raise.
  repeat (case_match; simplify_eq); eexists; reflexivity.
Qed.

Lemma with_block_forward (m : option Q) (df : ParamsFrame)
    (w : World) (tr : list event) :
  active_runs w = [] ->
  let r1 := new_run_id (runs (server w)) in
  exists res,
    fst (fst (run_with_body self m df
                {| server := add_run (new_run r1 (Some "final_model")) (server w);
                   active_runs := [r1] |}
                (tr ++ [StartRun r1 (Some "final_model")]))) = res /\
    with_start_run (Some "final_model") (run_with_body self m df) w tr =
      (res,
       {| server :=
            update_run r1 (with_status (if is_ok res then FINISHED else FAILED))
              (update_run r1 (with_tag "model_name" (model_name self))
                 (add_run (new_run r1 (Some "final_model")) (server w)));
          active_runs := [] |},
       tr ++ [ StartRun r1 (Some "final_model");
               SetTag r1 "model_name" (model_name self);
               EndRun r1 (if is_ok res then FINISHED else FAILED) ]).
Proof.
  intros Hact r1. unfold with_start_run, Eff.bind at 1.
  rewrite (start_run_eq _ w tr Hact). fold r1. cbn [stored_name].
  destruct (run_with_body_forward m df
              {| server := add_run (new_run r1 (Some "final_model")) (server w);
                 active_runs := [r1] |}
              (tr ++ [StartRun r1 (Some "final_model")]) r1 [] eq_refl) as [res Hbody].
  unfold Eff.bind at 1, Eff.try_except. rewrite Hbody.
  destruct res as [clf|e].
  - unfold Eff.bind at 1. rewrite (end_run_eq FINISHED _ _ r1 []) by reflexivity.
    exists (Ok clf). split; [reflexivity|].
    unfold Eff.ret. simpl. by repeat rewrite <- app_assoc.
  - unfold Eff.bind at 1. rewrite (end_run_eq FAILED _ _ r1 []) by reflexivity.
    exists (Raise e). split; [reflexivity|].
    unfold Eff.raise. simpl. by repeat rewrite <- app_assoc.
Qed.
End WithBlock.


Section Run.
Context `{Sorting} `{Backend} `{Builtins} `{!Sklearn}.
Variable self : TrainModels.

Definition info_train : event :=
  LogInfo ("Iniciando o treinamento do modelo: " +:+ model_name self).

(** X12.  The [with mlflow.start_run] block of [run] always ends the
    run it started: started with no active run, it creates the run
    [final_model], tags it, and ends it as FINISHED when the
    classifier could be built and as FAILED when building it raised
    (the exception goes on); in both cases no run is active after the
    block. *)
Theorem with_block_always_ends_run (m : option Q) (df : ParamsFrame)
    (w : World) (tr : list event) :
  active_runs w = [] ->
  let r1 := new_run_id (runs (server w)) in
  exists res,
    with_start_run (Some "final_model") (run_with_body self m df) w tr =
      (res,
       {| server :=
            update_run r1 (with_status (if is_ok res then FINISHED else FAILED))
              (update_run r1 (with_tag "model_name" (model_name self))
                 (add_run (new_run r1 (Some "final_model")) (server w)));
          active_runs := [] |},
       tr ++ [ StartRun r1 (Some "final_model");
               SetTag r1 "model_name" (model_name self);
               EndRun r1 (if is_ok res then FINISHED else FAILED) ]).
Proof.
  intros Hact r1.
  destruct (with_block_forward self m df w tr Hact) as (res & _ & Heq).
  exists res. exact Heq.
Qed.

(** What [run] does when a run is already active. *)
Lemma run_with_active_run (w : World) (tr : list event)
    (rid : string) (stack : list string) :
  active_runs w = rid :: stack ->
  run self w tr =
    match fst (fst (get_best_model w [])) with
    | Ok _ =>
        (Raise (Exn Exception ("Run with UUID " +:+ rid +:+ " is already active")),
         w, tr ++ [info_best; search_best; info_train])
    | Raise e => (Raise e, w, tr ++ [info_best; search_best])
    end.
Proof.
  intros Hact. unfold run, Eff.bind at 1. rewrite get_best_model_reads.
  destruct (fst (fst (get_best_model w []))) as [best|e]; [|reflexivity].
  cbv zeta. unfold Eff.bind at 1, Eff.emit. unfold Eff.bind at 1.
  unfold with_start_run, Eff.bind at 1. unfold start_run, Eff.bind at 1, Eff.get.
  rewrite Hact. unfold Eff.raise, info_train. by repeat rewrite <- app_assoc.
Qed.

(** X13.  Called while a run is active, [run] does not train: once
    the best run is found, [start_run] refuses to open a second run
    and [run] ends with that exception, the server and the active
    runs being as before. *)
Theorem run_refused_while_run_active (w : World) (tr : list event)
    (rid : string) (stack : list string) (best : option Q * ParamsFrame) :
  active_runs w = rid :: stack ->
  fst (fst (get_best_model w [])) = Ok best ->
  run self w tr =
    (Raise (Exn Exception ("Run with UUID " +:+ rid +:+ " is already active")),
     w, tr ++ [info_best; search_best; info_train]).
Proof.
  intros Hact Hbest. rewrite (run_with_active_run w tr rid stack Hact).
  by rewrite Hbest.
Qed.

(** X14.  [run] never succeeds twice in a row in one process: the
    run opened for the metric is left active by the first call, so a
    second call on the state it leaves fails. *)
Theorem run_fails_after_run (w : World) (tr : list event) (w' : World)
    (tr' tr2 : list event) :
  run self w tr = (Ok tt, w', tr') ->
  is_ok (fst (fst (run self w' tr2))) = false /\
  snd (fst (run self w' tr2)) = w'.
Proof.
  intros Hrun.
  apply run_ok in Hrun as (m & df & pipe & fp & scores & preds & val & ex & v' &
    _ & _ & _ & _ & _ & _ & _ & _ & _ & -> & _).
  erewrite (run_with_active_run _ tr2); [|reflexivity].
  by destruct (fst (fst (get_best_model _ []))).
Qed.

(** The classifier cannot be built when the best run did not log
    [warm_start]: [eval] is given [None]. *)
Lemma run_with_body_unlogged (m : option Q) (df : ParamsFrame)
    (w : World) (tr : list event) (rid : string) (stack : list string) :
  active_runs w = rid :: stack ->
  values0 df "warm_start" = Ok None ->
  exists msg, fst (fst (run_with_body self m df w tr)) = Raise (Exn TypeError msg).
Proof.
  intros Hact Hws. unfold run_with_body. cbv zeta. unfold Eff.bind at 1.
  rewrite (set_tag_eq _ _ _ _ _ _ Hact).
  unfold param, Eff.bind at 1, Eff.bind at 1, Eff.lift. rewrite Hws.
  eexists. reflexivity.
Qed.

(** X18.  When the best run did not log [warm_start] (its cell is
    missing in the frame of best parameters), [run] fails with a
    [TypeError] before anything is fitted: the run [final_model] is
    created, tagged and ended as FAILED, no run is left active, and the
    registry is as before. *)
Theorem run_fails_on_unlogged_warm_start (w : World) (tr : list event)
    (m : option Q) (df : ParamsFrame) :
  active_runs w = [] ->
  fst (fst (get_best_model w [])) = Ok (m, df) ->
  values0 df "warm_start" = Ok None ->
  let r1 := new_run_id (runs (server w)) in
  exists msg w',
    run self w tr =
      (Raise (Exn TypeError msg), w',
       tr ++ [ info_best; search_best; info_train;
               StartRun r1 (Some "final_model");
               SetTag r1 "model_name" (model_name self);
               EndRun r1 FAILED ]) /\
    active_runs w' = [] /\
    model_versions (server w') = model_versions (server w) /\
    aliases (server w') = aliases (server w).
Proof.
  intros Hact Hbest Hws r1.
  destruct (with_block_forward self m df w (tr ++ [info_best; search_best; info_train]) Hact)
    as (res & Hres & Heq).
  fold r1 in Hres, Heq.
  destruct (run_with_body_unlogged m df
              {| server := add_run (new_run r1 (Some "final_model")) (server w);
                 active_runs := [r1] |}
              ((tr ++ [info_best; search_best; info_train]) ++
               [StartRun r1 (Some "final_model")]) r1 [] eq_refl Hws) as [msg Hmsg].
  rewrite Hmsg in Hres. subst res. simpl in Heq.
  exists msg. eexists. split.
  { unfold run, Eff.bind at 1. rewrite get_best_model_reads, Hbest.
    cbv zeta. cbn [fst snd].
    unfold Eff.bind at 1, Eff.emit. unfold Eff.bind at 1. fold info_train.
    simpl snd. rewrite <- app_assoc. simpl app. rewrite Heq.
    repeat rewrite <- app_assoc. reflexivity. }
  by repeat split.
Qed.

(** X16.  On a feature frame without rows [run] cannot succeed,
    whatever scikit-learn does with it: the input example
    [dados_X.iloc[[0]]] does not exist. *)
Theorem run_fails_on_empty_frame (w : World) (tr : list event) :
  df_rows (dados_X self) = [] ->
  is_ok (fst (fst (run self w tr))) = false.
Proof.
  intros Hempty.
  destruct (run self w tr) as [[[[]|e] w'] tr'] eqn:Hrun; [|reflexivity].
  apply run_ok in Hrun as (m & df & pipe & fp & scores & preds & val & ex & v' &
    _ & _ & _ & _ & _ & _ & _ & Hex & _).
  unfold iloc0 in Hex. rewrite Hempty in Hex. discriminate.
Qed.

Lemma update_run_cons (rid : string) (f : Run -> Run) (s : Server)
    (x : Run) (l : list Run) :
  runs s = x :: l -> run_id x = rid -> rid ∉ (run_id <$> l) ->
  runs (update_run rid f s) = f x :: l.
Proof.
  intros Hruns Hx Hfresh. unfold update_run. simpl. rewrite Hruns, fmap_cons.
  rewrite Hx, String.eqb_refl. f_equal.
  clear Hruns. induction l as [|y l IH]; [reflexivity|].
  rewrite fmap_cons. rewrite fmap_cons in Hfresh.
  apply not_elem_of_cons in Hfresh as [Hy Hl].
  destruct (String.eqb_spec (run_id y) rid) as [Heq|_]; [congruence|].
  f_equal. by apply IH.
Qed.

(** X15.  What a successful [run] leaves on the server, in full.
    Two runs are added in front of the runs that were there, which
    are left as they were.  The first is the run of the [with] block:
    named [final_model], finished, tagged with the model name,
    without metric or parameter.  The second, listed before it, is
    the run that [log_metric] opened: started without a name, so
    under a name that MLflow made up, still running, holding the
    metric [valid_roc_auc] that was logged, no other metric, no
    parameter and not the tag.  The registry gains one version of
    the model, in no stage, numbered one more than the largest number
    so far and attached to the second run; no version is removed or
    changed, and the alias [modelo] of the model is the only alias
    written, with the number of the last entry of [latest_versions].
    The second run is left active. *)
Theorem run_server_effects (w : World) (tr : list event) (w' : World) (tr' : list event) :
  run self w tr = (Ok tt, w', tr') ->
  exists final logged val last_mv,
    runs (server w') = logged :: final :: runs (server w) /\
    run_id final = new_run_id (runs (server w)) /\
    run_name final = Some "final_model" /\
    status final = FINISHED /\
    metrics final = ∅ /\
    params final = ∅ /\
    tags final !! "model_name" = Some (model_name self) /\
    run_id logged = new_run_id (final :: runs (server w)) /\
    run_name logged = Some (new_run_name (final :: runs (server w))) /\
    status logged = RUNNING /\
    metrics logged !! valid_roc_auc = Some val /\
    (forall key, key <> valid_roc_auc -> metrics logged !! key = None) /\
    params logged = ∅ /\
    tags logged !! "model_name" = None /\
    LogMetric (run_id logged) valid_roc_auc val ∈ tr' /\
    let registered :=
      {| mv_name := model_name self;
         version := next_version (versions_of (model_name self) (server w));
         current_stage := StageNone; mv_run_id := run_id logged |} in
    model_versions (server w') = model_versions (server w) ++ [registered] /\
    registered_models (server w') = {[model_name self]} ∪ registered_models (server w) /\
    last (latest_versions (versions_of (model_name self) (server w) ++ [registered]))
      = Some last_mv /\
    aliases (server w') =
      <[(model_name self, alias_name) := version last_mv]> (aliases (server w)) /\
    active_runs w' = [run_id logged].
Proof.
  intros Hrun.
  set (r1 := new_run_id (runs (server w))).
  set (final := with_status FINISHED
                  (with_tag "model_name" (model_name self)
                     (new_run r1 (Some "final_model")))).
  set (r2 := new_run_id (final :: runs (server w))).
  apply run_ok in Hrun as (m & df & pipe & fp & scores & preds & val & ex & v' &
    _ & _ & _ & _ & _ & _ & _ & _ & Hlast & -> & ->).
  assert (runs (after_with_block self (server w)) = final :: runs (server w)) as Hruns0.
  { unfold after_with_block. fold r1.
    apply (update_run_cons r1 _ _ (with_tag "model_name" (model_name self)
                                      (new_run r1 (Some "final_model"))));
      [|reflexivity|apply new_run_id_fresh].
    apply (update_run_cons r1 _ _ (new_run r1 (Some "final_model")));
      [reflexivity|reflexivity|apply new_run_id_fresh]. }
  assert (runs (after_registration self (after_with_block self (server w)) val) =
          with_metric valid_roc_auc val
            (new_run (new_run_id (runs (after_with_block self (server w))))
               (Some (new_run_name (runs (after_with_block self (server w))))))
          :: runs (after_with_block self (server w))) as Hruns1.
  { unfold after_registration, add_version. cbn [runs].
    apply (update_run_cons _ _ _
             (new_run (new_run_id (runs (after_with_block self (server w))))
                (Some (new_run_name (runs (after_with_block self (server w)))))));
      [reflexivity|reflexivity|apply new_run_id_fresh]. }
  rewrite versions_after_registration, versions_after_with_block in Hlast.
  rewrite Hruns0 in Hlast, Hruns1. fold r2 in Hlast, Hruns1.
  unfold last_version in Hlast.
  destruct (last (latest_versions _)) as [last_mv|] eqn:Hl; [|discriminate].
  injection Hlast as <-.
  exists final,
         (with_metric valid_roc_auc val
            (new_run r2 (Some (new_run_name (final :: runs (server w)))))),
         val, last_mv.
  split; [exact Hruns1|].
  do 6 (split; [reflexivity|]).
  do 3 (split; [reflexivity|]).
  split; [apply lookup_insert_eq|].
  split; [intros key Hkey; cbn [metrics with_metric new_run];
          by rewrite lookup_insert_ne|].
  do 2 (split; [reflexivity|]).
  split; [rewrite Hruns0; apply elem_of_app; right; do 10 right; left|].
  cbv zeta.
  split.
  { cbn [server]. unfold set_alias, after_registration, add_version. cbn [model_versions].
    rewrite Hruns0. reflexivity. }
  split; [reflexivity|]. split; [exact Hl|].
  split; [reflexivity|].
  cbn [active_runs]. by rewrite Hruns0.
Qed.
End Run.


Lemma with_block_always_ends_run_witness :
  (let out := with_start_run (Some "final_model")
                (run_with_body ex_self (Some (97 # 100)) ex_none_params) ex_world [] in
   is_ok (fst (fst out)) = false /\
   active_runs (snd (fst out)) = [] /\
   snd out = [ StartRun "a1b2c3d40" (Some "final_model");
               SetTag "a1b2c3d40" "model_name" "prob_loan";
               EndRun "a1b2c3d40" FAILED ]) /\
  exists res,
    with_start_run (Some "final_model")
      (run_with_body ex_self (Some (97 # 100)) ex_none_params) ex_world [] =
      (res,
       {| server :=
            update_run (new_run_id (runs (server ex_world)))
              (with_status (if is_ok res then FINISHED else FAILED))
              (update_run (new_run_id (runs (server ex_world)))
                 (with_tag "model_name" (model_name ex_self))
                 (add_run (new_run (new_run_id (runs (server ex_world)))
                                   (Some "final_model")) (server ex_world)));
          active_runs := [] |},
       [] ++ [ StartRun (new_run_id (runs (server ex_world))) (Some "final_model");
               SetTag (new_run_id (runs (server ex_world))) "model_name" (model_name ex_self);
               EndRun (new_run_id (runs (server ex_world)))
                      (if is_ok res then FINISHED else FAILED) ]).
Proof.
  split; [vm_compute; done|].
  apply (with_block_always_ends_run ex_self (Some (97 # 100)) ex_none_params ex_world []).
  reflexivity.
Defined.

Lemma run_refused_while_run_active_witness :
  run ex_self ex_world_busy [] =
    (Raise (Exn Exception "Run with UUID a1 is already active"),
     ex_world_busy, [] ++ [info_best; search_best; info_train ex_self]).
Proof.
  apply (run_refused_while_run_active ex_self ex_world_busy [] "a1" []
           (Some (95 # 100), ex_best_params "False")).
  - reflexivity.
  - vm_compute. reflexivity.
Defined.

Lemma run_fails_after_run_witness :
  exists w' tr',
    run ex_self ex_world [] = (Ok tt, w', tr') /\
    is_ok (fst (fst (run ex_self w' []))) = false /\
    snd (fst (run ex_self w' [])) = w'.
Proof.
  set (out := run ex_self ex_world []).
  assert (out = (Ok tt, snd (fst out), snd out)) as Hrun by (vm_compute; reflexivity).
  exists (snd (fst out)), (snd out). split; [exact Hrun|].
  exact (run_fails_after_run ex_self ex_world [] _ _ [] Hrun).
Defined.

Lemma run_fails_on_empty_frame_witness :
  is_ok (fst (fst (run ex_self_empty ex_world []))) = false.
Proof. apply (run_fails_on_empty_frame ex_self_empty ex_world []). reflexivity. Defined.

(** On the registry that holds versions 1 and 2: the two runs added,
    field by field, and the third version. *)
Lemma run_server_effects_witness :
  exists w' tr',
    run ex_self ex_world_registered [] = (Ok tt, w', tr') /\
    (version <$> model_versions (server w')) = [1; 2; 3] /\
    (run_id <$> take 2 (runs (server w'))) = ["a1b2c3d40a1b2c3d40"; "a1b2c3d40"] /\
    (run_name <$> take 2 (runs (server w'))) =
      [Some "run-a1b2c3d40a1b2c3d40"; Some "final_model"] /\
    (status <$> take 2 (runs (server w'))) = [RUNNING; FINISHED] /\
    ((fun r => metrics r !! valid_roc_auc) <$> take 2 (runs (server w'))) =
      [Some (1 # 2); None] /\
    ((fun r => tags r !! "model_name") <$> take 2 (runs (server w'))) =
      [None; Some "prob_loan"] /\
    drop 2 (runs (server w')) = ex_runs /\
    aliases (server w') !! ("prob_loan", alias_name) = Some 3 /\
    exists final logged val last_mv,
      runs (server w') = logged :: final :: runs (server ex_world_registered) /\
      run_id final = new_run_id (runs (server ex_world_registered)) /\
      run_name final = Some "final_model" /\
      status final = FINISHED /\
      metrics final = ∅ /\
      params final = ∅ /\
      tags final !! "model_name" = Some (model_name ex_self) /\
      run_id logged = new_run_id (final :: runs (server ex_world_registered)) /\
      run_name logged = Some (new_run_name (final :: runs (server ex_world_registered))) /\
      status logged = RUNNING /\
      metrics logged !! valid_roc_auc = Some val /\
      (forall key, key <> valid_roc_auc -> metrics logged !! key = None) /\
      params logged = ∅ /\
      tags logged !! "model_name" = None /\
      LogMetric (run_id logged) valid_roc_auc val ∈ tr' /\
      let registered :=
        {| mv_name := model_name ex_self;
           version := next_version (versions_of (model_name ex_self)
                                      (server ex_world_registered));
           current_stage := StageNone; mv_run_id := run_id logged |} in
      model_versions (server w') =
        model_versions (server ex_world_registered) ++ [registered] /\
      registered_models (server w') =
        {[model_name ex_self]} ∪ registered_models (server ex_world_registered) /\
      last (latest_versions
              (versions_of (model_name ex_self) (server ex_world_registered) ++ [registered]))
        = Some last_mv /\
      aliases (server w') =
        <[(model_name ex_self, alias_name) := version last_mv]>
          (aliases (server ex_world_registered)) /\
      active_runs w' = [run_id logged].
Proof.
  set (out := run ex_self ex_world_registered []).
  assert (out = (Ok tt, snd (fst out), snd out)) as Hrun by (vm_compute; reflexivity).
  exists (snd (fst out)), (snd out). split; [exact Hrun|].
  do 8 (split; [vm_compute; reflexivity|]).
  exact (run_server_effects ex_self ex_world_registered [] _ _ Hrun).
Defined.


Lemma run_fails_on_unlogged_warm_start_witness :
  fst (fst (get_best_model ex_world_after [])) = Ok (Some (97 # 100), ex_none_params) /\
  exists msg w',
    run ex_self ex_world_after [] =
      (Raise (Exn TypeError msg), w',
       [] ++ [ info_best; search_best; info_train ex_self;
               StartRun (new_run_id (runs (server ex_world_after))) (Some "final_model");
               SetTag (new_run_id (runs (server ex_world_after))) "model_name"
                      (model_name ex_self);
               EndRun (new_run_id (runs (server ex_world_after))) FAILED ]) /\
    active_runs w' = [] /\
    model_versions (server w') = model_versions (server ex_world_after) /\
    aliases (server w') = aliases (server ex_world_after).
Proof.
  assert (fst (fst (get_best_model ex_world_after [])) = Ok (Some (97 # 100), ex_none_params))
    as Hbest by (vm_compute; reflexivity).
  split; [exact Hbest|].
  apply (run_fails_on_unlogged_warm_start ex_self ex_world_after [] _ _ eq_refl Hbest).
  vm_compute. reflexivity.
Defined.

End RunMore.


(** ** What [run] never does *)

Module RunKeeps.
Import Mlflow RunsTable Pandas Train TrainTerms TrainMoreTerms.
Import ReferenceFacts RunsTableFacts BestModelSpec RunFacts Examples MoreExamples.

Section Extending.
Variable name : string.

Lemma extends_refl (s : Server) : extends name s s.
Proof. by repeat split. Qed.

Lemma extends_trans (s1 s2 s3 : Server) :
  extends name s1 s2 -> extends name s2 s3 -> extends name s1 s3.
Proof.
  intros (Hv & Hm & Hr & Ha) (Hv' & Hm' & Hr' & Ha'). repeat split.
  - by etrans.
  - set_solver.
  - by etrans.
  - intros k Hk. by rewrite Ha', Ha.
Qed.

Lemma extending_ret {A} (a : A) : extending name (Eff.ret a : M A).
Proof. intros w tr. apply extends_refl. Qed.

Lemma extending_raise {A} (e : exn) : extending name (Eff.raise e : M A).
Proof. intros w tr. apply extends_refl. Qed.

Lemma extending_lift {A} (r : result A) : extending name (Eff.lift r : M A).
Proof. intros w tr. apply extends_refl. Qed.

Lemma extending_emit (ev : event) : extending name (Eff.emit ev : M unit).
Proof. intros w tr. apply extends_refl. Qed.

Lemma extending_get : extending name (Eff.get : M World).
Proof. intros w tr. apply extends_refl. Qed.

Lemma extending_bind {A B} (m : M A) (k : A -> M B) :
  extending name m -> (forall a, extending name (k a)) ->
  extending name (Eff.bind m k).
Proof.
  intros Hm Hk w tr. unfold Eff.bind. specialize (Hm w tr).
  destruct (m w tr) as [[[a|e] w1] tr1]; simpl in Hm; [|exact Hm].
  eapply extends_trans; [exact Hm|apply Hk].
Qed.

Lemma extending_try_except {A} (m : M A) (h : exn -> M A) :
  extending name m -> (forall e, extending name (h e)) ->
  extending name (Eff.try_except m h).
Proof.
  intros Hm Hh w tr. unfold Eff.try_except. specialize (Hm w tr).
  destruct (m w tr) as [[[a|e] w1] tr1]; simpl in Hm; [exact Hm|].
  eapply extends_trans; [exact Hm|apply Hh].
Qed.

Lemma extending_modify_server (f : Server -> Server) :
  (forall s, extends name s (f s)) -> extending name (modify_server f).
Proof. intros Hf w tr. apply Hf. Qed.

Lemma extending_set_active (stack : list string) : extending name (set_active stack).
Proof. intros w tr. apply extends_refl. Qed.

Lemma extends_add_run (r : Run) (s : Server) : extends name s (add_run r s).
Proof.
  repeat split; try done. simpl. by apply suffix_cons_r.
Qed.

Lemma extends_update_run (rid : string) (f : Run -> Run) (s : Server) :
  (forall r, run_id (f r) = run_id r) -> extends name s (update_run rid f s).
Proof.
  intros Hf. repeat split; try done.
  rewrite (run_ids_update_run rid f s Hf). done.
Qed.

Lemma extends_add_version (mv : ModelVersion) (s : Server) :
  extends name s (add_version mv s).
Proof.
  repeat split; try done; simpl.
  - by apply prefix_app_r.
  - set_solver.
Qed.

Lemma extends_set_alias (v : nat) (s : Server) :
  extends name s (set_alias name alias_name v s).
Proof.
  repeat split; try done. intros k Hk. simpl. by rewrite lookup_insert_ne.
Qed.
End Extending.


Ltac extending_step :=
  first
    [ apply extending_set_active
    | apply extending_modify_server; intros ?;
      first [ apply extends_add_run
            | apply extends_update_run; done
            | apply extends_add_version
            | apply extends_set_alias ]
    | apply extending_ret
    | apply extending_raise
    | apply extending_lift
    | apply extending_emit
    | apply extending_get
    | apply extending_try_except
    | apply extending_bind
    | match goal with
      | |- forall _, _ => intro
      | |- extending _ (match ?x with _ => _ end) => destruct x
      end
    | progress unfold run, run_with_body, run_after_with, get_best_model, search_runs,
        with_start_run, start_run, end_run, get_or_start_run, set_tag, log_metric,
        log_model, get_registered_model, set_registered_model_alias, param,
        call_on_cell ].

(** X17.  The texts that [run] hands to [eval] being expressions
    that do not write to the tracking server themselves (which is how
    [py_eval] takes them: it returns an object and has no access to
    the server), [run] only adds to the tracking server, whatever its
    outcome, success or any failure on the way: every model version
    that was there is still there, unchanged and in place, no
    registered name is lost, the runs that were there are still
    listed, and no alias is touched but the alias [modelo] of the
    model. *)
Theorem run_only_extends_server `{Sorting} `{Backend} `{Builtins} `{!Sklearn}
    (self : TrainModels) (w : World) (tr : list event) :
  extends (model_name self) (server w) (server (snd (fst (run self w tr)))).
Proof.
  revert w tr. change (extending (model_name self) (run self)).
  repeat extending_step.
Qed.

End RunKeeps.


(** ** The trainer's own run among the candidates *)

Module RunFeedback.
Import Mlflow RunsTable Pandas Train TrainTerms TrainMoreTerms.
Import Reference ReferenceFacts RunsTableFacts BestModelSpec BestModelMore RunFacts RunMore.
Import Examples MoreExamples.

#[local] Arguments update_run : simpl never.
#[local] Arguments add_run : simpl never.
#[local] Arguments new_run : simpl never.
#[local] Arguments with_status : simpl never.
#[local] Arguments with_tag : simpl never.
#[local] Arguments with_metric : simpl never.

Section Feedback.
Context `{Sorting} `{Backend} `{Builtins} `{!Sklearn}.
Variable self : TrainModels.

Lemma runs_after_registration (s : Server) (val : Q) :
  let r1 := new_run_id (runs s) in
  let r2 := new_run_id (runs (after_with_block self s)) in
  let name2 := new_run_name (runs (after_with_block self s)) in
  runs (after_registration self (after_with_block self s) val) =
    with_metric valid_roc_auc val (new_run r2 (Some name2))
    :: with_status FINISHED
         (with_tag "model_name" (model_name self) (new_run r1 (Some "final_model")))
    :: runs s.
Proof.
  intros r1 r2 name2.
  assert (runs (after_with_block self s) =
          with_status FINISHED
            (with_tag "model_name" (model_name self) (new_run r1 (Some "final_model")))
          :: runs s) as Hruns0.
  { unfold after_with_block. fold r1.
    apply (update_run_cons r1 _ _ (with_tag "model_name" (model_name self)
                                      (new_run r1 (Some "final_model"))));
      [|reflexivity|apply new_run_id_fresh].
    apply (update_run_cons r1 _ _ (new_run r1 (Some "final_model")));
      [reflexivity|reflexivity|apply new_run_id_fresh]. }
  rewrite <- Hruns0.
  change (runs (update_run r2 (with_metric valid_roc_auc val)
                  (add_run (new_run r2 (Some name2)) (after_with_block self s)))
          = with_metric valid_roc_auc val (new_run r2 (Some name2))
            :: runs (after_with_block self s)).
  apply (update_run_cons r2 _ _ (new_run r2 (Some name2)));
    [reflexivity|reflexivity|apply new_run_id_fresh].
Qed.

(** X19.  The run that a successful [run] leaves behind holds the
    metric [valid_roc_auc] and no parameter, so it is a candidate of
    the next selection.  When its metric is below one and above the
    metric of every earlier run below one, the next [get_best_model]
    returns that metric with a frame of parameters whose cells are
    all missing. *)
Theorem trained_run_becomes_best (w : World) (tr : list event)
    (w' : World) (tr' : list event) :
  run self w tr = (Ok tt, w', tr') ->
  NoDup (run_id <$> runs (server w)) ->
  exists val rid,
    LogMetric rid valid_roc_auc val ∈ tr' /\
    ((val < 1)%Q ->
     (forall r q, r ∈ runs (server w) -> metrics r !! valid_roc_auc = Some q ->
                  (q < 1)%Q -> (q < val)%Q) ->
     forall tr2,
       fst (fst (get_best_model w' tr2)) = Ok (Some val, unlogged_params 0)).
Proof.
  intros Hrun Hids.
  apply run_ok in Hrun as (m0 & df0 & pipe & fp & scores & preds & val & ex & v' &
    Hbest & _ & _ & _ & _ & _ & _ & _ & _ & -> & ->).
  exists val, (new_run_id (runs (after_with_block self (server w)))).
  split; [apply elem_of_app; right; do 10 right; left|].
  intros Hval Habove tr2.
  set (r1 := new_run_id (runs (server w))).
  set (r2 := new_run_id (runs (after_with_block self (server w)))).
  set (R2 := with_metric valid_roc_auc val
               (new_run r2 (Some (new_run_name (runs (after_with_block self (server w))))))).
  set (w' := {| server := set_alias (model_name self) alias_name v'
                            (after_registration self (after_with_block self (server w)) val);
                active_runs := [r2] |}).
  assert (eligible w' = R2 :: eligible w) as Helig.
  { unfold eligible.
    change (runs (server w')) with
      (runs (after_registration self (after_with_block self (server w)) val)).
    rewrite runs_after_registration. fold r1 r2 R2. cbn [List.filter].
    assert (matches (MetricLt valid_roc_auc 1) R2 = true) as ->.
    { unfold matches, R2, with_metric. simpl. rewrite lookup_insert_eq.
      by apply Qlt_b_true. }
    reflexivity. }
  assert (r2 ∉ (run_id <$> eligible w)) as Hfresh.
  { intros Hin. apply (new_run_id_fresh (runs (after_with_block self (server w)))).
    fold r2. rewrite run_ids_after_with_block. right.
    eapply elem_of_sublist; [exact Hin|].
    apply fmap_sublist, List_filter_sublist. }
  destruct (best_run_forward w' tr2) as (r & lbl & m & Hlbl & Hm & Hmax & ->).
  { by rewrite Helig. }
  { rewrite Helig, fmap_cons. apply NoDup_cons. split; [exact Hfresh|].
    eapply sublist_NoDup; [exact Hids|]. apply fmap_sublist, List_filter_sublist. }
  { intros c Hc. destruct (returned_columns_logged w [] (m0, df0) Hbest c Hc) as (r & Hr & Hs).
    exists r. split; [|exact Hs]. rewrite Helig. by right. }
  assert (metrics R2 !! valid_roc_auc = Some val) as HmR2.
  { unfold R2, with_metric. simpl. apply lookup_insert_eq. }
  assert ((val <= m)%Q) as Hle.
  { apply (Hmax R2 val); [rewrite Helig; left|exact HmR2]. }
  rewrite Helig in Hlbl. destruct lbl as [|i]; simpl in Hlbl.
  - injection Hlbl as <-. rewrite HmR2 in Hm. injection Hm as <-.
    unfold params_frame_of, unlogged_params. do 4 f_equal.
  - exfalso. apply list_elem_of_lookup_2 in Hlbl.
    apply elem_of_eligible in Hlbl as [Hin (q & Hq & Hlt)].
    rewrite Hq in Hm. injection Hm as ->.
    exact (Qlt_not_le _ _ (Habove r m Hin Hq Hlt) Hle).
Qed.
End Feedback.

(** The search scored at most 0.40; the trainer's own run scores
    0.5 on its training data and is what the next selection returns. *)
Lemma trained_run_becomes_best_witness :
  exists w' tr',
    run ex_self ex_world_low [] = (Ok tt, w', tr') /\
    NoDup (run_id <$> runs (server ex_world_low)) /\
    fst (fst (get_best_model w' [])) = Ok (Some (1 # 2), unlogged_params 0).
Proof.
  set (out := run ex_self ex_world_low []).
  assert (out = (Ok tt, snd (fst out), snd out)) as Hrun by (vm_compute; reflexivity).
  assert (NoDup (run_id <$> runs (server ex_world_low))) as Hids
    by (vm_compute; compute_done).
  exists (snd (fst out)), (snd out). split; [exact Hrun|]. split; [exact Hids|].
  destruct (trained_run_becomes_best ex_self ex_world_low [] _ _ Hrun Hids)
    as (val & rid & Hin & Hnext).
  assert (val = 1 # 2) as ->.
  { apply list_elem_of_In in Hin. vm_compute in Hin.
    repeat (destruct Hin as [Heq|Hin]; [try discriminate|]); [|destruct Hin].
    by injection Heq. }
  apply Hnext; [reflexivity|].
  intros r q Hr Hq _. apply list_elem_of_In in Hr. vm_compute in Hr.
  destruct Hr as [<-|[<-|[]]]; vm_compute in Hq; injection Hq as <-; reflexivity.
Defined.

End RunFeedback.
